(** * autoscrape: the manual-control depth-first scraper

    A shallow embedding of [autoscrape/scrapers/manual.py]
    (class [ManualControlScraper]) and the properties of its input-plan
    generator, pagination follower, crawl engine and snapshot store.

    Modelling conventions.
    - A Python [str] is the list of its code points.  Case mapping,
      upper case, white space and decimal digits are those of the
      interpreter's character database, listed in [Unicode]; [str.lower],
      [str.isupper] and [int] are the interpreter's algorithms over it.
    - Python [int] values of the configuration are [Z]; loop counters that
      start at 0 and only grow are [nat].
    - A generator is the list of the values it yields together with the way
      it ends (exhausted, or an exception raised after the last yield).
    - Methods of the scraper are computations in a state-and-exception monad
      over a [world]: the browser (behind the [Controller] interface, which
      is not part of this file's source), a file system, a clock and the
      trace of the controller calls issued so far.
    - Failures of the operating system (a full disk, a missing parent
      directory) are outside the model: [os.mkdir] and [open] succeed. *)

From Stdlib Require Import String Ascii DecimalString.
From Stdlib Require Import NArith ZArith Lia Bool Arith List Sorted.
Import ListNotations.

Local Open Scope list_scope.

(** ** Python strings *)

(** A character is a code point; a [str] is the list of its characters. *)
Definition char : Type := N.
Definition str : Type := list char.

(** The [str] a literal of the source denotes; the literals of the scraper
    are ASCII. *)
Definition lit (s : string) : str :=
  map N_of_ascii (list_ascii_of_string s).

(** ** The character database

    The properties of code points that [str.lower], [str.isupper] and
    [int] read, from the Unicode Character Database 14.0.0 of the
    interpreter.  The tables are data of the interpreter, not of the
    scraper; they are listed in full. *)

Module Unicode.

Local Open Scope N_scope.

(** A run is the code points [first], [first + step], ..., [count] of them. *)
Definition in_run (c first count step : N) : bool :=
  (first <=? c) && ((c - first) mod step =? 0) && ((c - first) / step <? count).

Definition in_ranges (c : N) (ranges : list (N * N)) : bool :=
  existsb (fun r => (fst r <=? c) && (c <=? snd r)) ranges.

(** Simple lowercase mappings: runs [(first, count, step, image)], the
    code point [first + k * step] of a run being mapped to
    [image + k * step]. *)
Definition lowercase_runs : list (N * N * N * N) :=
  [
    (0x41, 26, 1, 0x61); (0xC0, 23, 1, 0xE0); (0xD8, 7, 1, 0xF8);
    (0x100, 24, 2, 0x101); (0x132, 3, 2, 0x133); (0x139, 8, 2, 0x13A);
    (0x14A, 23, 2, 0x14B); (0x178, 1, 1, 0xFF); (0x179, 3, 2, 0x17A);
    (0x181, 1, 1, 0x253); (0x182, 2, 2, 0x183); (0x186, 1, 1, 0x254);
    (0x187, 1, 1, 0x188); (0x189, 2, 1, 0x256); (0x18B, 1, 1, 0x18C);
    (0x18E, 1, 1, 0x1DD); (0x18F, 1, 1, 0x259); (0x190, 1, 1, 0x25B);
    (0x191, 1, 1, 0x192); (0x193, 1, 1, 0x260); (0x194, 1, 1, 0x263);
    (0x196, 1, 1, 0x269); (0x197, 1, 1, 0x268); (0x198, 1, 1, 0x199);
    (0x19C, 1, 1, 0x26F); (0x19D, 1, 1, 0x272); (0x19F, 1, 1, 0x275);
    (0x1A0, 3, 2, 0x1A1); (0x1A6, 1, 1, 0x280); (0x1A7, 1, 1, 0x1A8);
    (0x1A9, 1, 1, 0x283); (0x1AC, 1, 1, 0x1AD); (0x1AE, 1, 1, 0x288);
    (0x1AF, 1, 1, 0x1B0); (0x1B1, 2, 1, 0x28A); (0x1B3, 2, 2, 0x1B4);
    (0x1B7, 1, 1, 0x292); (0x1B8, 1, 1, 0x1B9); (0x1BC, 1, 1, 0x1BD);
    (0x1C4, 1, 1, 0x1C6); (0x1C5, 1, 1, 0x1C6); (0x1C7, 1, 1, 0x1C9);
    (0x1C8, 1, 1, 0x1C9); (0x1CA, 1, 1, 0x1CC); (0x1CB, 9, 2, 0x1CC);
    (0x1DE, 9, 2, 0x1DF); (0x1F1, 1, 1, 0x1F3); (0x1F2, 2, 2, 0x1F3);
    (0x1F6, 1, 1, 0x195); (0x1F7, 1, 1, 0x1BF); (0x1F8, 20, 2, 0x1F9);
    (0x220, 1, 1, 0x19E); (0x222, 9, 2, 0x223); (0x23A, 1, 1, 0x2C65);
    (0x23B, 1, 1, 0x23C); (0x23D, 1, 1, 0x19A); (0x23E, 1, 1, 0x2C66);
    (0x241, 1, 1, 0x242); (0x243, 1, 1, 0x180); (0x244, 1, 1, 0x289);
    (0x245, 1, 1, 0x28C); (0x246, 5, 2, 0x247); (0x370, 2, 2, 0x371);
    (0x376, 1, 1, 0x377); (0x37F, 1, 1, 0x3F3); (0x386, 1, 1, 0x3AC);
    (0x388, 3, 1, 0x3AD); (0x38C, 1, 1, 0x3CC); (0x38E, 2, 1, 0x3CD);
    (0x391, 17, 1, 0x3B1); (0x3A3, 9, 1, 0x3C3); (0x3CF, 1, 1, 0x3D7);
    (0x3D8, 12, 2, 0x3D9); (0x3F4, 1, 1, 0x3B8); (0x3F7, 1, 1, 0x3F8);
    (0x3F9, 1, 1, 0x3F2); (0x3FA, 1, 1, 0x3FB); (0x3FD, 3, 1, 0x37B);
    (0x400, 16, 1, 0x450); (0x410, 32, 1, 0x430); (0x460, 17, 2, 0x461);
    (0x48A, 27, 2, 0x48B); (0x4C0, 1, 1, 0x4CF); (0x4C1, 7, 2, 0x4C2);
    (0x4D0, 48, 2, 0x4D1); (0x531, 38, 1, 0x561); (0x10A0, 38, 1, 0x2D00);
    (0x10C7, 1, 1, 0x2D27); (0x10CD, 1, 1, 0x2D2D); (0x13A0, 80, 1, 0xAB70);
    (0x13F0, 6, 1, 0x13F8); (0x1C90, 43, 1, 0x10D0); (0x1CBD, 3, 1, 0x10FD);
    (0x1E00, 75, 2, 0x1E01); (0x1E9E, 1, 1, 0xDF); (0x1EA0, 48, 2, 0x1EA1);
    (0x1F08, 8, 1, 0x1F00); (0x1F18, 6, 1, 0x1F10); (0x1F28, 8, 1, 0x1F20);
    (0x1F38, 8, 1, 0x1F30); (0x1F48, 6, 1, 0x1F40); (0x1F59, 4, 2, 0x1F51);
    (0x1F68, 8, 1, 0x1F60); (0x1F88, 8, 1, 0x1F80); (0x1F98, 8, 1, 0x1F90);
    (0x1FA8, 8, 1, 0x1FA0); (0x1FB8, 2, 1, 0x1FB0); (0x1FBA, 2, 1, 0x1F70);
    (0x1FBC, 1, 1, 0x1FB3); (0x1FC8, 4, 1, 0x1F72); (0x1FCC, 1, 1, 0x1FC3);
    (0x1FD8, 2, 1, 0x1FD0); (0x1FDA, 2, 1, 0x1F76); (0x1FE8, 2, 1, 0x1FE0);
    (0x1FEA, 2, 1, 0x1F7A); (0x1FEC, 1, 1, 0x1FE5); (0x1FF8, 2, 1, 0x1F78);
    (0x1FFA, 2, 1, 0x1F7C); (0x1FFC, 1, 1, 0x1FF3); (0x2126, 1, 1, 0x3C9);
    (0x212A, 1, 1, 0x6B); (0x212B, 1, 1, 0xE5); (0x2132, 1, 1, 0x214E);
    (0x2160, 16, 1, 0x2170); (0x2183, 1, 1, 0x2184); (0x24B6, 26, 1, 0x24D0);
    (0x2C00, 48, 1, 0x2C30); (0x2C60, 1, 1, 0x2C61); (0x2C62, 1, 1, 0x26B);
    (0x2C63, 1, 1, 0x1D7D); (0x2C64, 1, 1, 0x27D); (0x2C67, 3, 2, 0x2C68);
    (0x2C6D, 1, 1, 0x251); (0x2C6E, 1, 1, 0x271); (0x2C6F, 1, 1, 0x250);
    (0x2C70, 1, 1, 0x252); (0x2C72, 1, 1, 0x2C73); (0x2C75, 1, 1, 0x2C76);
    (0x2C7E, 2, 1, 0x23F); (0x2C80, 50, 2, 0x2C81); (0x2CEB, 2, 2, 0x2CEC);
    (0x2CF2, 1, 1, 0x2CF3); (0xA640, 23, 2, 0xA641); (0xA680, 14, 2, 0xA681);
    (0xA722, 7, 2, 0xA723); (0xA732, 31, 2, 0xA733); (0xA779, 2, 2, 0xA77A);
    (0xA77D, 1, 1, 0x1D79); (0xA77E, 5, 2, 0xA77F); (0xA78B, 1, 1, 0xA78C);
    (0xA78D, 1, 1, 0x265); (0xA790, 2, 2, 0xA791); (0xA796, 10, 2, 0xA797);
    (0xA7AA, 1, 1, 0x266); (0xA7AB, 1, 1, 0x25C); (0xA7AC, 1, 1, 0x261);
    (0xA7AD, 1, 1, 0x26C); (0xA7AE, 1, 1, 0x26A); (0xA7B0, 1, 1, 0x29E);
    (0xA7B1, 1, 1, 0x287); (0xA7B2, 1, 1, 0x29D); (0xA7B3, 1, 1, 0xAB53);
    (0xA7B4, 8, 2, 0xA7B5); (0xA7C4, 1, 1, 0xA794); (0xA7C5, 1, 1, 0x282);
    (0xA7C6, 1, 1, 0x1D8E); (0xA7C7, 2, 2, 0xA7C8); (0xA7D0, 1, 1, 0xA7D1);
    (0xA7D6, 2, 2, 0xA7D7); (0xA7F5, 1, 1, 0xA7F6); (0xFF21, 26, 1, 0xFF41);
    (0x10400, 40, 1, 0x10428); (0x104B0, 36, 1, 0x104D8);
    (0x10570, 11, 1, 0x10597); (0x1057C, 15, 1, 0x105A3);
    (0x1058C, 7, 1, 0x105B3); (0x10594, 2, 1, 0x105BB);
    (0x10C80, 51, 1, 0x10CC0); (0x118A0, 32, 1, 0x118C0);
    (0x16E40, 32, 1, 0x16E60); (0x1E900, 34, 1, 0x1E922)
  ].

(** Code points with the property [Uppercase]: runs [(first, count, step)]. *)
Definition uppercase_runs : list (N * N * N) :=
  [
    (0x41, 26, 1); (0xC0, 23, 1); (0xD8, 7, 1); (0x100, 28, 2); (0x139, 8, 2);
    (0x14A, 24, 2); (0x179, 3, 2); (0x181, 2, 1); (0x184, 2, 2);
    (0x187, 2, 2); (0x18A, 2, 1); (0x18E, 4, 1); (0x193, 2, 1); (0x196, 3, 1);
    (0x19C, 2, 1); (0x19F, 2, 1); (0x1A2, 3, 2); (0x1A7, 2, 2); (0x1AC, 2, 2);
    (0x1AF, 2, 2); (0x1B2, 2, 1); (0x1B5, 2, 2); (0x1B8, 1, 1); (0x1BC, 1, 1);
    (0x1C4, 1, 1); (0x1C7, 1, 1); (0x1CA, 1, 1); (0x1CD, 8, 2); (0x1DE, 9, 2);
    (0x1F1, 1, 1); (0x1F4, 2, 2); (0x1F7, 2, 1); (0x1FA, 29, 2);
    (0x23A, 2, 1); (0x23D, 2, 1); (0x241, 2, 2); (0x244, 3, 1); (0x248, 4, 2);
    (0x370, 2, 2); (0x376, 1, 1); (0x37F, 1, 1); (0x386, 2, 2); (0x389, 2, 1);
    (0x38C, 2, 2); (0x38F, 2, 2); (0x392, 16, 1); (0x3A3, 9, 1);
    (0x3CF, 1, 1); (0x3D2, 3, 1); (0x3D8, 12, 2); (0x3F4, 1, 1);
    (0x3F7, 2, 2); (0x3FA, 1, 1); (0x3FD, 51, 1); (0x460, 17, 2);
    (0x48A, 28, 2); (0x4C1, 7, 2); (0x4D0, 48, 2); (0x531, 38, 1);
    (0x10A0, 38, 1); (0x10C7, 1, 1); (0x10CD, 1, 1); (0x13A0, 86, 1);
    (0x1C90, 43, 1); (0x1CBD, 3, 1); (0x1E00, 75, 2); (0x1E9E, 49, 2);
    (0x1F08, 8, 1); (0x1F18, 6, 1); (0x1F28, 8, 1); (0x1F38, 8, 1);
    (0x1F48, 6, 1); (0x1F59, 4, 2); (0x1F68, 8, 1); (0x1FB8, 4, 1);
    (0x1FC8, 4, 1); (0x1FD8, 4, 1); (0x1FE8, 5, 1); (0x1FF8, 4, 1);
    (0x2102, 1, 1); (0x2107, 1, 1); (0x210B, 3, 1); (0x2110, 3, 1);
    (0x2115, 1, 1); (0x2119, 5, 1); (0x2124, 4, 2); (0x212B, 3, 1);
    (0x2130, 4, 1); (0x213E, 2, 1); (0x2145, 1, 1); (0x2160, 16, 1);
    (0x2183, 1, 1); (0x24B6, 26, 1); (0x2C00, 48, 1); (0x2C60, 2, 2);
    (0x2C63, 2, 1); (0x2C67, 4, 2); (0x2C6E, 3, 1); (0x2C72, 1, 1);
    (0x2C75, 1, 1); (0x2C7E, 3, 1); (0x2C82, 49, 2); (0x2CEB, 2, 2);
    (0x2CF2, 1, 1); (0xA640, 23, 2); (0xA680, 14, 2); (0xA722, 7, 2);
    (0xA732, 31, 2); (0xA779, 3, 2); (0xA77E, 5, 2); (0xA78B, 2, 2);
    (0xA790, 2, 2); (0xA796, 11, 2); (0xA7AB, 4, 1); (0xA7B0, 5, 1);
    (0xA7B6, 8, 2); (0xA7C5, 3, 1); (0xA7C9, 1, 1); (0xA7D0, 1, 1);
    (0xA7D6, 2, 2); (0xA7F5, 1, 1); (0xFF21, 26, 1); (0x10400, 40, 1);
    (0x104B0, 36, 1); (0x10570, 11, 1); (0x1057C, 15, 1); (0x1058C, 7, 1);
    (0x10594, 2, 1); (0x10C80, 51, 1); (0x118A0, 32, 1); (0x16E40, 32, 1);
    (0x1D400, 26, 1); (0x1D434, 26, 1); (0x1D468, 26, 1); (0x1D49C, 2, 2);
    (0x1D49F, 1, 1); (0x1D4A2, 1, 1); (0x1D4A5, 2, 1); (0x1D4A9, 4, 1);
    (0x1D4AE, 8, 1); (0x1D4D0, 26, 1); (0x1D504, 2, 1); (0x1D507, 4, 1);
    (0x1D50D, 8, 1); (0x1D516, 7, 1); (0x1D538, 2, 1); (0x1D53B, 4, 1);
    (0x1D540, 5, 1); (0x1D546, 1, 1); (0x1D54A, 7, 1); (0x1D56C, 26, 1);
    (0x1D5A0, 26, 1); (0x1D5D4, 26, 1); (0x1D608, 26, 1); (0x1D63C, 26, 1);
    (0x1D670, 26, 1); (0x1D6A8, 25, 1); (0x1D6E2, 25, 1); (0x1D71C, 25, 1);
    (0x1D756, 25, 1); (0x1D790, 25, 1); (0x1D7CA, 1, 1); (0x1E900, 34, 1);
    (0x1F130, 26, 1); (0x1F150, 26, 1); (0x1F170, 26, 1)
  ].

(** Code points with the property [Cased]: ranges [(first, last)]. *)
Definition cased_ranges : list (N * N) :=
  [
    (0x41, 0x5A); (0x61, 0x7A); (0xAA, 0xAA); (0xB5, 0xB5); (0xBA, 0xBA);
    (0xC0, 0xD6); (0xD8, 0xF6); (0xF8, 0x1BA); (0x1BC, 0x1BF); (0x1C4, 0x293);
    (0x295, 0x2B8); (0x2C0, 0x2C1); (0x2E0, 0x2E4); (0x345, 0x345);
    (0x370, 0x373); (0x376, 0x377); (0x37A, 0x37D); (0x37F, 0x37F);
    (0x386, 0x386); (0x388, 0x38A); (0x38C, 0x38C); (0x38E, 0x3A1);
    (0x3A3, 0x3F5); (0x3F7, 0x481); (0x48A, 0x52F); (0x531, 0x556);
    (0x560, 0x588); (0x10A0, 0x10C5); (0x10C7, 0x10C7); (0x10CD, 0x10CD);
    (0x10D0, 0x10FA); (0x10FD, 0x10FF); (0x13A0, 0x13F5); (0x13F8, 0x13FD);
    (0x1C80, 0x1C88); (0x1C90, 0x1CBA); (0x1CBD, 0x1CBF); (0x1D00, 0x1DBF);
    (0x1E00, 0x1F15); (0x1F18, 0x1F1D); (0x1F20, 0x1F45); (0x1F48, 0x1F4D);
    (0x1F50, 0x1F57); (0x1F59, 0x1F59); (0x1F5B, 0x1F5B); (0x1F5D, 0x1F5D);
    (0x1F5F, 0x1F7D); (0x1F80, 0x1FB4); (0x1FB6, 0x1FBC); (0x1FBE, 0x1FBE);
    (0x1FC2, 0x1FC4); (0x1FC6, 0x1FCC); (0x1FD0, 0x1FD3); (0x1FD6, 0x1FDB);
    (0x1FE0, 0x1FEC); (0x1FF2, 0x1FF4); (0x1FF6, 0x1FFC); (0x2071, 0x2071);
    (0x207F, 0x207F); (0x2090, 0x209C); (0x2102, 0x2102); (0x2107, 0x2107);
    (0x210A, 0x2113); (0x2115, 0x2115); (0x2119, 0x211D); (0x2124, 0x2124);
    (0x2126, 0x2126); (0x2128, 0x2128); (0x212A, 0x212D); (0x212F, 0x2134);
    (0x2139, 0x2139); (0x213C, 0x213F); (0x2145, 0x2149); (0x214E, 0x214E);
    (0x2160, 0x217F); (0x2183, 0x2184); (0x24B6, 0x24E9); (0x2C00, 0x2CE4);
    (0x2CEB, 0x2CEE); (0x2CF2, 0x2CF3); (0x2D00, 0x2D25); (0x2D27, 0x2D27);
    (0x2D2D, 0x2D2D); (0xA640, 0xA66D); (0xA680, 0xA69D); (0xA722, 0xA787);
    (0xA78B, 0xA78E); (0xA790, 0xA7CA); (0xA7D0, 0xA7D1); (0xA7D3, 0xA7D3);
    (0xA7D5, 0xA7D9); (0xA7F5, 0xA7F6); (0xA7F8, 0xA7FA); (0xAB30, 0xAB5A);
    (0xAB5C, 0xAB68); (0xAB70, 0xABBF); (0xFB00, 0xFB06); (0xFB13, 0xFB17);
    (0xFF21, 0xFF3A); (0xFF41, 0xFF5A); (0x10400, 0x1044F);
    (0x104B0, 0x104D3); (0x104D8, 0x104FB); (0x10570, 0x1057A);
    (0x1057C, 0x1058A); (0x1058C, 0x10592); (0x10594, 0x10595);
    (0x10597, 0x105A1); (0x105A3, 0x105B1); (0x105B3, 0x105B9);
    (0x105BB, 0x105BC); (0x10780, 0x10780); (0x10783, 0x10785);
    (0x10787, 0x107B0); (0x107B2, 0x107BA); (0x10C80, 0x10CB2);
    (0x10CC0, 0x10CF2); (0x118A0, 0x118DF); (0x16E40, 0x16E7F);
    (0x1D400, 0x1D454); (0x1D456, 0x1D49C); (0x1D49E, 0x1D49F);
    (0x1D4A2, 0x1D4A2); (0x1D4A5, 0x1D4A6); (0x1D4A9, 0x1D4AC);
    (0x1D4AE, 0x1D4B9); (0x1D4BB, 0x1D4BB); (0x1D4BD, 0x1D4C3);
    (0x1D4C5, 0x1D505); (0x1D507, 0x1D50A); (0x1D50D, 0x1D514);
    (0x1D516, 0x1D51C); (0x1D51E, 0x1D539); (0x1D53B, 0x1D53E);
    (0x1D540, 0x1D544); (0x1D546, 0x1D546); (0x1D54A, 0x1D550);
    (0x1D552, 0x1D6A5); (0x1D6A8, 0x1D6C0); (0x1D6C2, 0x1D6DA);
    (0x1D6DC, 0x1D6FA); (0x1D6FC, 0x1D714); (0x1D716, 0x1D734);
    (0x1D736, 0x1D74E); (0x1D750, 0x1D76E); (0x1D770, 0x1D788);
    (0x1D78A, 0x1D7A8); (0x1D7AA, 0x1D7C2); (0x1D7C4, 0x1D7CB);
    (0x1DF00, 0x1DF09); (0x1DF0B, 0x1DF1E); (0x1E900, 0x1E943);
    (0x1F130, 0x1F149); (0x1F150, 0x1F169); (0x1F170, 0x1F189)
  ].

(** Code points with the property [Case_Ignorable]. *)
Definition case_ignorable_ranges : list (N * N) :=
  [
    (0x27, 0x27); (0x2E, 0x2E); (0x3A, 0x3A); (0x5E, 0x5E); (0x60, 0x60);
    (0xA8, 0xA8); (0xAD, 0xAD); (0xAF, 0xAF); (0xB4, 0xB4); (0xB7, 0xB8);
    (0x2B0, 0x36F); (0x374, 0x375); (0x37A, 0x37A); (0x384, 0x385);
    (0x387, 0x387); (0x483, 0x489); (0x559, 0x559); (0x55F, 0x55F);
    (0x591, 0x5BD); (0x5BF, 0x5BF); (0x5C1, 0x5C2); (0x5C4, 0x5C5);
    (0x5C7, 0x5C7); (0x5F4, 0x5F4); (0x600, 0x605); (0x610, 0x61A);
    (0x61C, 0x61C); (0x640, 0x640); (0x64B, 0x65F); (0x670, 0x670);
    (0x6D6, 0x6DD); (0x6DF, 0x6E8); (0x6EA, 0x6ED); (0x70F, 0x70F);
    (0x711, 0x711); (0x730, 0x74A); (0x7A6, 0x7B0); (0x7EB, 0x7F5);
    (0x7FA, 0x7FA); (0x7FD, 0x7FD); (0x816, 0x82D); (0x859, 0x85B);
    (0x888, 0x888); (0x890, 0x891); (0x898, 0x89F); (0x8C9, 0x902);
    (0x93A, 0x93A); (0x93C, 0x93C); (0x941, 0x948); (0x94D, 0x94D);
    (0x951, 0x957); (0x962, 0x963); (0x971, 0x971); (0x981, 0x981);
    (0x9BC, 0x9BC); (0x9C1, 0x9C4); (0x9CD, 0x9CD); (0x9E2, 0x9E3);
    (0x9FE, 0x9FE); (0xA01, 0xA02); (0xA3C, 0xA3C); (0xA41, 0xA42);
    (0xA47, 0xA48); (0xA4B, 0xA4D); (0xA51, 0xA51); (0xA70, 0xA71);
    (0xA75, 0xA75); (0xA81, 0xA82); (0xABC, 0xABC); (0xAC1, 0xAC5);
    (0xAC7, 0xAC8); (0xACD, 0xACD); (0xAE2, 0xAE3); (0xAFA, 0xAFF);
    (0xB01, 0xB01); (0xB3C, 0xB3C); (0xB3F, 0xB3F); (0xB41, 0xB44);
    (0xB4D, 0xB4D); (0xB55, 0xB56); (0xB62, 0xB63); (0xB82, 0xB82);
    (0xBC0, 0xBC0); (0xBCD, 0xBCD); (0xC00, 0xC00); (0xC04, 0xC04);
    (0xC3C, 0xC3C); (0xC3E, 0xC40); (0xC46, 0xC48); (0xC4A, 0xC4D);
    (0xC55, 0xC56); (0xC62, 0xC63); (0xC81, 0xC81); (0xCBC, 0xCBC);
    (0xCBF, 0xCBF); (0xCC6, 0xCC6); (0xCCC, 0xCCD); (0xCE2, 0xCE3);
    (0xD00, 0xD01); (0xD3B, 0xD3C); (0xD41, 0xD44); (0xD4D, 0xD4D);
    (0xD62, 0xD63); (0xD81, 0xD81); (0xDCA, 0xDCA); (0xDD2, 0xDD4);
    (0xDD6, 0xDD6); (0xE31, 0xE31); (0xE34, 0xE3A); (0xE46, 0xE4E);
    (0xEB1, 0xEB1); (0xEB4, 0xEBC); (0xEC6, 0xEC6); (0xEC8, 0xECD);
    (0xF18, 0xF19); (0xF35, 0xF35); (0xF37, 0xF37); (0xF39, 0xF39);
    (0xF71, 0xF7E); (0xF80, 0xF84); (0xF86, 0xF87); (0xF8D, 0xF97);
    (0xF99, 0xFBC); (0xFC6, 0xFC6); (0x102D, 0x1030); (0x1032, 0x1037);
    (0x1039, 0x103A); (0x103D, 0x103E); (0x1058, 0x1059); (0x105E, 0x1060);
    (0x1071, 0x1074); (0x1082, 0x1082); (0x1085, 0x1086); (0x108D, 0x108D);
    (0x109D, 0x109D); (0x10FC, 0x10FC); (0x135D, 0x135F); (0x1712, 0x1714);
    (0x1732, 0x1733); (0x1752, 0x1753); (0x1772, 0x1773); (0x17B4, 0x17B5);
    (0x17B7, 0x17BD); (0x17C6, 0x17C6); (0x17C9, 0x17D3); (0x17D7, 0x17D7);
    (0x17DD, 0x17DD); (0x180B, 0x180F); (0x1843, 0x1843); (0x1885, 0x1886);
    (0x18A9, 0x18A9); (0x1920, 0x1922); (0x1927, 0x1928); (0x1932, 0x1932);
    (0x1939, 0x193B); (0x1A17, 0x1A18); (0x1A1B, 0x1A1B); (0x1A56, 0x1A56);
    (0x1A58, 0x1A5E); (0x1A60, 0x1A60); (0x1A62, 0x1A62); (0x1A65, 0x1A6C);
    (0x1A73, 0x1A7C); (0x1A7F, 0x1A7F); (0x1AA7, 0x1AA7); (0x1AB0, 0x1ACE);
    (0x1B00, 0x1B03); (0x1B34, 0x1B34); (0x1B36, 0x1B3A); (0x1B3C, 0x1B3C);
    (0x1B42, 0x1B42); (0x1B6B, 0x1B73); (0x1B80, 0x1B81); (0x1BA2, 0x1BA5);
    (0x1BA8, 0x1BA9); (0x1BAB, 0x1BAD); (0x1BE6, 0x1BE6); (0x1BE8, 0x1BE9);
    (0x1BED, 0x1BED); (0x1BEF, 0x1BF1); (0x1C2C, 0x1C33); (0x1C36, 0x1C37);
    (0x1C78, 0x1C7D); (0x1CD0, 0x1CD2); (0x1CD4, 0x1CE0); (0x1CE2, 0x1CE8);
    (0x1CED, 0x1CED); (0x1CF4, 0x1CF4); (0x1CF8, 0x1CF9); (0x1D2C, 0x1D6A);
    (0x1D78, 0x1D78); (0x1D9B, 0x1DFF); (0x1FBD, 0x1FBD); (0x1FBF, 0x1FC1);
    (0x1FCD, 0x1FCF); (0x1FDD, 0x1FDF); (0x1FED, 0x1FEF); (0x1FFD, 0x1FFE);
    (0x200B, 0x200F); (0x2018, 0x2019); (0x2024, 0x2024); (0x2027, 0x2027);
    (0x202A, 0x202E); (0x2060, 0x2064); (0x2066, 0x206F); (0x2071, 0x2071);
    (0x207F, 0x207F); (0x2090, 0x209C); (0x20D0, 0x20F0); (0x2C7C, 0x2C7D);
    (0x2CEF, 0x2CF1); (0x2D6F, 0x2D6F); (0x2D7F, 0x2D7F); (0x2DE0, 0x2DFF);
    (0x2E2F, 0x2E2F); (0x3005, 0x3005); (0x302A, 0x302D); (0x3031, 0x3035);
    (0x303B, 0x303B); (0x3099, 0x309E); (0x30FC, 0x30FE); (0xA015, 0xA015);
    (0xA4F8, 0xA4FD); (0xA60C, 0xA60C); (0xA66F, 0xA672); (0xA674, 0xA67D);
    (0xA67F, 0xA67F); (0xA69C, 0xA69F); (0xA6F0, 0xA6F1); (0xA700, 0xA721);
    (0xA770, 0xA770); (0xA788, 0xA78A); (0xA7F2, 0xA7F4); (0xA7F8, 0xA7F9);
    (0xA802, 0xA802); (0xA806, 0xA806); (0xA80B, 0xA80B); (0xA825, 0xA826);
    (0xA82C, 0xA82C); (0xA8C4, 0xA8C5); (0xA8E0, 0xA8F1); (0xA8FF, 0xA8FF);
    (0xA926, 0xA92D); (0xA947, 0xA951); (0xA980, 0xA982); (0xA9B3, 0xA9B3);
    (0xA9B6, 0xA9B9); (0xA9BC, 0xA9BD); (0xA9CF, 0xA9CF); (0xA9E5, 0xA9E6);
    (0xAA29, 0xAA2E); (0xAA31, 0xAA32); (0xAA35, 0xAA36); (0xAA43, 0xAA43);
    (0xAA4C, 0xAA4C); (0xAA70, 0xAA70); (0xAA7C, 0xAA7C); (0xAAB0, 0xAAB0);
    (0xAAB2, 0xAAB4); (0xAAB7, 0xAAB8); (0xAABE, 0xAABF); (0xAAC1, 0xAAC1);
    (0xAADD, 0xAADD); (0xAAEC, 0xAAED); (0xAAF3, 0xAAF4); (0xAAF6, 0xAAF6);
    (0xAB5B, 0xAB5F); (0xAB69, 0xAB6B); (0xABE5, 0xABE5); (0xABE8, 0xABE8);
    (0xABED, 0xABED); (0xFB1E, 0xFB1E); (0xFBB2, 0xFBC2); (0xFE00, 0xFE0F);
    (0xFE13, 0xFE13); (0xFE20, 0xFE2F); (0xFE52, 0xFE52); (0xFE55, 0xFE55);
    (0xFEFF, 0xFEFF); (0xFF07, 0xFF07); (0xFF0E, 0xFF0E); (0xFF1A, 0xFF1A);
    (0xFF3E, 0xFF3E); (0xFF40, 0xFF40); (0xFF70, 0xFF70); (0xFF9E, 0xFF9F);
    (0xFFE3, 0xFFE3); (0xFFF9, 0xFFFB); (0x101FD, 0x101FD);
    (0x102E0, 0x102E0); (0x10376, 0x1037A); (0x10780, 0x10785);
    (0x10787, 0x107B0); (0x107B2, 0x107BA); (0x10A01, 0x10A03);
    (0x10A05, 0x10A06); (0x10A0C, 0x10A0F); (0x10A38, 0x10A3A);
    (0x10A3F, 0x10A3F); (0x10AE5, 0x10AE6); (0x10D24, 0x10D27);
    (0x10EAB, 0x10EAC); (0x10F46, 0x10F50); (0x10F82, 0x10F85);
    (0x11001, 0x11001); (0x11038, 0x11046); (0x11070, 0x11070);
    (0x11073, 0x11074); (0x1107F, 0x11081); (0x110B3, 0x110B6);
    (0x110B9, 0x110BA); (0x110BD, 0x110BD); (0x110C2, 0x110C2);
    (0x110CD, 0x110CD); (0x11100, 0x11102); (0x11127, 0x1112B);
    (0x1112D, 0x11134); (0x11173, 0x11173); (0x11180, 0x11181);
    (0x111B6, 0x111BE); (0x111C9, 0x111CC); (0x111CF, 0x111CF);
    (0x1122F, 0x11231); (0x11234, 0x11234); (0x11236, 0x11237);
    (0x1123E, 0x1123E); (0x112DF, 0x112DF); (0x112E3, 0x112EA);
    (0x11300, 0x11301); (0x1133B, 0x1133C); (0x11340, 0x11340);
    (0x11366, 0x1136C); (0x11370, 0x11374); (0x11438, 0x1143F);
    (0x11442, 0x11444); (0x11446, 0x11446); (0x1145E, 0x1145E);
    (0x114B3, 0x114B8); (0x114BA, 0x114BA); (0x114BF, 0x114C0);
    (0x114C2, 0x114C3); (0x115B2, 0x115B5); (0x115BC, 0x115BD);
    (0x115BF, 0x115C0); (0x115DC, 0x115DD); (0x11633, 0x1163A);
    (0x1163D, 0x1163D); (0x1163F, 0x11640); (0x116AB, 0x116AB);
    (0x116AD, 0x116AD); (0x116B0, 0x116B5); (0x116B7, 0x116B7);
    (0x1171D, 0x1171F); (0x11722, 0x11725); (0x11727, 0x1172B);
    (0x1182F, 0x11837); (0x11839, 0x1183A); (0x1193B, 0x1193C);
    (0x1193E, 0x1193E); (0x11943, 0x11943); (0x119D4, 0x119D7);
    (0x119DA, 0x119DB); (0x119E0, 0x119E0); (0x11A01, 0x11A0A);
    (0x11A33, 0x11A38); (0x11A3B, 0x11A3E); (0x11A47, 0x11A47);
    (0x11A51, 0x11A56); (0x11A59, 0x11A5B); (0x11A8A, 0x11A96);
    (0x11A98, 0x11A99); (0x11C30, 0x11C36); (0x11C38, 0x11C3D);
    (0x11C3F, 0x11C3F); (0x11C92, 0x11CA7); (0x11CAA, 0x11CB0);
    (0x11CB2, 0x11CB3); (0x11CB5, 0x11CB6); (0x11D31, 0x11D36);
    (0x11D3A, 0x11D3A); (0x11D3C, 0x11D3D); (0x11D3F, 0x11D45);
    (0x11D47, 0x11D47); (0x11D90, 0x11D91); (0x11D95, 0x11D95);
    (0x11D97, 0x11D97); (0x11EF3, 0x11EF4); (0x13430, 0x13438);
    (0x16AF0, 0x16AF4); (0x16B30, 0x16B36); (0x16B40, 0x16B43);
    (0x16F4F, 0x16F4F); (0x16F8F, 0x16F9F); (0x16FE0, 0x16FE1);
    (0x16FE3, 0x16FE4); (0x1AFF0, 0x1AFF3); (0x1AFF5, 0x1AFFB);
    (0x1AFFD, 0x1AFFE); (0x1BC9D, 0x1BC9E); (0x1BCA0, 0x1BCA3);
    (0x1CF00, 0x1CF2D); (0x1CF30, 0x1CF46); (0x1D167, 0x1D169);
    (0x1D173, 0x1D182); (0x1D185, 0x1D18B); (0x1D1AA, 0x1D1AD);
    (0x1D242, 0x1D244); (0x1DA00, 0x1DA36); (0x1DA3B, 0x1DA6C);
    (0x1DA75, 0x1DA75); (0x1DA84, 0x1DA84); (0x1DA9B, 0x1DA9F);
    (0x1DAA1, 0x1DAAF); (0x1E000, 0x1E006); (0x1E008, 0x1E018);
    (0x1E01B, 0x1E021); (0x1E023, 0x1E024); (0x1E026, 0x1E02A);
    (0x1E130, 0x1E13D); (0x1E2AE, 0x1E2AE); (0x1E2EC, 0x1E2EF);
    (0x1E8D0, 0x1E8D6); (0x1E944, 0x1E94B); (0x1F3FB, 0x1F3FF);
    (0xE0001, 0xE0001); (0xE0020, 0xE007F); (0xE0100, 0xE01EF)
  ].

(** White space ([str.isspace] of one character). *)
Definition space_ranges : list (N * N) :=
  [
    (0x9, 0xD); (0x1C, 0x20); (0x85, 0x85); (0xA0, 0xA0); (0x1680, 0x1680);
    (0x2000, 0x200A); (0x2028, 0x2029); (0x202F, 0x202F); (0x205F, 0x205F);
    (0x3000, 0x3000)
  ].

(** The digit zero of every decimal system; its digits follow it in
    order. *)
Definition decimal_zeros : list N :=
  [
    0x30; 0x660; 0x6F0; 0x7C0; 0x966; 0x9E6; 0xA66; 0xAE6; 0xB66; 0xBE6;
    0xC66; 0xCE6; 0xD66; 0xDE6; 0xE50; 0xED0; 0xF20; 0x1040; 0x1090; 0x17E0;
    0x1810; 0x1946; 0x19D0; 0x1A80; 0x1A90; 0x1B50; 0x1BB0; 0x1C40; 0x1C50;
    0xA620; 0xA8D0; 0xA900; 0xA9D0; 0xA9F0; 0xAA50; 0xABF0; 0xFF10; 0x104A0;
    0x10D30; 0x11066; 0x110F0; 0x11136; 0x111D0; 0x112F0; 0x11450; 0x114D0;
    0x11650; 0x116C0; 0x11730; 0x118E0; 0x11950; 0x11C50; 0x11D50; 0x11DA0;
    0x16A60; 0x16AC0; 0x16B50; 0x1D7CE; 0x1D7D8; 0x1D7E2; 0x1D7EC; 0x1D7F6;
    0x1E140; 0x1E2F0; 0x1E950; 0x1FBF0
  ].

Fixpoint find_lower (c : N) (runs : list (N * N * N * N)) : option N :=
  match runs with
  | [] => None
  | (first, count, step, image) :: rest =>
      if in_run c first count step then Some (image + (c - first))
      else find_lower c rest
  end.

(** The simple lowercase mapping of a code point. *)
Definition to_lower (c : N) : N :=
  match find_lower c lowercase_runs with
  | Some l => l
  | None => c
  end.

(** The full lowercase mapping: U+0130 is the one code point whose
    lowercase form has two code points. *)
Definition to_lower_full (c : N) : list N :=
  if c =? 0x130 then [0x69; 0x307] else [to_lower c].

Definition is_uppercase (c : N) : bool :=
  existsb (fun r => let '(first, count, step) := r in in_run c first count step)
    uppercase_runs.

Definition is_cased (c : N) : bool := in_ranges c cased_ranges.

Definition is_case_ignorable (c : N) : bool :=
  in_ranges c case_ignorable_ranges.

Definition is_space (c : N) : bool := in_ranges c space_ranges.

Fixpoint find_decimal (c : N) (zeros : list N) : option N :=
  match zeros with
  | [] => None
  | zero :: rest =>
      if (zero <=? c) && (c <=? zero + 9) then Some (c - zero)
      else find_decimal c rest
  end.

(** The value of a decimal digit. *)
Definition to_decimal (c : N) : option N := find_decimal c decimal_zeros.

End Unicode.
(** ** Operations on strings *)

Module PyStr.

Definition backslash : char := N_of_ascii "\".
Definition comma : char := N_of_ascii ",".
Definition semicolon : char := N_of_ascii ";".
Definition colon : char := N_of_ascii ":".

(** [string.ascii_lowercase] *)
Definition ascii_lowercase : str := lit "abcdefghijklmnopqrstuvwxyz".

(** [s == t] *)
Fixpoint eqb (s t : str) : bool :=
  match s, t with
  | [], [] => true
  | a :: s', b :: t' => N.eqb a b && eqb s' t'
  | _, _ => false
  end.

(** [c.isupper()] of one character. *)
Definition is_upper (c : char) : bool := Unicode.is_uppercase c.

(** *** [s.lower()]

    Every character is replaced by its full lowercase mapping, except the
    capital sigma, whose lowercase form depends on its place in the
    word. *)
Definition capital_sigma : char := 0x3A3%N.
Definition small_sigma : char := 0x3C3%N.
Definition small_final_sigma : char := 0x3C2%N.

Fixpoint skip_case_ignorable (s : str) : str :=
  match s with
  | [] => []
  | c :: s' => if Unicode.is_case_ignorable c then skip_case_ignorable s' else s
  end.

(** The capital sigma ends a word: going backward over case-ignorable
    characters a cased character is found, and going forward over
    case-ignorable characters none is.  [before] holds the characters
    before the sigma, the nearest first. *)
Definition final_sigma (before after : str) : bool :=
  match skip_case_ignorable before with
  | [] => false
  | c :: _ =>
      Unicode.is_cased c
      && match skip_case_ignorable after with
         | [] => true
         | d :: _ => negb (Unicode.is_cased d)
         end
  end.

Fixpoint lower_from (before s : str) : str :=
  match s with
  | [] => []
  | c :: s' =>
      (if N.eqb c capital_sigma
       then [if final_sigma before s' then small_final_sigma else small_sigma]
       else Unicode.to_lower_full c)
      ++ lower_from (c :: before) s'
  end.

Definition lower (s : str) : str := lower_from [] s.

(** [s.startswith(p)] *)
Fixpoint startswith (p s : str) : bool :=
  match p, s with
  | [], _ => true
  | a :: p', b :: s' => N.eqb a b && startswith p' s'
  | _ :: _, [] => false
  end.

(** [needle in hay] *)
Fixpoint contains (needle hay : str) : bool :=
  startswith needle hay ||
  match hay with
  | [] => false
  | _ :: hay' => contains needle hay'
  end.

(** [s.replace(old, new)] for a non-empty [old]: occurrences are replaced
    from left to right and do not overlap.  [skip] counts the characters of
    an occurrence that are still to be dropped. *)
Fixpoint replace_from (old new : str) (skip : nat) (s : str) : str :=
  match s with
  | [] => []
  | c :: s' =>
      match skip with
      | S k => replace_from old new k s'
      | O =>
          if startswith old s
          then new ++ replace_from old new (length old - 1) s'
          else c :: replace_from old new 0 s'
      end
  end.

Definition replace (old new s : str) : str := replace_from old new 0 s.

(** [re.split(r'(?<!\\)<sep>', s)]: [s] is cut at every [sep] that does not
    directly follow a backslash; the separators are dropped and empty pieces
    are kept.  [prev] is the character before the current position. *)
Fixpoint re_split_from (sep : char) (prev : option char) (s : str)
  : list str :=
  match s with
  | [] => [[]]
  | c :: s' =>
      let escaped :=
        match prev with
        | Some p => N.eqb p backslash
        | None => false
        end in
      if N.eqb c sep && negb escaped
      then [] :: re_split_from sep (Some c) s'
      else match re_split_from sep (Some c) s' with
           | piece :: pieces => (c :: piece) :: pieces
           | [] => [[c]]
           end
  end.

Definition re_split_unescaped (sep : char) (s : str) : list str :=
  re_split_from sep None s.

(** [s.split(sep, 1)]: at most one cut, at the first [sep]. *)
Fixpoint split_once (sep : char) (s : str) : list str :=
  match s with
  | [] => [[]]
  | c :: s' =>
      if N.eqb c sep then [[]; s']
      else match split_once sep s' with
           | piece :: pieces => (c :: piece) :: pieces
           | [] => [[c]]
           end
  end.

(** *** [int(s)] in base 10

    The text is first brought to ASCII: a code point below 127 stands for
    itself, any other white space for a blank, any other decimal digit for
    the ASCII digit of its value, and anything else for a question mark,
    which no literal contains.  The literal is then read: blanks around it,
    an optional sign, then digits, where single underscores may stand
    between two digits; the number of digits is limited. *)
Definition to_ascii (c : char) : char :=
  if (c <? 127)%N then c
  else if Unicode.is_space c then N_of_ascii " "
  else match Unicode.to_decimal c with
       | Some d => (N_of_ascii "0" + d)%N
       | None => N_of_ascii "?"
       end.

(** The blanks the reader of literals skips: tab, line feed, vertical tab,
    form feed, carriage return and space. *)
Definition is_space (c : char) : bool :=
  ((9 <=? c)%N && (c <=? 13)%N) || N.eqb c 32.

Definition is_digit (c : char) : bool := (48 <=? c)%N && (c <=? 57)%N.

Fixpoint lstrip (s : str) : str :=
  match s with
  | c :: s' => if is_space c then lstrip s' else s
  | [] => []
  end.

Fixpoint rstrip (s : str) : str :=
  match s with
  | [] => []
  | c :: s' =>
      match rstrip s' with
      | [] => if is_space c then [] else [c]
      | rest => c :: rest
      end
  end.

Fixpoint parse_digits (acc : Z) (after_digit : bool) (s : str) : option Z :=
  match s with
  | [] => if after_digit then Some acc else None
  | c :: s' =>
      if is_digit c
      then parse_digits (10 * acc + Z.of_N (c - 48)) true s'
      else if N.eqb c (N_of_ascii "_") && after_digit
           then parse_digits acc false s'
           else None
  end.

(** [sys.get_int_max_str_digits()], at its default: a literal with more
    digits is refused. *)
Definition int_max_str_digits : nat := 4300.

Definition read_digits (ds : str) : option Z :=
  if int_max_str_digits <? length (filter is_digit ds) then None
  else parse_digits 0 false ds.

Definition int (s : str) : option Z :=
  match rstrip (lstrip (map to_ascii s)) with
  | c :: ds =>
      if N.eqb c (N_of_ascii "-")
      then option_map Z.opp (read_digits ds)
      else if N.eqb c (N_of_ascii "+")
           then read_digits ds
           else read_digits (c :: ds)
  | [] => None
  end.

(** ["".join(chars)] of a tuple of characters. *)
Definition join (cs : list char) : str := cs.

End PyStr.

(** [itertools.product(pool, repeat=n)], as the library documents it: the
    result starts as one empty tuple and every pool in turn extends each
    tuple of the result by each element of the pool. *)
Definition product {A : Type} (pool : list A) (n : nat) : list (list A) :=
  fold_left
    (fun result pool => flat_map (fun x => map (fun y => x ++ [y]) pool) result)
    (repeat pool n) [[]].

(** ** Configuration: the attributes [__init__] stores on [self] *)

Record config : Type := mkConfig {
  maxdepth : Z;
  formdepth : Z;
  next_match : str;
  form_match : str;
  output_data_dir : option str;
  input_minlength : Z;
  form_input_range : option str;
  wildcard : option str;
  link_priority : str;
  form_submit_natural_click : bool;
  form_submit_wait : Z;
  form_input_index : Z;
  input_type : str;
  input_strings : str
}.

(** The keyword defaults of [__init__]. *)
Definition default_config : config := {|
  maxdepth := 10;
  formdepth := 0;
  next_match := lit "next page";
  form_match := lit "first name";
  output_data_dir := None;
  input_minlength := 1;
  form_input_range := None;
  wildcard := None;
  link_priority := lit "search";
  form_submit_natural_click := false;
  form_submit_wait := 5;
  form_input_index := 0;
  input_type := lit "character_iteration";
  input_strings := []
|}.

(** Truth value of an optional string: [None] and the empty string are
    false. *)
Definition truthy (o : option str) : bool :=
  match o with
  | Some (_ :: _) => true
  | _ => false
  end.

Definition nonempty (s : str) : bool :=
  match s with
  | [] => false
  | _ :: _ => true
  end.

(** ** Exceptions and generators *)

Inductive exn : Type :=
| TypeError
| ValueError
| LookupError
| InvalidCombination.   (* Exception("Invalid input type combination supplied!") *)

(** One entry of an input plan: the dictionary with keys ["index"] and
    ["string"]. *)
Record assignment : Type := mkAssignment {
  a_index : Z;
  a_string : str
}.

Definition plan : Type := list assignment.

(** What iterating a generator produces: the values yielded, in order, and
    the exception that ended the iteration, if any. *)
Record generated (A : Type) : Type := mkGenerated {
  yielded : list A;
  raised : option exn
}.
Arguments mkGenerated {A} _ _.
Arguments yielded {A} _.
Arguments raised {A} _.

(** ** The input-plan generator *)

Section InputPlans.

Variable self : config.

(** The alphabet: [form_input_range] when it is set and not empty. *)
Definition chars : str :=
  if truthy (form_input_range self)
  then match form_input_range self with
       | Some r => r
       | None => PyStr.ascii_lowercase
       end
  else PyStr.ascii_lowercase.

(** [if self.wildcard: inp += self.wildcard] *)
Definition with_wildcard (inp : str) : str :=
  if truthy (wildcard self)
  then match wildcard self with
       | Some w => inp ++ w
       | None => inp
       end
  else inp.

(** [product] refuses a negative [repeat] with a [ValueError], raised when
    the generator is first advanced. *)
Definition character_iteration_input_generator (length : Z)
  : generated plan :=
  if (length <? 0)%Z
  then mkGenerated [] (Some ValueError)
  else
    mkGenerated
      (map (fun input =>
              [ {| a_index := form_input_index self;
                   a_string := with_wildcard (PyStr.join input) |} ])
           (product chars (Z.to_nat length)))
      None.

(** The inner loop of the [multi_manual] branch: the assignments of one
    independent search, or the exception that [split] or [int] raises. *)
Fixpoint parse_inputs (indiv_inputs_list : list str)
  : exn + list assignment :=
  match indiv_inputs_list with
  | [] => inr []
  | indiv_inputs :: rest =>
      match PyStr.split_once PyStr.colon indiv_inputs with
      | [ix; string] =>
          match PyStr.int ix with
          | Some i =>
              match parse_inputs rest with
              | inr tail =>
                  inr ({| a_index := i;
                          a_string :=
                            PyStr.replace (lit "\;") (lit ";")
                              (PyStr.replace (lit "\,") (lit ",") string) |} :: tail)
              | inl e => inl e
              end
          | None => inl ValueError
          end
      | _ => inl ValueError
      end
  end.

(** The outer loop of the [multi_manual] branch: one plan is yielded per
    group; a group that fails to parse ends the iteration after the plans
    already yielded. *)
Fixpoint multi_manual_searches (inputs : list str) : generated plan :=
  match inputs with
  | [] => mkGenerated [] None
  | inp :: rest =>
      match parse_inputs (PyStr.re_split_unescaped PyStr.comma inp) with
      | inr indiv_search =>
          let g := multi_manual_searches rest in
          mkGenerated (indiv_search :: yielded g) (raised g)
      | inl e => mkGenerated [] (Some e)
      end
  end.

Definition make_input_generator : generated plan :=
  if PyStr.eqb (input_type self) (lit "character_iteration")
  then character_iteration_input_generator (input_minlength self)
  else if PyStr.eqb (input_type self) (lit "fixed_strings")
          && nonempty (input_strings self)
  then
    mkGenerated
      (map (fun indiv_search =>
              [ {| a_index := form_input_index self;
                   a_string := indiv_search |} ])
           (PyStr.re_split_unescaped PyStr.comma (input_strings self)))
      None
  else if PyStr.eqb (input_type self) (lit "multi_manual")
          && nonempty (input_strings self)
  then
    multi_manual_searches
      (PyStr.re_split_unescaped PyStr.semicolon (input_strings self))
  else mkGenerated [] (Some InvalidCombination).

End InputPlans.

(** ** The file system and [os.path] *)

Record filesystem : Type := mkFs {
  dirs : list str;
  files : list (str * str)
}.

Definition empty_fs : filesystem := {| dirs := []; files := [] |}.

Definition ends_with_sep (path : str) : bool :=
  match rev path with
  | c :: _ => N.eqb c (N_of_ascii "/")
  | [] => false
  end.

(** [os.path.join(a, b)] of posixpath; a first argument that is not a path
    ([None]) is a [TypeError]. *)
Definition os_path_join (a : option str) (b : str) : exn + str :=
  match a with
  | None => inl TypeError
  | Some path =>
      if PyStr.startswith (lit "/") b then inr b
      else if negb (nonempty path) || ends_with_sep path
           then inr (path ++ b)
           else inr (path ++ lit "/" ++ b)
  end.

Definition os_path_exists (path : str) (fs : filesystem) : bool :=
  existsb (PyStr.eqb path) (dirs fs)
  || existsb (fun f => PyStr.eqb path (fst f)) (files fs).

Definition os_mkdir (path : str) (fs : filesystem) : filesystem :=
  {| dirs := path :: dirs fs; files := files fs |}.

(** [with open(path, "w") as f: f.write(data)] *)
Definition write_file (path data : str) (fs : filesystem) : filesystem :=
  {| dirs := dirs fs;
     files := (path, data)
              :: filter (fun f => negb (PyStr.eqb path (fst f))) (files fs) |}.

(** ** The browser behind [self.control]

    [Controller] is imported by the scraper and not defined by it; the
    scraper only relies on the operations below.  The element queries read
    the current page; the actions change the browser. *)

Class Controller (B : Type) : Type := {
  button_vectors : B -> list str;
  form_vectors : B -> list str;             (* form_vectors(type="text") *)
  link_vectors : B -> list str;
  has_inputs : B -> nat -> bool;               (* inputs[ix] can be read *)
  select_button : nat -> bool -> B -> B;
  select_link : nat -> B -> bool * B;
  input : nat -> Z -> str -> B -> B;
  submit : nat -> B -> B;
  back : B -> B;
  page_html : B -> str;
  page_url : B -> str;
  get_screenshot_as_png : B -> str
}.

(** [hashlib.sha256(data).digest().hex()] *)
Class Hashlib : Type := {
  sha256_hex : str -> str
}.

(** The controller calls that navigate or fill, in the order issued. *)
Inductive event : Type :=
| EvBack
| EvSelectButton (ix : nat) (iterating_form : bool)
| EvSelectLink (ix : nat) (clicked : bool)
| EvInput (form : nat) (index : Z) (value : str)
| EvSubmit (form : nat).

Record world (B : Type) : Type := mkWorld {
  browser : B;
  fs : filesystem;
  clock : nat -> Z;        (* the successive values of int(time.time()) *)
  ticks : nat;             (* readings taken so far *)
  trace : list event
}.
Arguments mkWorld {B} _ _ _ _ _.
Arguments browser {B} _.
Arguments fs {B} _.
Arguments clock {B} _.
Arguments ticks {B} _.
Arguments trace {B} _.

(** ** Computations: state, exceptions, [sys.exit] and fuel *)

Inductive outcome (A : Type) : Type :=
| Return (a : A)
| Raise (e : exn)
| Exit (code : Z)          (* sys.exit(code) *)
| OutOfFuel.               (* the loop bound of the model was reached *)
Arguments Return {A} _.
Arguments Raise {A} _.
Arguments Exit {A} _.
Arguments OutOfFuel {A}.

Definition M (B A : Type) : Type := world B -> outcome A * world B.

Definition ret {B A} (a : A) : M B A := fun w => (Return a, w).

Definition bind {B A C} (m : M B A) (k : A -> M B C) : M B C :=
  fun w =>
    match m w with
    | (Return a, w') => k a w'
    | (Raise e, w') => (Raise e, w')
    | (Exit c, w') => (Exit c, w')
    | (OutOfFuel, w') => (OutOfFuel, w')
    end.

Definition raise {B A} (e : exn) : M B A := fun w => (Raise e, w).
Definition sys_exit {B A} (code : Z) : M B A := fun w => (Exit code, w).
Definition out_of_fuel {B A} : M B A := fun w => (OutOfFuel, w).

Declare Scope py_scope.
Delimit Scope py_scope with py.
Notation "x <- m ;; k" := (bind m (fun x => k))
  (at level 61, m at next level, right associativity) : py_scope.
Notation "m ;; k" := (bind m (fun _ => k))
  (at level 61, right associativity) : py_scope.
Local Open Scope py_scope.

Section Scraper.

Context {B : Type} `{Controller B} `{Hashlib}.
Variable self : config.

(** *** Primitive steps *)

Definition get {A} (f : B -> A) : M B A := fun w => (Return (f (browser w)), w).

Definition act (f : B -> B) (e : event) : M B unit :=
  fun w => (Return tt,
            {| browser := f (browser w); fs := fs w; clock := clock w;
               ticks := ticks w; trace := trace w ++ [e] |}).

Definition control_back : M B unit := act back EvBack.

Definition control_select_button (ix : nat) (iterating_form : bool) : M B unit :=
  act (select_button ix iterating_form) (EvSelectButton ix iterating_form).

Definition control_input (form : nat) (index : Z) (value : str) : M B unit :=
  act (input form index value) (EvInput form index value).

Definition control_submit (form : nat) : M B unit :=
  act (submit form) (EvSubmit form).

Definition control_select_link (ix : nat) : M B bool :=
  fun w =>
    let (clicked, b') := select_link ix (browser w) in
    (Return clicked,
     {| browser := b'; fs := fs w; clock := clock w;
        ticks := ticks w; trace := trace w ++ [EvSelectLink ix clicked] |}).

(** [self.control.inputs[ix]] *)
Definition control_inputs (ix : nat) : M B unit :=
  fun w => if has_inputs (browser w) ix then (Return tt, w)
           else (Raise LookupError, w).

Definition time_time : M B Z :=
  fun w => (Return (clock w (ticks w)),
            {| browser := browser w; fs := fs w; clock := clock w;
               ticks := S (ticks w); trace := trace w |}).

Definition with_fs (f : filesystem -> filesystem) : M B unit :=
  fun w => (Return tt,
            {| browser := browser w; fs := f (fs w); clock := clock w;
               ticks := ticks w; trace := trace w |}).

Definition get_fs {A} (f : filesystem -> A) : M B A :=
  fun w => (Return (f (fs w)), w).

Definition lift_exn {A} (r : exn + A) : M B A :=
  match r with
  | inl e => raise e
  | inr a => ret a
  end.

(** The decimal text of an integer, for ["%s.png" % t]. *)
Definition str_of_int (t : Z) : str :=
  lit (NilEmpty.string_of_int (Z.to_int t)).

(** *** [save_screenshot] *)
Definition save_screenshot : M B unit :=
  t <- time_time ;;
  screenshot_dir <- lift_exn (os_path_join (output_data_dir self)
                                (lit "screenshots")) ;;
  present <- get_fs (os_path_exists screenshot_dir) ;;
  (if present then ret tt else with_fs (os_mkdir screenshot_dir)) ;;
  filepath <- lift_exn (os_path_join (Some screenshot_dir)
                          (str_of_int t ++ lit ".png")) ;;
  png <- get get_screenshot_as_png ;;
  with_fs (write_file filepath png).

(** *** [save_training_page] *)
Definition classes : list str :=
  [lit "data_pages"; lit "error_pages"; lit "links_to_documents";
   lit "links_to_search"; lit "search_pages"].

Definition save_training_page (classname : option str) : M B unit :=
  match classname with
  | Some name =>
      if existsb (PyStr.eqb name) classes
      then
        if negb (truthy (output_data_dir self)) then ret tt
        else
          classdir <- lift_exn (os_path_join (output_data_dir self) name) ;;
          present <- get_fs (os_path_exists classdir) ;;
          (if present then ret tt else with_fs (os_mkdir classdir)) ;;
          html <- get page_html ;;
          url <- get page_url ;;
          let h := sha256_hex html in
          filepath <- lift_exn (os_path_join (Some classdir)
                                  (h ++ lit ".html")) ;;
          with_fs (write_file filepath html)
      else raise ValueError
  | None => raise ValueError
  end.

(** *** [keep_clicking_next_btns] *)

(** The test of line 230: [self.next_match.lower() in button.lower()]. *)
Definition is_next_button (button : str) : bool :=
  PyStr.contains (PyStr.lower (next_match self)) (PyStr.lower button).

(** The [for ix in range(n_buttons)] loop from index [ix] on: the first
    matching button is clicked and ends the scan.  The result is
    [(found_next, depth)]. *)
Fixpoint scan_buttons (button_data : list str) (ix depth : nat)
  : M B (bool * nat) :=
  match button_data with
  | [] => ret (false, depth)
  | button :: rest =>
      if is_next_button button
      then
        control_select_button ix true ;;
        save_training_page (Some (lit "data_pages")) ;;
        save_screenshot ;;
        ret (true, S depth)
      else scan_buttons rest (S ix) depth
  end.

(** The [while True] loop; the result is the value of [depth] when the loop
    is left. *)
Fixpoint next_loop (fuel depth : nat) : M B nat :=
  match fuel with
  | O => out_of_fuel
  | S fuel' =>
      if negb (formdepth self =? 0)%Z && (Z.of_nat depth >? formdepth self)%Z
      then ret depth
      else
        button_data <- get button_vectors ;;
        save_training_page (Some (lit "data_pages")) ;;
        save_screenshot ;;
        r <- scan_buttons button_data 0 depth ;;
        let (found_next, depth') := r in
        if found_next then next_loop fuel' depth' else ret depth'
  end.

(** [for _ in range(depth): self.control.back()] *)
Fixpoint go_back (depth : nat) : M B unit :=
  match depth with
  | O => ret tt
  | S d => control_back ;; go_back d
  end.

(** The parameter [maxdepth] is accepted and not read by the body. *)
Definition keep_clicking_next_btns (fuel : nat) (maxdepth : Z) : M B unit :=
  depth <- next_loop fuel 0 ;;
  go_back depth.

(** *** [run] *)

(** The test of line 271, negated: the form is a target. *)
Definition is_target_form (form_data : str) : bool :=
  PyStr.contains (PyStr.lower (form_match self)) (PyStr.lower form_data).

(** The sort key of line 314. *)
Definition is_priority_link (r : nat * str) : bool :=
  PyStr.contains (link_priority self) (PyStr.lower (snd r)).

(** [for single_input in input_phase] *)
Fixpoint fill_inputs (ix : nat) (input_phase : plan) : M B unit :=
  match input_phase with
  | [] => ret tt
  | single_input :: rest =>
      control_input ix (a_index single_input) (a_string single_input) ;;
      fill_inputs ix rest
  end.

(** [for input_phase in input_gen] over the plans still to come; the result
    is the value of [scraped]. *)
Fixpoint run_plans (fuel ix : nat) (plans : list plan) (ending : option exn)
  (scraped : bool) : M B bool :=
  match plans with
  | [] =>
      match ending with
      | Some e => raise e
      | None => ret scraped
      end
  | input_phase :: rest =>
      fill_inputs ix input_phase ;;
      save_screenshot ;;
      control_submit ix ;;
      save_screenshot ;;
      keep_clicking_next_btns fuel 3 ;;
      control_back ;;
      run_plans fuel ix rest ending true
  end.

(** [for ix in range(len(form_vectors))], from index [ix] on. *)
Fixpoint scan_forms (fuel : nat) (forms : list str) (ix : nat)
  (scraped : bool) : M B bool :=
  match forms with
  | [] => ret scraped
  | form_data :: rest =>
      control_inputs ix ;;
      if negb (is_target_form form_data)
      then scan_forms fuel rest (S ix) scraped
      else
        save_training_page (Some (lit "search_pages")) ;;
        save_screenshot ;;
        let input_gen := make_input_generator self in
        scraped' <- run_plans fuel ix (yielded input_gen) (raised input_gen)
                      scraped ;;
        if scraped' then sys_exit 0
        else scan_forms fuel rest (S ix) scraped'
  end.

(** [list.sort(key=..., reverse=True)]: a stable sort, elements of equal
    key keep their order under [reverse] too.  [x] comes from before [l]. *)
Fixpoint insert_desc {A} (key : A -> bool) (x : A) (l : list A) : list A :=
  match l with
  | [] => [x]
  | y :: l' =>
      if key x || negb (key y) then x :: y :: l'
      else y :: insert_desc key x l'
  end.

Fixpoint sort_reverse {A} (key : A -> bool) (l : list A) : list A :=
  match l with
  | [] => []
  | x :: l' => insert_desc key x (sort_reverse key l')
  end.

(** [list(zip(range(len(v)), v))], counting from [ix]. *)
Fixpoint enumerate_from {A} (ix : nat) (v : list A) : list (nat * A) :=
  match v with
  | [] => []
  | x :: v' => (ix, x) :: enumerate_from (S ix) v'
  end.

(** [for ix, _ in link_zip]; [recurse] is [self.run]. *)
Fixpoint follow_links (recurse : Z -> M B unit) (depth : Z)
  (link_zip : list (nat * str)) : M B unit :=
  match link_zip with
  | [] => ret tt
  | (ix, _) :: rest =>
      if (depth =? maxdepth self)%Z then ret tt
      else
        clicked <- control_select_link ix ;;
        (if clicked then recurse (depth + 1)%Z else ret tt) ;;
        follow_links recurse depth rest
  end.

(** [fuel] bounds the nesting of calls and the rounds of every pagination
    loop started on the way.  The read of [self.control.clickable] (line
    310), whose value is not used, is left out. *)
Fixpoint run (fuel : nat) (depth : Z) : M B unit :=
  match fuel with
  | O => out_of_fuel
  | S fuel' =>
      if (depth >? maxdepth self)%Z
      then control_back
      else
        save_screenshot ;;
        form_vectors <- get form_vectors ;;
        scan_forms fuel' form_vectors 0 false ;;
        link_vectors <- get link_vectors ;;
        let link_zip :=
          sort_reverse is_priority_link (enumerate_from 0 link_vectors) in
        follow_links (run fuel') depth link_zip ;;
        control_back
  end.

End Scraper.

(** ** Reference notions used to state the properties *)

(** The words of length [n] over [pool], first letter varying slowest. *)
Fixpoint words {A : Type} (pool : list A) (n : nat) : list (list A) :=
  match n with
  | O => [[]]
  | S n' => flat_map (fun a => map (cons a) (words pool n')) pool
  end.

(** Position of the first occurrence of [c] in the alphabet. *)
Fixpoint position (c : char) (alphabet : list char) : nat :=
  match alphabet with
  | [] => 0
  | a :: rest => if N.eqb c a then 0 else S (position c rest)
  end.

(** Strict lexicographic order of words, letters compared by their position
    in the alphabet. *)
Fixpoint lex_lt (alphabet u v : list char) : bool :=
  match u, v with
  | a :: u', b :: v' =>
      (position a alphabet <? position b alphabet)
      || ((position a alphabet =? position b alphabet) && lex_lt alphabet u' v')
  | [], _ :: _ => true
  | _, _ => false
  end.

(** The values of the single-assignment plans a generator yields. *)
Definition plan_values (plans : list plan) : list str :=
  flat_map (map a_string) plans.

(** The configuration with another input strategy and payload. *)
Definition with_inputs (self : config) (type strings : str) : config :=
  {| maxdepth := maxdepth self;
     formdepth := formdepth self;
     next_match := next_match self;
     form_match := form_match self;
     output_data_dir := output_data_dir self;
     input_minlength := input_minlength self;
     form_input_range := form_input_range self;
     wildcard := wildcard self;
     link_priority := link_priority self;
     form_submit_natural_click := form_submit_natural_click self;
     form_submit_wait := form_submit_wait self;
     form_input_index := form_input_index self;
     input_type := type;
     input_strings := strings |}.

(** The configuration with another wildcard. *)
Definition with_wildcard_option (self : config) (w : option str) : config :=
  {| maxdepth := maxdepth self;
     formdepth := formdepth self;
     next_match := next_match self;
     form_match := form_match self;
     output_data_dir := output_data_dir self;
     input_minlength := input_minlength self;
     form_input_range := form_input_range self;
     wildcard := w;
     link_priority := link_priority self;
     form_submit_natural_click := form_submit_natural_click self;
     form_submit_wait := form_submit_wait self;
     form_input_index := form_input_index self;
     input_type := input_type self;
     input_strings := input_strings self |}.

(** The configuration with another output directory. *)
Definition with_output_data_dir (self : config) (d : option str) : config :=
  {| maxdepth := maxdepth self;
     formdepth := formdepth self;
     next_match := next_match self;
     form_match := form_match self;
     output_data_dir := d;
     input_minlength := input_minlength self;
     form_input_range := form_input_range self;
     wildcard := wildcard self;
     link_priority := link_priority self;
     form_submit_natural_click := form_submit_natural_click self;
     form_submit_wait := form_submit_wait self;
     form_input_index := form_input_index self;
     input_type := input_type self;
     input_strings := input_strings self |}.

(** The suffix a configured wildcard adds to every generated string. *)
Definition suffix (self : config) : str :=
  match wildcard self with
  | Some w => w
  | None => []
  end.

(** The plan of a single assignment to [form_input_index]. *)
Definition single_plan (self : config) (value : str) : plan :=
  [ {| a_index := form_input_index self; a_string := value |} ].

(** Unescaping as the specification words it: a backslash that escapes a
    comma or a semicolon is dropped and the escaped character stays. *)
Fixpoint unescape (s : str) : str :=
  match s with
  | [] => []
  | c :: s1 =>
      match s1 with
      | c' :: s2 =>
          if N.eqb c PyStr.backslash
             && (N.eqb c' PyStr.comma || N.eqb c' PyStr.semicolon)
          then c' :: unescape s2
          else c :: unescape s1
      | [] => s
      end
  end.

(** Dropping the backslash before one character [x] only. *)
Fixpoint unescape_one (x : char) (s : str) : str :=
  match s with
  | [] => []
  | c :: s1 =>
      match s1 with
      | c' :: s2 =>
          if N.eqb c PyStr.backslash && N.eqb c' x
          then c' :: unescape_one x s2
          else c :: unescape_one x s1
      | [] => s
      end
  end.

(** An assignment is the reading of one ["<fieldIndex>:<value>"] entry. *)
Definition entry_parsed (a : assignment) (entry : str) : Prop :=
  exists ix raw,
    PyStr.split_once PyStr.colon entry = [ix; raw]
    /\ PyStr.int ix = Some (a_index a)
    /\ a_string a = unescape raw.

(** The entries of a [multi_manual] payload: per semicolon-separated group,
    its comma-separated entries. *)
Definition payload_entries (s : str) : list (list str) :=
  map (PyStr.re_split_unescaped PyStr.comma)
      (PyStr.re_split_unescaped PyStr.semicolon s).

(** [needle] occurs in [hay], somewhere. *)
Definition occurs_in (needle hay : str) : Prop :=
  exists pre post, hay = pre ++ needle ++ post.

(** The ASCII case mapping: [A]-[Z] to [a]-[z]. *)
Definition ascii_lower (c : char) : char :=
  if ((65 <=? c) && (c <=? 90))%N then (c + 32)%N else c.

(** The characters lowercased text is made of: the lowercase forms of
    characters. *)
Definition lowercase_form (c : char) : Prop :=
  c = PyStr.small_sigma \/ c = PyStr.small_final_sigma
  \/ exists d, In c (Unicode.to_lower_full d).

(** The world after one more reading of the clock. *)
Definition tick {B : Type} (w : world B) : world B :=
  {| browser := browser w; fs := fs w; clock := clock w;
     ticks := S (ticks w); trace := trace w |}.

(** Two worlds show the same page after the same controller calls. *)
Definition same_page {B : Type} (w w' : world B) : Prop :=
  browser w' = browser w /\ trace w' = trace w.

Section Chains.

Context {B : Type} `{Controller B}.
Variable self : config.

(** Index of the first button, counted from [ix], whose text contains
    [next_match]. *)
Fixpoint first_next (buttons : list str) (ix : nat) : option nat :=
  match buttons with
  | [] => None
  | button :: rest =>
      if is_next_button self button then Some ix
      else first_next rest (S ix)
  end.

(** The pages a chain of [n] next-clicks goes through: the indices clicked
    and the page reached, if every page on the way has a next control. *)
Fixpoint next_chain (n : nat) (b : B) : option (list nat * B) :=
  match n with
  | O => Some ([], b)
  | S n' =>
      match first_next (button_vectors b) 0 with
      | Some ix =>
          match next_chain n' (select_button ix true b) with
          | Some (ixs, b') => Some (ix :: ixs, b')
          | None => None
          end
      | None => None
      end
  end.

(** Index of the first form, counted from [ix], whose text contains
    [form_match]. *)
Fixpoint first_target_form (forms : list str) (ix : nat) : option nat :=
  match forms with
  | [] => None
  | form_data :: rest =>
      if is_target_form self form_data then Some ix
      else first_target_form rest (S ix)
  end.

End Chains.

(** Events of the link phase and of the scraping of form [ix]. *)
Definition link_phase_event (e : event) : Prop :=
  match e with
  | EvBack | EvSelectLink _ _ => True
  | _ => False
  end.

Definition form_phase_event (ix : nat) (e : event) : Prop :=
  match e with
  | EvBack | EvSelectButton _ _ => True
  | EvInput form _ _ | EvSubmit form => form = ix
  | EvSelectLink _ _ => False
  end.

(** What saving a snapshot does to the file system: the class directory is
    made unless it is there, then the file is written. *)
Definition snapshot_fs (classdir filepath html : str) (f : filesystem)
  : filesystem :=
  write_file filepath html
    (if os_path_exists classdir f then f else os_mkdir classdir f).

Definition snapshot_dir (self : config) (name : str) : str :=
  match os_path_join (output_data_dir self) name with
  | inr classdir => classdir
  | inl _ => []
  end.

Definition snapshot_path `{Hashlib} (self : config) (name html : str)
  : str :=
  match os_path_join (Some (snapshot_dir self name))
          (sha256_hex html ++ lit ".html") with
  | inr filepath => filepath
  | inl _ => []
  end.

Section TraceProperties.

Context {B : Type} `{Controller B} `{Hashlib}.

(** Whatever way [m] ends, the controller calls it issued all satisfy [P]. *)
Definition emits {A : Type} (P : event -> Prop) (m : M B A) : Prop :=
  forall w out w',
    m w = (out, w') ->
    exists added, trace w' = trace w ++ added /\ Forall P added.

(** The calls of a crawl that returns are link clicks and backward
    navigations; the calls of a crawl that does not return are such calls
    followed by the scraping of one form. *)
Definition crawl_trace (out : outcome unit) (added : list event) : Prop :=
  (out = Return tt /\ Forall link_phase_event added)
  \/ ((forall u, out <> Return u)
      /\ exists pre post ix,
           added = pre ++ post
           /\ Forall link_phase_event pre
           /\ Forall (form_phase_event ix) post).

(** What the engine does on a page whose form [ix] is the target, up to
    the end of the last plan. *)
Definition scrape_form (self : config) (fuel ix : nat) (plans : list plan)
  (ending : option exn) : M B bool :=
  (save_screenshot self ;;
   save_training_page self (Some (lit "search_pages")) ;;
   save_screenshot self ;;
   run_plans self fuel ix plans ending false)%py.

End TraceProperties.

(** ** A small concrete browser, for the examples

    A site is a list of pages; the browser keeps the pages it went through,
    the current one first.  Buttons and forms lead to a fixed page; a link
    either leads to a page or cannot be clicked. *)

Module Site.

Record page : Type := mkPage {
  p_forms : list str;
  p_buttons : list (str * nat);
  p_links : list (str * option nat);
  p_results : nat
}.

Record state : Type := mkState {
  pages : list page;
  visited : list nat
}.

Definition blank : page :=
  {| p_forms := []; p_buttons := []; p_links := []; p_results := 0 |}.

Definition current (b : state) : page :=
  nth (hd 0 (visited b)) (pages b) blank.

Definition goto (n : nat) (b : state) : state :=
  {| pages := pages b; visited := n :: visited b |}.

Definition click_button (ix : nat) (b : state) : state :=
  match nth_error (p_buttons (current b)) ix with
  | Some (_, target) => goto target b
  | None => b
  end.

Definition click_link (ix : nat) (b : state) : bool * state :=
  match nth_error (p_links (current b)) ix with
  | Some (_, Some target) => (true, goto target b)
  | _ => (false, b)
  end.

Definition go_back (b : state) : state :=
  match visited b with
  | _ :: (_ :: _) as earlier => {| pages := pages b; visited := earlier |}
  | _ => b
  end.

#[global] Instance controller : Controller state := {|
  button_vectors := fun b => map fst (p_buttons (current b));
  form_vectors := fun b => p_forms (current b);
  link_vectors := fun b => map fst (p_links (current b));
  has_inputs := fun b ix => ix <? length (p_forms (current b));
  select_button := fun ix _ b => click_button ix b;
  select_link := click_link;
  input := fun _ _ _ b => b;
  submit := fun _ b => goto (p_results (current b)) b;
  back := go_back;
  page_html := fun b =>
    lit "page " ++ str_of_int (Z.of_nat (hd 0 (visited b)));
  page_url := fun b =>
    lit "http://site/" ++ str_of_int (Z.of_nat (hd 0 (visited b)));
  get_screenshot_as_png := fun _ => lit "png"
|}.

(** In the examples the digest of a page is the page itself: no property
    below depends on the digest. *)
#[global] Instance digest : Hashlib := {| sha256_hex := fun html => html |}.

Definition start (site : list page) : world state :=
  {| browser := {| pages := site; visited := [0] |};
     fs := empty_fs;
     clock := fun n => Z.of_nat n;
     ticks := 0;
     trace := [] |}.

(** A search page whose form leads to a chain of five result pages, each
    with a next-page button, and a last result page without one. *)
Definition results_page (next : nat) : page :=
  {| p_forms := [];
     p_buttons := [(lit "Previous Page", 0); (lit "Next Page", next)];
     p_links := [];
     p_results := 0 |}.

Definition long_results : list page :=
  [ {| p_forms := [lit "Last Name First Name"];
       p_buttons := []; p_links := [(lit "Home", Some 0)];
       p_results := 1 |};
    results_page 2; results_page 3; results_page 4; results_page 5;
    results_page 6;
    {| p_forms := []; p_buttons := [(lit "Previous Page", 0)];
       p_links := []; p_results := 0 |} ].

(** A search page whose form leads to a result page without controls. *)
Definition search_only : list page :=
  [ {| p_forms := [lit "Search by First Name"];
       p_buttons := []; p_links := [(lit "Home", Some 0)];
       p_results := 1 |};
    blank ].

(** The browser on page [n] of a site, reached from page 0. *)
Definition start_at (site : list page) (n : nat) : world state :=
  {| browser := {| pages := site; visited := [n; 0] |};
     fs := empty_fs;
     clock := fun n => Z.of_nat n;
     ticks := 0;
     trace := [] |}.

(** A page whose only form is not a target, with three links. *)
Definition link_page : list page :=
  [ {| p_forms := [lit "Subscribe"]; p_buttons := [];
       p_links := [(lit "About", Some 1);
                   (lit "Search results", Some 1);
                   (lit "Home", None)];
       p_results := 0 |};
    blank ].

(** The browser on page 0 of a site while the clock stands still. *)
Definition frozen (site : list page) : world state :=
  {| browser := {| pages := site; visited := [0] |};
     fs := empty_fs;
     clock := fun _ => 0%Z;
     ticks := 0;
     trace := [] |}.

(** The states of the browser on a given site. *)
Definition on_site (site : list page) (b : state) : Prop := pages b = site.

(** A page whose next button leads to the page itself. *)
Definition carousel : list page :=
  [ {| p_forms := []; p_buttons := [(lit "Next Page", 0)];
       p_links := []; p_results := 0 |} ].

(** A page whose links cannot be clicked. *)
Definition dead_links : list page :=
  [ {| p_forms := []; p_buttons := [];
       p_links := [(lit "About", None);
                   (lit "Search results", None);
                   (lit "Home", None)];
       p_results := 0 |} ].

End Site.

(** Configurations of the examples. *)
Definition example_config (dir : option str) (formdepth : Z)
  (type strings : str) : config :=
  {| maxdepth := 0;
     formdepth := formdepth;
     next_match := lit "next page";
     form_match := lit "first name";
     output_data_dir := dir;
     input_minlength := 1;
     form_input_range := None;
     wildcard := None;
     link_priority := lit "search";
     form_submit_natural_click := false;
     form_submit_wait := 5;
     form_input_index := 0;
     input_type := type;
     input_strings := strings |}.

(** The default configuration with another depth bound and an output
    directory. *)
Definition crawl_config (depth_bound : Z) : config :=
  {| maxdepth := depth_bound;
     formdepth := 0;
     next_match := lit "next page";
     form_match := lit "first name";
     output_data_dir := Some (lit "out");
     input_minlength := 1;
     form_input_range := None;
     wildcard := None;
     link_priority := lit "search";
     form_submit_natural_click := false;
     form_submit_wait := 5;
     form_input_index := 0;
     input_type := lit "character_iteration";
     input_strings := [] |}.

(** Words of two characters over the alphabet [abc], with the wildcard
    [%]. *)
Definition two_character_config : config :=
  {| maxdepth := 10; formdepth := 0; next_match := lit "next page";
     form_match := lit "first name"; output_data_dir := None;
     input_minlength := 2; form_input_range := Some (lit "abc");
     wildcard := Some (lit "%"); link_priority := lit "search";
     form_submit_natural_click := false; form_submit_wait := 5;
     form_input_index := 0; input_type := lit "character_iteration";
     input_strings := [] |}.

(** An alphabet in which a character occurs twice. *)
Definition doubled_alphabet_config : config :=
  {| maxdepth := 10; formdepth := 0; next_match := lit "next page";
     form_match := lit "first name"; output_data_dir := None;
     input_minlength := 1; form_input_range := Some (lit "aa");
     wildcard := None; link_priority := lit "search";
     form_submit_natural_click := false; form_submit_wait := 5;
     form_input_index := 0; input_type := lit "character_iteration";
     input_strings := [] |}.

(** The default texts, capitalised. *)
Definition capitalised_config : config :=
  {| maxdepth := 10; formdepth := 0; next_match := lit "Next Page";
     form_match := lit "First Name"; output_data_dir := None;
     input_minlength := 1; form_input_range := None; wildcard := None;
     link_priority := lit "Search"; form_submit_natural_click := false;
     form_submit_wait := 5; form_input_index := 0;
     input_type := lit "character_iteration";
     input_strings := [] |}.

(** U+2102, the double-struck capital C: an uppercase letter that has no
    lowercase form of its own. *)
Definition double_struck_c : char := 0x2102%N.

(** A link priority made of that letter. *)
Definition letterlike_config : config :=
  {| maxdepth := 10; formdepth := 0; next_match := lit "next page";
     form_match := lit "first name"; output_data_dir := None;
     input_minlength := 1; form_input_range := None; wildcard := None;
     link_priority := [double_struck_c]; form_submit_natural_click := false;
     form_submit_wait := 5; form_input_index := 0;
     input_type := lit "character_iteration";
     input_strings := [] |}.

(** How often a button was clicked and how often the browser went back. *)
Definition is_button_click (e : event) : bool :=
  match e with EvSelectButton _ _ => true | _ => false end.

Definition is_back (e : event) : bool :=
  match e with EvBack => true | _ => false end.

Definition is_link_click (e : event) : bool :=
  match e with EvSelectLink _ _ => true | _ => false end.

Definition is_submit (e : event) : bool :=
  match e with EvSubmit _ => true | _ => false end.

Definition count (f : event -> bool) (t : list event) : nat :=
  length (filter f t).

(** ** Further reference notions *)

(** An entry the [multi_manual] branch can read: an integer, a colon, and
    any text. *)
Definition entry_ok (entry : str) : bool :=
  match PyStr.split_once PyStr.colon entry with
  | [ix; _] =>
      match PyStr.int ix with
      | Some _ => true
      | None => false
      end
  | _ => false
  end.

(** The number of groups before the first one with an unreadable entry. *)
Fixpoint leading_groups (groups : list (list str)) : nat :=
  match groups with
  | [] => 0
  | entries :: rest =>
      if forallb entry_ok entries then S (leading_groups rest) else 0
  end.

(** [sep.join(pieces)] *)
Fixpoint joined (sep : str) (pieces : list str) : str :=
  match pieces with
  | [] => []
  | piece :: rest =>
      match rest with
      | [] => piece
      | _ :: _ => piece ++ sep ++ joined sep rest
      end
  end.

(** The text ends with a backslash. *)
Definition ends_with_backslash (v : str) : Prop :=
  exists pre, v = pre ++ [PyStr.backslash].

(** Every [sep] in [v] directly follows a backslash of [v]. *)
Definition all_escaped (sep : char) (v : str) : Prop :=
  forall pre post, v = pre ++ sep :: post -> ends_with_backslash pre.

(** The character before a position, as a text. *)
Definition context (prev : option char) : str :=
  match prev with
  | Some p => [p]
  | None => []
  end.

(** The controller calls of one plan run against form [ix] on a site
    without next controls. *)
Definition plan_events (ix : nat) (input_phase : plan) : list event :=
  map (fun a => EvInput ix (a_index a) (a_string a)) input_phase
  ++ [EvSubmit ix; EvBack].

Definition is_link_clicked (e : event) : bool :=
  match e with EvSelectLink _ true => true | _ => false end.

(** [open(path).read()], when the file is there. *)
Fixpoint lookup_file (path : str) (l : list (str * str))
  : option str :=
  match l with
  | [] => None
  | (p, data) :: rest =>
      if PyStr.eqb path p then Some data else lookup_file path rest
  end.

Definition read_file (path : str) (f : filesystem) : option str :=
  lookup_file path (files f).

(** The path of the screenshot taken at time [t]. *)
Definition screenshot_dir (self : config) : str :=
  match os_path_join (output_data_dir self) (lit "screenshots") with
  | inr dir => dir
  | inl _ => []
  end.

Definition screenshot_path (self : config) (t : Z) : str :=
  match os_path_join (Some (screenshot_dir self))
          (str_of_int t ++ lit ".png") with
  | inr filepath => filepath
  | inl _ => []
  end.

(** The [k]-th word of length [n] in base-[N] counting over the alphabet,
    [N] being the alphabet's length: the digits of [k], most significant
    first, read as positions in the alphabet. *)
Fixpoint counting_word (alphabet : list char) (n k : nat) : list char :=
  match n with
  | O => []
  | S n' =>
      nth (k / length alphabet ^ n') alphabet (N_of_ascii "a")
      :: counting_word alphabet n' (k mod length alphabet ^ n')
  end.

(** The images of the simple lowercase mappings. *)
Definition lowercase_images (runs : list (N * N * N * N)) : list N :=
  flat_map
    (fun r => let '(first, count, step, image) := r in
              map (fun k => (image + N.of_nat k * step)%N)
                  (seq 0 (N.to_nat count)))
    runs.

(** ** Proof automation *)

(** Case analysis on the first [match] or [if] found. *)
Ltac break_match :=
  match goal with
  | H : context [match ?x with _ => _ end] |- _ => destruct x eqn:?
  | |- context [match ?x with _ => _ end] => destruct x eqn:?
  end.

(** The primitive steps, as state transformers. *)
Ltac unfold_steps :=
  unfold control_back, control_select_button, control_input, control_submit,
    control_select_link, control_inputs, lift_exn, time_time, get, act,
    get_fs, with_fs, bind, ret, raise, sys_exit, out_of_fuel in *.

Create HintDb emits.

(** ** Equality of strings *)

Lemma str_eqb_eq (s t : str) : PyStr.eqb s t = true <-> s = t.
Proof.
  revert t. induction s as [|a s IH]; intros [|b t]; cbn [PyStr.eqb];
    try (split; [discriminate|discriminate]); [tauto|].
  rewrite andb_true_iff, N.eqb_eq, IH. split.
  - intros [-> ->]. reflexivity.
  - intros Heq. injection Heq as -> ->. now split.
Qed.

Lemma str_eqb_refl (s : str) : PyStr.eqb s s = true.
Proof. now apply str_eqb_eq. Qed.

Lemma str_eqb_neq (s t : str) : PyStr.eqb s t = false <-> s <> t.
Proof.
  rewrite <- str_eqb_eq. destruct (PyStr.eqb s t); split; congruence.
Qed.

Lemma str_eqb_sym (s t : str) : PyStr.eqb s t = PyStr.eqb t s.
Proof.
  destruct (PyStr.eqb t s) eqn:E.
  - apply str_eqb_eq in E. subst. apply str_eqb_refl.
  - apply str_eqb_neq. apply str_eqb_neq in E. congruence.
Qed.

Lemma str_eqb_spec (s t : str) : reflect (s = t) (PyStr.eqb s t).
Proof. apply iff_reflect. symmetry. apply str_eqb_eq. Qed.

(** ** Properties of [itertools.product] *)

Section Product.

Context {A : Type}.
Implicit Types (pool : list A) (n : nat).

Lemma product_from pool n (result : list (list A)) :
  fold_left
    (fun result pool => flat_map (fun x => map (fun y => x ++ [y]) pool) result)
    (repeat pool n) result
  = flat_map (fun x => map (app x) (words pool n)) result.
Proof.
  revert result. induction n as [|n IH]; intros result; simpl.
  - induction result as [|x r IHr]; simpl; [reflexivity|].
    rewrite app_nil_r. now f_equal.
  - rewrite IH. clear IH. generalize (words pool n) as W. intros W.
    induction result as [|x r IHr]; simpl; [reflexivity|].
    rewrite flat_map_app, IHr. f_equal. clear IHr.
    induction pool as [|y p IHp]; simpl; [reflexivity|].
    rewrite map_app, <- IHp. f_equal.
    rewrite map_map. apply map_ext. intros w.
    now rewrite <- app_assoc.
Qed.

Lemma product_words pool n : product pool n = words pool n.
Proof.
  unfold product. rewrite product_from. simpl.
  rewrite app_nil_r. rewrite <- (map_id (words pool n)) at 2.
  now apply map_ext.
Qed.

Lemma length_flat_map_const {X Y} (f : X -> list Y) (l : list X) k :
  (forall x, In x l -> length (f x) = k) ->
  length (flat_map f l) = length l * k.
Proof.
  induction l as [|x l IH]; intros Hk; simpl; [reflexivity|].
  rewrite length_app, Hk by now left.
  rewrite IH; [reflexivity|]. intros y Hy. apply Hk. now right.
Qed.

Lemma length_words pool n : length (words pool n) = length pool ^ n.
Proof.
  induction n as [|n IH]; simpl; [reflexivity|].
  rewrite (length_flat_map_const _ _ (length pool ^ n)); [reflexivity|].
  intros x _. now rewrite length_map.
Qed.

Lemma in_words pool n w :
  In w (words pool n) -> length w = n /\ Forall (fun a => In a pool) w.
Proof.
  revert w. induction n as [|n IH]; simpl; intros w Hw.
  - destruct Hw as [<-|[]]. split; [reflexivity|constructor].
  - apply in_flat_map in Hw. destruct Hw as (a & Ha & Hw).
    apply in_map_iff in Hw. destruct Hw as (u & <- & Hu).
    destruct (IH _ Hu) as [Hl Hf]. split; simpl; [now f_equal|].
    now constructor.
Qed.

Lemma NoDup_blocks pool (W : list (list A)) :
  NoDup pool -> NoDup W -> NoDup (flat_map (fun a => map (cons a) W) pool).
Proof.
  intros Hp HW. induction Hp as [|a p Ha Hp IHp]; simpl; [constructor|].
  apply NoDup_app; [|assumption|].
  - apply NoDup_map_NoDup_ForallPairs; [|assumption].
    intros u v _ _ Huv. now injection Huv.
  - intros w Hw Hin. apply in_map_iff in Hw. destruct Hw as (u & <- & _).
    apply in_flat_map in Hin. destruct Hin as (b & Hb & Hin).
    apply in_map_iff in Hin. destruct Hin as (v & Hv & _).
    injection Hv as -> _. contradiction.
Qed.

Lemma NoDup_words pool n : NoDup pool -> NoDup (words pool n).
Proof.
  intros Hnd. induction n as [|n IH]; simpl.
  - constructor; [intros []|constructor].
  - now apply NoDup_blocks.
Qed.

End Product.

(** ** Sorted lists *)

Section SortedLists.

Context {A : Type}.

Lemma StronglySorted_app (R : A -> A -> Prop) (l1 l2 : list A) :
  StronglySorted R l1 -> StronglySorted R l2 ->
  (forall x y, In x l1 -> In y l2 -> R x y) ->
  StronglySorted R (l1 ++ l2).
Proof.
  intros H1 H2 Hx. induction H1 as [|a l Hl IH Ha]; simpl; [assumption|].
  constructor.
  - apply IH. intros x y Hin. apply Hx. now right.
  - apply Forall_app. split; [assumption|].
    apply Forall_forall. intros y Hy. apply Hx; [now left|assumption].
Qed.

Lemma StronglySorted_weaken (R R' : A -> A -> Prop) (l : list A) :
  (forall x y, In x l -> In y l -> R x y -> R' x y) ->
  StronglySorted R l -> StronglySorted R' l.
Proof.
  intros Himp Hs. induction Hs as [|a l Hl IH Ha]; constructor.
  - apply IH. intros x y Hx Hy. apply Himp; now right.
  - rewrite Forall_forall in *. intros y Hy.
    apply Himp; [now left|now right|auto].
Qed.

Lemma StronglySorted_map {X} (f : X -> A) (R : A -> A -> Prop)
  (R' : X -> X -> Prop) (l : list X) :
  (forall x y, R' x y -> R (f x) (f y)) ->
  StronglySorted R' l -> StronglySorted R (map f l).
Proof.
  intros Himp Hs. induction Hs as [|a l Hl IH Ha]; simpl; constructor.
  - assumption.
  - rewrite Forall_forall in *. intros y Hy.
    apply in_map_iff in Hy. destruct Hy as (x & <- & Hx). auto.
Qed.

End SortedLists.

(** ** Lexicographic order of the enumerated words *)

Section Lexicographic.

Variable alphabet : list char.

Definition before (a b : char) : Prop :=
  position a alphabet < position b alphabet.

Definition lex_before (u v : list char) : Prop :=
  lex_lt alphabet u v = true.

Lemma lex_before_cons_same a u v :
  lex_before u v -> lex_before (a :: u) (a :: v).
Proof.
  unfold lex_before. simpl. intros ->.
  rewrite Nat.eqb_refl. apply orb_true_r.
Qed.

Lemma lex_before_cons_lt a b u v :
  before a b -> lex_before (a :: u) (b :: v).
Proof.
  unfold before, lex_before. simpl. intros Hlt.
  apply Nat.ltb_lt in Hlt. now rewrite Hlt.
Qed.

Lemma sorted_blocks (pool : list char) (W : list (list char)) :
  StronglySorted before pool -> StronglySorted lex_before W ->
  StronglySorted lex_before (flat_map (fun a => map (cons a) W) pool).
Proof.
  intros Hp HW. induction Hp as [|a p Hp IH Ha]; simpl; [constructor|].
  apply StronglySorted_app; [|assumption|].
  - eapply StronglySorted_map; [|exact HW].
    intros u v. apply lex_before_cons_same.
  - intros x y Hx Hy.
    apply in_map_iff in Hx. destruct Hx as (u & <- & _).
    apply in_flat_map in Hy. destruct Hy as (b & Hb & Hy).
    apply in_map_iff in Hy. destruct Hy as (v & <- & _).
    apply lex_before_cons_lt. rewrite Forall_forall in Ha. auto.
Qed.

End Lexicographic.

Lemma position_sorted (alphabet : list char) :
  NoDup alphabet -> StronglySorted (before alphabet) alphabet.
Proof.
  induction 1 as [|a l Ha Hl IH]; constructor.
  - eapply StronglySorted_weaken; [|exact IH].
    unfold before. intros x y Hx Hy Hlt. simpl.
    destruct (N.eqb_spec x a) as [->|_]; [contradiction|].
    destruct (N.eqb_spec y a) as [->|_]; [contradiction|].
    lia.
  - apply Forall_forall. intros y Hy. unfold before. simpl.
    rewrite N.eqb_refl.
    destruct (N.eqb_spec y a) as [->|_]; [contradiction|]. lia.
Qed.

Lemma words_sorted (alphabet : list char) n :
  NoDup alphabet -> StronglySorted (lex_before alphabet) (words alphabet n).
Proof.
  intros Hnd. induction n as [|n IH]; simpl.
  - repeat constructor.
  - apply sorted_blocks; [now apply position_sorted|assumption].
Qed.

(** ** The input-plan generator *)

Lemma join_injective (u v : list char) : PyStr.join u = PyStr.join v -> u = v.
Proof. unfold PyStr.join. now intros ->. Qed.

Lemma with_wildcard_suffix (self : config) (inp : str) :
  with_wildcard self inp = inp ++ suffix self.
Proof.
  unfold with_wildcard, suffix.
  destruct (wildcard self) as [[|c w]|]; simpl;
    now rewrite ?app_nil_r.
Qed.

Lemma character_iteration_yields (self : config) :
  (0 <= input_minlength self)%Z ->
  input_type self = lit "character_iteration" ->
  make_input_generator self
  = mkGenerated
      (map (fun w => single_plan self (PyStr.join w ++ suffix self))
           (words (chars self) (Z.to_nat (input_minlength self))))
      None.
Proof.
  intros Hlen Hty. unfold make_input_generator. rewrite Hty. simpl.
  unfold character_iteration_input_generator.
  destruct (Z.ltb_spec (input_minlength self) 0) as [Hneg|_]; [lia|].
  rewrite product_words.
  apply (f_equal (fun plans => mkGenerated plans None)).
  apply map_ext. intros w.
  unfold single_plan. now rewrite with_wildcard_suffix.
Qed.

Lemma plan_values_single (self : config) (f : list char -> str) ws :
  plan_values (map (fun w => single_plan self (f w)) ws) = map f ws.
Proof.
  unfold plan_values. induction ws as [|w ws IH]; simpl; [reflexivity|].
  now f_equal.
Qed.

Lemma ascii_lowercase_NoDup :
  NoDup PyStr.ascii_lowercase.
Proof.
  apply (NoDup_nth _ (N_of_ascii "a")). simpl. intros i j Hi Hj.
  do 26 (destruct i as [|i];
         [ do 26 (destruct j as [|j]; [try reflexivity; discriminate|]);
           exfalso; simpl in Hj; lia |]).
  exfalso. simpl in Hi. lia.
Qed.

(** C4, as amended: [character_iteration] over an alphabet [A] and a length
    [L = input_minlength >= 0] ends normally after exactly [|A|^L] plans,
    [|A|] counting the characters of the alphabet string; every plan is one
    assignment to [form_input_index] whose value is a word of length [L]
    over [A] followed by the wildcard (when one is configured).  When no
    character occurs twice in [A], the values are pairwise distinct and the
    words come in lexicographic order of the alphabet's positions.  The
    wildcard only adds the suffix: the values are those generated without a
    wildcard, in the same order, each followed by it. *)
Theorem character_iteration_enumeration (self : config) :
  (0 <= input_minlength self)%Z ->
  input_type self = lit "character_iteration" ->
  let A := chars self in
  let L := Z.to_nat (input_minlength self) in
  let g := make_input_generator self in
  raised g = None
  /\ length (yielded g) = length A ^ L
  /\ Forall (fun p => exists w,
               p = single_plan self (PyStr.join w ++ suffix self)
               /\ length w = L /\ Forall (fun c => In c A) w) (yielded g)
  /\ (NoDup A ->
      NoDup (plan_values (yielded g))
      /\ exists ws,
           plan_values (yielded g)
           = map (fun w => PyStr.join w ++ suffix self) ws
           /\ StronglySorted (lex_before A) ws)
  /\ plan_values (yielded g)
     = map (fun v => v ++ suffix self)
         (plan_values
            (yielded (make_input_generator (with_wildcard_option self None)))).
Proof.
  intros Hlen Hty A L g. subst g.
  rewrite (character_iteration_yields self Hlen Hty). simpl.
  fold A L. split; [reflexivity|].
  split; [now rewrite length_map, length_words|].
  split.
  { apply Forall_forall. intros p Hp. apply in_map_iff in Hp.
    destruct Hp as (w & <- & Hw). exists w. split; [reflexivity|].
    now apply in_words. }
  split.
  { intros Hnd. rewrite plan_values_single. split.
    - apply NoDup_map_NoDup_ForallPairs; [|now apply NoDup_words].
      intros u v _ _ Huv. apply app_inv_tail in Huv.
      now apply join_injective.
    - exists (words A L). split; [reflexivity|now apply words_sorted]. }
  rewrite (character_iteration_yields (with_wildcard_option self None));
    [|assumption|assumption].
  simpl. rewrite !plan_values_single.
  change (chars (with_wildcard_option self None)) with (chars self).
  fold A L. rewrite map_map. apply map_ext. intros w.
  unfold suffix at 2. simpl. now rewrite app_nil_r.
Qed.

Lemma character_iteration_enumeration_witness :
  let self := with_wildcard_option default_config (Some (lit "%")) in
  ((0 <= input_minlength self)%Z
   /\ input_type self = lit "character_iteration")
  /\ length (yielded (make_input_generator self)) = 26
  /\ NoDup (plan_values (yielded (make_input_generator self))).
Proof.
  pose proof (character_iteration_enumeration
                (with_wildcard_option default_config (Some (lit "%")))) as T.
  simpl. split; [split; [lia|reflexivity]|].
  destruct T as (_ & Hn & _ & Hd & _); [simpl; lia|reflexivity|].
  split; [exact Hn|]. apply Hd. exact ascii_lowercase_NoDup.
Defined.

(** C4 as stated fails for an alphabet with a repeated character: with
    [form_input_range = "aa"] and length 1 the generator yields [2 = 2^1]
    plans whose values are both ["a"]. *)
Lemma character_iteration_repeated_value :
  let g := make_input_generator doubled_alphabet_config in
  length (yielded g) = 2
  /\ plan_values (yielded g) = [lit "a"; lit "a"]
  /\ ~ NoDup (plan_values (yielded g)).
Proof.
  simpl. split; [reflexivity|]. split; [reflexivity|].
  intros Hnd. inversion Hnd as [|x l Hin _]. apply Hin. now left.
Qed.

(** *** Fixed strings *)

(** C2, evaluated on the code: for the payload [a,b\,c,d] the
    [fixed_strings] branch yields three single-assignment plans, and the
    second value keeps the backslash: it is [b\,c], not [b,c]. *)
Theorem fixed_strings_keeps_backslash (self : config) :
  make_input_generator (with_inputs self (lit "fixed_strings") (lit "a,b\,c,d"))
  = mkGenerated
      [single_plan self (lit "a"); single_plan self (lit "b\,c");
       single_plan self (lit "d")]
      None.
Proof. reflexivity. Qed.

(** *** Multi manual *)

Lemma replace_unescape_one (x : char) (s : str) :
  PyStr.replace [PyStr.backslash; x] [x] s = unescape_one x s.
Proof.
  unfold PyStr.replace.
  enough (Hboth :
            PyStr.replace_from (PyStr.backslash :: [x])
              [x] 0 s = unescape_one x s
            /\ forall c,
                PyStr.replace_from (PyStr.backslash :: [x])
                  [x] 0 (c :: s)
                = unescape_one x (c :: s)) by apply Hboth.
  induction s as [|c0 s [IH0 IH1]].
  - split; [reflexivity|]. intros c.
    cbn [PyStr.replace_from unescape_one PyStr.startswith].
    destruct (N.eqb PyStr.backslash c); reflexivity.
  - split; [apply IH1|]. intros c.
    specialize (IH1 c0).
    cbn [PyStr.replace_from unescape_one PyStr.startswith length Nat.sub].
    cbn [PyStr.replace_from unescape_one PyStr.startswith] in IH1.
    rewrite (N.eqb_sym c PyStr.backslash).
    destruct (N.eqb PyStr.backslash c); cbn [andb].
    + rewrite (N.eqb_sym c0 x).
      destruct (N.eqb x c0) eqn:Hx; cbn [andb].
      * cbn [app]. apply N.eqb_eq in Hx. subst c0.
        now rewrite IH0.
      * now rewrite <- IH1.
    + now rewrite <- IH1.
Qed.

Lemma unescape_one_keep (x c : char) (s : str) :
  N.eqb c PyStr.backslash = false ->
  unescape_one x (c :: s) = (c :: unescape_one x s).
Proof.
  intros Hc. cbn [unescape_one]. rewrite Hc.
  destruct s; reflexivity.
Qed.

Lemma unescape_one_skip (x c h : char) (t : str) :
  N.eqb h x = false ->
  unescape_one x (c :: h :: t) = c :: unescape_one x (h :: t).
Proof.
  intros Hh. cbn [unescape_one]. rewrite Hh, andb_false_r. reflexivity.
Qed.

Lemma unescape_one_head (x c : char) (s : str) :
  exists h t, unescape_one x (c :: s) = (h :: t) /\ (h = c \/ h = x).
Proof.
  cbn [unescape_one]. destruct s as [|c' s2]; [eauto|].
  destruct (N.eqb c PyStr.backslash && N.eqb c' x) eqn:Hb; [|eauto].
  apply andb_true_iff in Hb. destruct Hb as [_ Hx].
  apply N.eqb_eq in Hx. subst c'. eauto.
Qed.

Lemma unescape_in_two_passes (s : str) :
  unescape_one PyStr.semicolon (unescape_one PyStr.comma s) = unescape s.
Proof.
  enough (Hboth :
            unescape_one PyStr.semicolon (unescape_one PyStr.comma s)
            = unescape s
            /\ forall c,
                unescape_one PyStr.semicolon
                  (unescape_one PyStr.comma (c :: s))
                = unescape (c :: s)) by apply Hboth.
  induction s as [|c0 s [IH0 IH1]].
  - split; [reflexivity|]. intros c. reflexivity.
  - split; [apply IH1|]. intros c.
    change (unescape (c :: c0 :: s))
      with (if N.eqb c PyStr.backslash
               && (N.eqb c0 PyStr.comma || N.eqb c0 PyStr.semicolon)
            then c0 :: unescape s
            else c :: unescape (c0 :: s)).
    change (unescape_one PyStr.comma (c :: c0 :: s))
      with (if N.eqb c PyStr.backslash && N.eqb c0 PyStr.comma
            then c0 :: unescape_one PyStr.comma s
            else c :: unescape_one PyStr.comma (c0 :: s)).
    destruct (N.eqb c PyStr.backslash) eqn:Hc; cbn [andb].
    + destruct (N.eqb c0 PyStr.comma) eqn:Hcomma; cbn [orb].
      * apply N.eqb_eq in Hcomma. subst c0.
        rewrite unescape_one_keep by reflexivity. now rewrite IH0.
      * destruct (N.eqb c0 PyStr.semicolon) eqn:Hsemi.
        -- apply N.eqb_eq in Hsemi. subst c0.
           rewrite (unescape_one_keep PyStr.comma) by reflexivity.
           apply N.eqb_eq in Hc. subst c.
           cbn [unescape_one]. rewrite !N.eqb_refl. cbn [andb].
           now rewrite IH0.
        -- destruct (unescape_one_head PyStr.comma c0 s)
             as (h & t & Heq & Hh).
           rewrite <- IH1. rewrite Heq.
           apply unescape_one_skip.
           destruct Hh as [->| ->]; [assumption|reflexivity].
    + rewrite unescape_one_keep by assumption. now rewrite IH1.
Qed.

Lemma replace_unescape (s : str) :
  PyStr.replace (lit "\;") (lit ";") (PyStr.replace (lit "\,") (lit ",") s)
  = unescape s.
Proof.
  change (lit "\;") with (PyStr.backslash :: [PyStr.semicolon]).
  change (lit ";") with [PyStr.semicolon].
  change (lit "\,") with (PyStr.backslash :: [PyStr.comma]).
  change (lit ",") with [PyStr.comma].
  rewrite !replace_unescape_one. apply unescape_in_two_passes.
Qed.

Lemma parse_inputs_entries (entries : list str) (indiv_search : plan) :
  parse_inputs entries = inr indiv_search ->
  Forall2 entry_parsed indiv_search entries.
Proof.
  revert indiv_search. induction entries as [|e es IH]; intros p Hp.
  - injection Hp as <-. constructor.
  - cbn [parse_inputs] in Hp.
    destruct (PyStr.split_once PyStr.colon e) as [|ix [|raw [|x l]]] eqn:Hs;
      try discriminate.
    destruct (PyStr.int ix) as [i|] eqn:Hi; [|discriminate].
    destruct (parse_inputs es) as [err|tail] eqn:Ht; [discriminate|].
    injection Hp as <-. constructor; [|now apply IH].
    exists ix, raw. cbn [a_index a_string].
    repeat split; try assumption. apply replace_unescape.
Qed.

Lemma multi_manual_searches_entries (inputs : list str) :
  let g := multi_manual_searches inputs in
  Forall2 (Forall2 entry_parsed) (yielded g)
    (firstn (length (yielded g))
       (map (PyStr.re_split_unescaped PyStr.comma) inputs)).
Proof.
  induction inputs as [|inp rest IH]; cbn [multi_manual_searches].
  - constructor.
  - destruct (parse_inputs (PyStr.re_split_unescaped PyStr.comma inp))
      as [e|p] eqn:Hp; cbn.
    + constructor.
    + constructor; [now apply parse_inputs_entries|exact IH].
Qed.

(** C8: the payload [0:foo,1:bar;0:baz] yields exactly the plans
    [[{0,foo},{1,bar}]] and [[{0,baz}]], in this order; and for every
    payload, each assignment a [multi_manual] generator yields is the
    reading of the entry at its place (group by group, entry by entry): its
    index is the number before the first colon and its value is the text
    after it with every backslash that escapes a comma or a semicolon
    dropped. *)
Theorem multi_manual_plans (self : config) :
  make_input_generator (with_inputs self
                          (lit "multi_manual") (lit "0:foo,1:bar;0:baz"))
  = mkGenerated
      [ [ {| a_index := 0; a_string := lit "foo" |};
          {| a_index := 1; a_string := lit "bar" |} ];
        [ {| a_index := 0; a_string := lit "baz" |} ] ]
      None
  /\ forall payload : str,
       let g := make_input_generator (with_inputs self
                                        (lit "multi_manual") payload) in
       Forall2 (Forall2 entry_parsed) (yielded g)
         (firstn (length (yielded g)) (payload_entries payload)).
Proof.
  split; [reflexivity|]. intros payload.
  unfold make_input_generator, payload_entries.
  cbn [input_type input_strings with_inputs].
  change (PyStr.eqb (lit "multi_manual") (lit "character_iteration")) with false.
  change (PyStr.eqb (lit "multi_manual") (lit "fixed_strings")) with false.
  change (PyStr.eqb (lit "multi_manual") (lit "multi_manual")) with true.
  cbn [andb]. destruct (nonempty payload).
  - apply multi_manual_searches_entries.
  - cbn. constructor.
Qed.

(** ** The snapshot store *)

Section SnapshotStore.

Context {B : Type} `{Controller B} `{Hashlib}.
Variable self : config.

Lemma bind_return {A C} (m : M B A) (k : A -> M B C) w a w' :
  m w = (Return a, w') -> bind m k w = k a w'.
Proof. unfold bind. now intros ->. Qed.

Lemma bind_raise {A C} (m : M B A) (k : A -> M B C) w e w' :
  m w = (Raise e, w') -> bind m k w = (Raise e, w').
Proof. unfold bind. now intros ->. Qed.

Lemma bind_cases {A C} (m : M B A) (k : A -> M B C) w out w' :
  bind m k w = (out, w') ->
  (exists a w1, m w = (Return a, w1) /\ k a w1 = (out, w'))
  \/ (exists o, m w = (o, w')
                /\ (forall a, o <> Return a) /\ (forall c, out <> Return c)).
Proof.
  unfold bind. destruct (m w) as [[a|e|c|] w1]; intros Hk.
  - left. eauto.
  - right. injection Hk as <- <-. eexists. repeat split; discriminate.
  - right. injection Hk as <- <-. eexists. repeat split; discriminate.
  - right. injection Hk as <- <-. eexists. repeat split; discriminate.
Qed.

Lemma os_path_join_some (d b : str) :
  exists path, os_path_join (Some d) b = inr path.
Proof. unfold os_path_join. repeat break_match; eauto. Qed.

Lemma save_screenshot_unset (w : world B) :
  output_data_dir self = None ->
  save_screenshot self w = (Raise TypeError, tick w).
Proof.
  intros Hd. unfold save_screenshot. unfold_steps. now rewrite Hd.
Qed.

Lemma save_screenshot_frame (w : world B) out w' :
  save_screenshot self w = (out, w') -> same_page w w'.
Proof.
  unfold save_screenshot. unfold_steps. intros Hs.
  repeat break_match;
    repeat match goal with
           | E : (_, _) = (_, _) |- _ => inversion E; subst; clear E
           end;
    split; reflexivity.
Qed.

Lemma save_screenshot_set (d : str) (w : world B) :
  output_data_dir self = Some d ->
  exists w', save_screenshot self w = (Return tt, w') /\ same_page w w'.
Proof.
  intros Hd.
  destruct (save_screenshot self w) as [out w'] eqn:Hs.
  exists w'. split; [|eapply save_screenshot_frame; eassumption].
  revert Hs. unfold save_screenshot. unfold_steps. rewrite Hd. cbn [tick].
  destruct (os_path_join_some d (lit "screenshots")) as [dir ->].
  intros Hs.
  repeat break_match;
    repeat match goal with
           | E : (_, _) = (_, _) |- _ => inversion E; subst; clear E
           end;
    try reflexivity;
    match goal with
    | E : os_path_join (Some ?p) ?b = inl _ |- _ =>
        destruct (os_path_join_some p b) as [? E']; congruence
    end.
Qed.

Lemma save_training_page_frame classname (w : world B) out w' :
  save_training_page self classname w = (out, w') -> same_page w w'.
Proof.
  unfold save_training_page. unfold_steps. intros Hs.
  repeat break_match;
    repeat match goal with
           | E : (_, _) = (_, _) |- _ => inversion E; subst; clear E
           end;
    split; reflexivity.
Qed.

Lemma save_training_page_known (name : str) (w : world B) :
  existsb (PyStr.eqb name) classes = true ->
  exists w', save_training_page self (Some name) w = (Return tt, w')
             /\ same_page w w'.
Proof.
  intros Hn.
  destruct (save_training_page self (Some name) w) as [out w'] eqn:Hs.
  exists w'. split; [|eapply save_training_page_frame; eassumption].
  revert Hs. unfold save_training_page. rewrite Hn. unfold_steps.
  destruct (output_data_dir self) as [d|]; cbn [truthy negb].
  - destruct (os_path_join_some d name) as [dir ->]. intros Hs.
    repeat break_match;
      repeat match goal with
             | E : (_, _) = (_, _) |- _ => inversion E; subst; clear E
             end;
      try reflexivity;
      match goal with
      | E : os_path_join (Some ?p) ?b = inl _ |- _ =>
          destruct (os_path_join_some p b) as [? E']; congruence
      end.
  - intros Hs. now inversion Hs.
Qed.

Lemma save_training_page_unset (name : str) (w : world B) :
  truthy (output_data_dir self) = false ->
  existsb (PyStr.eqb name) classes = true ->
  save_training_page self (Some name) w = (Return tt, w).
Proof.
  intros Hd Hn. unfold save_training_page. now rewrite Hn, Hd.
Qed.

Lemma save_training_page_unknown classname (w : world B) :
  match classname with
  | Some name => existsb (PyStr.eqb name) classes
  | None => false
  end = false ->
  save_training_page self classname w = (Raise ValueError, w).
Proof.
  intros Hn. unfold save_training_page.
  destruct classname as [name|]; [now rewrite Hn|reflexivity].
Qed.

End SnapshotStore.

(** ** The pagination follower *)

Section Pagination.

Context {B : Type} `{Controller B} `{Hashlib}.
Variable self : config.

Lemma scan_buttons_none buttons ix depth (w : world B) :
  first_next self buttons ix = None ->
  scan_buttons self buttons ix depth w = (Return (false, depth), w).
Proof.
  revert ix. induction buttons as [|b bs IH]; intros ix Hn;
    cbn [scan_buttons first_next] in *.
  - reflexivity.
  - destruct (is_next_button self b); [discriminate|]. now apply IH.
Qed.

Lemma go_back_spec n (w : world B) :
  exists w', go_back n w = (Return tt, w')
             /\ browser w' = Nat.iter n back (browser w)
             /\ trace w' = trace w ++ repeat EvBack n
             /\ fs w' = fs w.
Proof.
  revert w. induction n as [|n IH]; intros w; simpl.
  - exists w. now rewrite app_nil_r.
  - unfold bind, control_back, act.
    match goal with |- context [go_back n ?w1] =>
      destruct (IH w1) as (w' & -> & Hb & Ht & Hf) end.
    exists w'. split; [reflexivity|]. simpl in *.
    rewrite Hb, Ht, Hf, <- app_assoc. simpl.
    repeat split. clear. induction n; simpl; congruence.
Qed.

Lemma scan_buttons_returns buttons : forall ix depth (w : world B) found n w',
  scan_buttons self buttons ix depth w = (Return (found, n), w') ->
  (found = false /\ n = depth /\ w' = w)
  \/ (found = true /\ n = S depth
      /\ exists j, trace w' = trace w ++ [EvSelectButton j true]).
Proof.
  induction buttons as [|b bs IH]; intros ix depth w found n w' Hr;
    cbn [scan_buttons] in Hr.
  - injection Hr as <- <- <-. now left.
  - destruct (is_next_button self b); [|now apply IH in Hr].
    unfold control_select_button, act in Hr. unfold bind at 1 in Hr.
    apply bind_cases in Hr.
    destruct Hr as [([] & w1 & H1 & Hr)|(o & _ & _ & Hout)];
      [|now contradiction (Hout (found, n))].
    apply save_training_page_frame in H1. destruct H1 as [_ Ht1].
    apply bind_cases in Hr.
    destruct Hr as [([] & w2 & H2 & Hr)|(o & _ & _ & Hout)];
      [|now contradiction (Hout (found, n))].
    apply save_screenshot_frame in H2. destruct H2 as [_ Ht2].
    injection Hr as <- <- <-. right. repeat split.
    exists ix. cbn [trace] in Ht1. congruence.
Qed.

Lemma next_loop_returns fuel : forall depth (w : world B) n w',
  next_loop self fuel depth w = (Return n, w') ->
  exists clicks,
    trace w' = trace w ++ clicks
    /\ Forall (fun e => is_button_click e = true) clicks
    /\ n = depth + length clicks
    /\ ((0 < formdepth self)%Z ->
        (Z.of_nat depth <= formdepth self + 1)%Z ->
        (Z.of_nat n <= formdepth self + 1)%Z).
Proof.
  induction fuel as [|fuel IH]; intros depth w n w' Hr; cbn [next_loop] in Hr;
    [discriminate|].
  destruct (negb (formdepth self =? 0)%Z
            && (Z.of_nat depth >? formdepth self)%Z) eqn:Hstop.
  - injection Hr as <- <-. exists []. rewrite app_nil_r, Nat.add_0_r.
    repeat split; auto.
  - unfold get in Hr. unfold bind at 1 in Hr.
    apply bind_cases in Hr.
    destruct Hr as [([] & w1 & H1 & Hr)|(o & _ & _ & Hout)];
      [|now contradiction (Hout n)].
    apply save_training_page_frame in H1. destruct H1 as [_ Ht1].
    apply bind_cases in Hr.
    destruct Hr as [([] & w2 & H2 & Hr)|(o & _ & _ & Hout)];
      [|now contradiction (Hout n)].
    apply save_screenshot_frame in H2. destruct H2 as [_ Ht2].
    apply bind_cases in Hr.
    destruct Hr as [([found depth'] & w3 & H3 & Hr)|(o & _ & _ & Hout)];
      [|now contradiction (Hout n)].
    assert (Hle : (0 < formdepth self)%Z ->
                  (Z.of_nat depth <= formdepth self)%Z).
    { intros Hpos. apply andb_false_iff in Hstop.
      destruct Hstop as [Hz|Hgt].
      - apply negb_false_iff, Z.eqb_eq in Hz. lia.
      - rewrite Z.gtb_ltb in Hgt. apply Z.ltb_ge in Hgt. lia. }
    apply scan_buttons_returns in H3.
    destruct H3 as [(-> & -> & ->)|(-> & -> & j & Ht3)].
    + injection Hr as <- <-. exists []. rewrite app_nil_r, Nat.add_0_r.
      repeat split; [congruence|constructor|]. intros Hpos _.
      specialize (Hle Hpos). lia.
    + apply IH in Hr. destruct Hr as (clicks & Et & Hc & Hn & Hb).
      exists (EvSelectButton j true :: clicks). repeat split.
      * rewrite Et, Ht3, Ht2, Ht1, <- app_assoc. reflexivity.
      * now constructor.
      * simpl. lia.
      * intros Hpos _. apply Hb; [assumption|]. specialize (Hle Hpos). lia.
Qed.

(** X2: whenever the follower returns, it went back exactly as often as it
    clicked a next control; and under a positive [formdepth] it clicked
    at most [formdepth + 1] times, whatever bound it was called with. *)
Lemma keep_clicking_balanced (fuel : nat) (maxdepth : Z) (w w' : world B) :
  keep_clicking_next_btns self fuel maxdepth w = (Return tt, w') ->
  exists clicks,
    trace w' = trace w ++ clicks ++ repeat EvBack (length clicks)
    /\ Forall (fun e => is_button_click e = true) clicks
    /\ ((0 < formdepth self)%Z ->
        (Z.of_nat (length clicks) <= formdepth self + 1)%Z).
Proof.
  unfold keep_clicking_next_btns. intros Hr. apply bind_cases in Hr.
  destruct Hr as [(n & w1 & H1 & Hr)|(o & _ & _ & Hout)];
    [|now contradiction (Hout tt)].
  apply next_loop_returns in H1.
  destruct H1 as (clicks & Et & Hc & Hn & Hb). simpl in Hn. subst n.
  destruct (go_back_spec (length clicks) w1) as (w2 & Hgo & _ & Et2 & _).
  rewrite Hgo in Hr. injection Hr as <-.
  exists clicks. repeat split.
  - now rewrite Et2, Et, <- app_assoc.
  - assumption.
  - intros Hpos. apply Hb; [assumption|]. simpl. lia.
Qed.

Lemma keep_clicking_unset (fuel : nat) (maxdepth : Z) (w : world B) :
  output_data_dir self = None ->
  (formdepth self = 0 \/ 0 <= formdepth self)%Z ->
  keep_clicking_next_btns self (S fuel) maxdepth w
  = (Raise TypeError, tick w).
Proof.
  intros Hdir Hbound. unfold keep_clicking_next_btns. cbn [next_loop].
  assert (Hgo : negb (formdepth self =? 0)%Z
                && (Z.of_nat 0 >? formdepth self)%Z = false).
  { destruct Hbound as [->|Hle]; [reflexivity|].
    apply andb_false_iff. right. rewrite Z.gtb_ltb. apply Z.ltb_ge. lia. }
  rewrite Hgo. apply bind_raise. unfold get. unfold bind at 1.
  rewrite (bind_return _ _ _ _ _
             (save_training_page_unset self (lit "data_pages") w
                ltac:(now rewrite Hdir) eq_refl)).
  apply bind_raise. now apply save_screenshot_unset.
Qed.

Section OutputDirSet.

Variable d : str.
Hypothesis Hdir : output_data_dir self = Some d.

Lemma bind_save_training_page {C} (name : str) (k : unit -> M B C)
  (w : world B) :
  existsb (PyStr.eqb name) classes = true ->
  exists w1, bind (save_training_page self (Some name)) k w = k tt w1
             /\ same_page w w1.
Proof.
  intros Hn.
  destruct (save_training_page_known self name w Hn) as (w1 & H1 & Hs).
  exists w1. now rewrite (bind_return _ _ _ _ _ H1).
Qed.

Lemma bind_save_screenshot {C} (k : unit -> M B C) (w : world B) :
  exists w1, bind (save_screenshot self) k w = k tt w1 /\ same_page w w1.
Proof.
  destruct (save_screenshot_set self d w Hdir) as (w1 & H1 & Hs).
  exists w1. now rewrite (bind_return _ _ _ _ _ H1).
Qed.

Ltac snapshot_steps :=
  repeat match goal with
    | |- context [bind (save_training_page _ (Some ?name)) ?k ?w] =>
        let w1 := fresh "w" in
        let E := fresh "E" in
        let Hb := fresh "Hb" in
        let Ht := fresh "Ht" in
        destruct (bind_save_training_page name k w eq_refl)
          as (w1 & E & Hb & Ht);
        rewrite E; clear E; cbn [browser trace] in Hb, Ht
    | |- context [bind (save_screenshot _) ?k ?w] =>
        let w1 := fresh "w" in
        let E := fresh "E" in
        let Hb := fresh "Hb" in
        let Ht := fresh "Ht" in
        destruct (bind_save_screenshot k w) as (w1 & E & Hb & Ht);
        rewrite E; clear E; cbn [browser trace] in Hb, Ht
    end.

Lemma scan_buttons_some buttons ix depth j (w : world B) :
  first_next self buttons ix = Some j ->
  exists w',
    scan_buttons self buttons ix depth w = (Return (true, S depth), w')
    /\ browser w' = select_button j true (browser w)
    /\ trace w' = trace w ++ [EvSelectButton j true].
Proof.
  revert ix. induction buttons as [|b bs IH]; intros ix Hn;
    cbn [scan_buttons first_next] in *.
  - discriminate.
  - destruct (is_next_button self b); [|now apply IH].
    injection Hn as <-.
    unfold control_select_button, act. unfold bind at 1.
    snapshot_steps. eexists. split; [reflexivity|].
    split; congruence.
Qed.

Lemma next_loop_continues depth :
  (formdepth self = 0 \/ Z.of_nat depth <= formdepth self)%Z ->
  negb (formdepth self =? 0)%Z && (Z.of_nat depth >? formdepth self)%Z = false.
Proof.
  intros [->|Hle]; [reflexivity|].
  apply andb_false_iff. right. rewrite Z.gtb_ltb. apply Z.ltb_ge. lia.
Qed.

Lemma next_loop_chain N : forall fuel depth (w : world B) ixs bN,
  N < fuel ->
  next_chain self N (browser w) = Some (ixs, bN) ->
  first_next self (button_vectors bN) 0 = None ->
  (formdepth self = 0 \/ Z.of_nat (depth + N) <= formdepth self)%Z ->
  exists w',
    next_loop self fuel depth w = (Return (depth + N), w')
    /\ browser w' = bN
    /\ trace w' = trace w ++ map (fun j => EvSelectButton j true) ixs
    /\ length ixs = N.
Proof.
  induction N as [|N IH]; intros fuel depth w ixs bN Hfuel Hchain Hend Hbound;
    (destruct fuel as [|fuel]; [lia|]); cbn [next_loop next_chain] in *;
    (rewrite next_loop_continues by (destruct Hbound; [now left|right; lia]));
    unfold get; unfold bind at 1.
  - injection Hchain as <- <-. snapshot_steps. unfold bind.
    rewrite scan_buttons_none by congruence.
    eexists. split; [now rewrite Nat.add_0_r|].
    simpl. rewrite app_nil_r. repeat split; congruence.
  - destruct (first_next self (button_vectors (browser w)) 0) as [j|] eqn:Hj;
      [|discriminate].
    destruct (next_chain self N (select_button j true (browser w)))
      as [[ixs' b']|] eqn:Hc; [|discriminate].
    injection Hchain as <- <-. snapshot_steps. unfold bind at 1.
    match goal with |- context [scan_buttons _ _ 0 depth ?w1] =>
      destruct (scan_buttons_some _ 0 depth j w1 Hj)
        as (w2 & Hscan & Hb2 & Ht2) end.
    rewrite Hscan.
    destruct (IH fuel (S depth) w2 ixs' b') as (w' & Hloop & Hb' & Ht' & Hlen).
    + lia.
    + rewrite Hb2. congruence.
    + assumption.
    + destruct Hbound as [Hz|Hle]; [now left|right; lia].
    + exists w'. rewrite Hloop. replace (depth + S N) with (S depth + N) by lia.
      split; [reflexivity|]. split; [assumption|].
      rewrite Ht', Ht2, <- app_assoc. simpl. split; [|now f_equal].
      congruence.
Qed.

(** X1: with an output directory configured, on a chain of pages whose page
    [N] is the first without a control whose text contains [next_match],
    and with a bound [formdepth] that is 0 or at least [N], the follower
    returns after clicking the first matching control of each of the [N]
    earlier pages and then going back [N] times. *)
Lemma keep_clicking_hops_then_backs (N fuel : nat) (maxdepth : Z)
  (w : world B) (ixs : list nat) (bN : B) :
  N < fuel ->
  next_chain self N (browser w) = Some (ixs, bN) ->
  first_next self (button_vectors bN) 0 = None ->
  (formdepth self = 0 \/ Z.of_nat N <= formdepth self)%Z ->
  exists w',
    keep_clicking_next_btns self fuel maxdepth w = (Return tt, w')
    /\ trace w' = trace w ++ map (fun j => EvSelectButton j true) ixs
                          ++ repeat EvBack N
    /\ length ixs = N
    /\ browser w' = Nat.iter N back bN.
Proof.
  intros Hfuel Hchain Hend Hbound. unfold keep_clicking_next_btns.
  destruct (next_loop_chain N fuel 0 w ixs bN Hfuel Hchain Hend)
    as (w1 & Hloop & Hb & Ht & Hlen); [simpl; assumption|].
  simpl in Hloop. rewrite (bind_return _ _ _ _ _ Hloop).
  destruct (go_back_spec N w1) as (w' & Hgo & Hb' & Ht' & _).
  exists w'. split; [assumption|].
  rewrite Ht', Ht, Hb', Hb, <- app_assoc. auto.
Qed.

End OutputDirSet.

End Pagination.

(** ** Which controller calls a computation can issue *)

Section Emits.

Context {B : Type} `{Controller B} `{Hashlib}.
Variable self : config.
Variable P : event -> Prop.

Lemma emits_nothing {A} (m : M B A) :
  (forall w out w', m w = (out, w') -> same_page w w') -> emits P m.
Proof.
  intros Hm w out w' Hr. exists []. destruct (Hm _ _ _ Hr) as [_ Ht].
  rewrite app_nil_r. split; [assumption|constructor].
Qed.

Lemma emits_ret {A} (a : A) : emits P (ret a : M B A).
Proof. apply emits_nothing. intros w out w' [= <- <-]. now split. Qed.

Lemma emits_raise {A} (e : exn) : emits P (raise e : M B A).
Proof. apply emits_nothing. intros w out w' [= <- <-]. now split. Qed.

Lemma emits_sys_exit {A} (c : Z) : emits P (sys_exit c : M B A).
Proof. apply emits_nothing. intros w out w' [= <- <-]. now split. Qed.

Lemma emits_out_of_fuel {A} : emits P (out_of_fuel : M B A).
Proof. apply emits_nothing. intros w out w' [= <- <-]. now split. Qed.

Lemma emits_get {A} (f : B -> A) : emits P (get f).
Proof. apply emits_nothing. intros w out w' [= <- <-]. now split. Qed.

Lemma emits_control_inputs ix : emits P (control_inputs ix).
Proof.
  apply emits_nothing. unfold control_inputs. intros w out w'.
  destruct (has_inputs (browser w) ix); intros [= <- <-]; now split.
Qed.

Lemma emits_save_screenshot : emits P (save_screenshot self).
Proof. apply emits_nothing. apply save_screenshot_frame. Qed.

Lemma emits_save_training_page c : emits P (save_training_page self c).
Proof. apply emits_nothing. apply save_training_page_frame. Qed.

Lemma emits_act (f : B -> B) (e : event) : P e -> emits P (act f e).
Proof.
  intros He w out w' [= <- <-]. exists [e]. split; [reflexivity|].
  now constructor.
Qed.

Lemma emits_bind {A C} (m : M B A) (k : A -> M B C) :
  emits P m -> (forall a, emits P (k a)) -> emits P (bind m k).
Proof.
  intros Hm Hk w out w' Hr.
  destruct (bind_cases _ _ _ _ _ Hr) as [(a & w1 & H1 & H2)|(o & H1 & _)].
  - destruct (Hm _ _ _ H1) as (t1 & E1 & F1).
    destruct (Hk a _ _ _ H2) as (t2 & E2 & F2).
    exists (t1 ++ t2). rewrite E2, E1, app_assoc. split; [reflexivity|].
    apply Forall_app. now split.
  - exact (Hm _ _ _ H1).
Qed.

End Emits.

#[global] Hint Resolve emits_save_screenshot emits_save_training_page
  emits_control_inputs emits_ret emits_raise emits_sys_exit emits_out_of_fuel
  emits_get : emits.

Section FormPhase.

Context {B : Type} `{Controller B} `{Hashlib}.
Variable self : config.
Variable form : nat.

Lemma emits_button (ix : nat) (iterating_form : bool) :
  emits (form_phase_event form) (control_select_button ix iterating_form).
Proof. apply emits_act. exact I. Qed.

Lemma emits_back : emits (form_phase_event form) control_back.
Proof. apply emits_act. exact I. Qed.

Lemma emits_input (index : Z) (value : str) :
  emits (form_phase_event form) (control_input form index value).
Proof. apply emits_act. reflexivity. Qed.

Lemma emits_submit : emits (form_phase_event form) (control_submit form).
Proof. apply emits_act. reflexivity. Qed.

Lemma emits_scan_buttons buttons ix depth :
  emits (form_phase_event form) (scan_buttons self buttons ix depth).
Proof.
  revert ix. induction buttons as [|b bs IH]; intros ix; cbn [scan_buttons].
  - apply emits_ret.
  - destruct (is_next_button self b); [|apply IH].
    apply emits_bind; [apply emits_button|intros _].
    apply emits_bind; [auto with emits|intros _].
    apply emits_bind; [auto with emits|intros _]. auto with emits.
Qed.

Lemma emits_next_loop fuel depth : emits (form_phase_event form) (next_loop self fuel depth).
Proof.
  revert depth. induction fuel as [|fuel IH]; intros depth; cbn [next_loop].
  - apply emits_out_of_fuel.
  - destruct (_ && _); [apply emits_ret|].
    apply emits_bind; [auto with emits|intros buttons].
    apply emits_bind; [auto with emits|intros _].
    apply emits_bind; [auto with emits|intros _].
    apply emits_bind; [apply emits_scan_buttons|intros [[] depth']];
      [apply IH|apply emits_ret].
Qed.

Lemma emits_go_back depth : emits (form_phase_event form) (go_back depth).
Proof.
  induction depth as [|depth IH]; cbn [go_back]; [apply emits_ret|].
  apply emits_bind; [apply emits_back|intros _; exact IH].
Qed.

Lemma emits_keep_clicking fuel maxdepth :
  emits (form_phase_event form) (keep_clicking_next_btns self fuel maxdepth).
Proof.
  apply emits_bind; [apply emits_next_loop|intros depth; apply emits_go_back].
Qed.

Lemma emits_fill_inputs input_phase : emits (form_phase_event form) (fill_inputs form input_phase).
Proof.
  induction input_phase as [|a rest IH]; cbn [fill_inputs];
    [apply emits_ret|].
  apply emits_bind; [apply emits_input|intros _; exact IH].
Qed.

Lemma emits_run_plans fuel plans ending scraped :
  emits (form_phase_event form) (run_plans self fuel form plans ending scraped).
Proof.
  revert scraped. induction plans as [|p ps IH]; intros scraped;
    cbn [run_plans].
  - destruct ending; [apply emits_raise|apply emits_ret].
  - apply emits_bind; [apply emits_fill_inputs|intros _].
    apply emits_bind; [auto with emits|intros _].
    apply emits_bind; [apply emits_submit|intros _].
    apply emits_bind; [auto with emits|intros _].
    apply emits_bind; [apply emits_keep_clicking|intros _].
    apply emits_bind; [apply emits_back|intros _]. apply IH.
Qed.

Lemma run_plans_scraped fuel plans ending (w : world B) s w' :
  run_plans self fuel form plans ending true w = (Return s, w') -> s = true.
Proof.
  revert w. induction plans as [|p ps IH]; intros w; cbn [run_plans].
  - destruct ending; intros [= <- _]. reflexivity.
  - intros Hr.
    repeat match type of Hr with
           | bind _ _ _ = _ =>
               apply bind_cases in Hr;
               destruct Hr as [(? & ? & _ & Hr)|(? & _ & _ & Hr)];
               [|now contradiction (Hr s)]
           end.
    now apply IH in Hr.
Qed.

Lemma run_plans_not_scraped fuel plans ending (w : world B) w' :
  run_plans self fuel form plans ending false w = (Return false, w') ->
  plans = [] /\ w' = w.
Proof.
  destruct plans as [|p ps]; cbn [run_plans].
  - destruct ending; intros [= <-]. now split.
  - intros Hr.
    repeat match type of Hr with
           | bind _ _ _ = _ =>
               apply bind_cases in Hr;
               destruct Hr as [(? & ? & _ & Hr)|(? & _ & _ & Hr)];
               [|now contradiction (Hr false)]
           end.
    apply run_plans_scraped in Hr. discriminate.
Qed.

End FormPhase.

(** ** The crawl engine *)

Section CrawlEngine.

Context {B : Type} `{Controller B} `{Hashlib}.
Variable self : config.

Lemma follow_links_at_maxdepth (recurse : Z -> M B unit)
  (link_zip : list (nat * str)) (w : world B) :
  follow_links self recurse (maxdepth self) link_zip w = (Return tt, w).
Proof.
  destruct link_zip as [|[ix text] rest]; cbn [follow_links];
    [reflexivity|].
  now rewrite Z.eqb_refl.
Qed.

Lemma scan_forms_no_target fuel forms ix (w : world B) :
  first_target_form self forms ix = None ->
  (forall j, ix <= j < ix + length forms -> has_inputs (browser w) j = true) ->
  scan_forms self fuel forms ix false w = (Return false, w).
Proof.
  revert ix. induction forms as [|f fs IH]; intros ix Hn Hin;
    cbn [scan_forms first_target_form] in *; [reflexivity|].
  destruct (is_target_form self f); [discriminate|]. cbn [negb].
  unfold bind, control_inputs. rewrite Hin by (simpl; lia).
  apply IH; [assumption|]. intros j Hj. apply Hin. simpl. lia.
Qed.

Lemma run_without_target_form (d : str) (fuel : nat) (w : world B) :
  output_data_dir self = Some d ->
  first_target_form self (form_vectors (browser w)) 0 = None ->
  (forall ix, ix < length (form_vectors (browser w)) ->
              has_inputs (browser w) ix = true) ->
  exists w',
    run self (S fuel) (maxdepth self) w = (Return tt, w')
    /\ trace w' = trace w ++ [EvBack]
    /\ browser w' = back (browser w).
Proof.
  intros Hdir Hforms Hin. cbn [run].
  replace (maxdepth self >? maxdepth self)%Z with false
    by (symmetry; rewrite Z.gtb_ltb; apply Z.ltb_irrefl).
  destruct (save_screenshot_set self d w Hdir) as (w1 & H1 & Hb & Ht).
  rewrite (bind_return _ _ _ _ _ H1). unfold get. unfold bind at 1.
  unfold bind at 1. rewrite Hb.
  rewrite scan_forms_no_target;
    [|assumption|intros j Hj; rewrite Hb; apply Hin; lia].
  unfold bind at 1. unfold bind at 1.
  rewrite follow_links_at_maxdepth.
  unfold control_back, act. eexists. split; [reflexivity|].
  cbn [browser trace]. split; congruence.
Qed.

Lemma form_phase_not_link ix e :
  form_phase_event ix e -> is_link_click e = false.
Proof. destruct e; simpl; intros Hp; (reflexivity || contradiction). Qed.

(** The form loop, entered with [scraped = False], either finds nothing to
    scrape and leaves the browser alone, or ends the call while scraping one
    form. *)
Lemma scan_forms_trace fuel forms : forall ix (w : world B) out w',
  scan_forms self fuel forms ix false w = (out, w') ->
  exists added,
    trace w' = trace w ++ added
    /\ ((out = Return false /\ added = [])
        \/ ((forall s, out <> Return s)
            /\ exists form, Forall (form_phase_event form) added)).
Proof.
  induction forms as [|f fs IH]; intros ix w out w' Hr;
    cbn [scan_forms] in Hr.
  - injection Hr as <- <-. exists []. rewrite app_nil_r. auto.
  - apply bind_cases in Hr.
    destruct Hr as [([] & w1 & H1 & Hr)|(o & H1 & _ & Hout)].
    2:{ destruct (emits_control_inputs (fun _ => False) ix _ _ _ H1)
          as (t & Et & Ft).
        exists t. split; [assumption|]. right. split; [assumption|].
        exists 0. eapply Forall_impl; [|exact Ft]. contradiction. }
    assert (Ew1 : w1 = w).
    { revert H1. unfold control_inputs.
      destruct (has_inputs (browser w) ix); now intros [= <-]. }
    subst w1. clear H1.
    destruct (is_target_form self f); cbn [negb] in Hr; [|now apply IH in Hr].
    assert (Hfail : forall (o : outcome bool) t,
               Forall (form_phase_event ix) t ->
               trace w' = trace w ++ t -> (forall c : bool, out <> Return c) ->
               exists added,
                 trace w' = trace w ++ added
                 /\ ((out = Return false /\ added = [])
                     \/ ((forall s, out <> Return s)
                         /\ exists form, Forall (form_phase_event form) added))).
    { intros _ t Ft Et Hout. exists t. split; [assumption|]. right.
      split; [assumption|]. now exists ix. }
    apply bind_cases in Hr.
    destruct Hr as [([] & w1 & H1 & Hr)|(o & H1 & _ & Hout)].
    2:{ destruct (emits_save_training_page self (form_phase_event ix)
                    _ _ _ _ H1) as (t & Et & Ft). eauto. }
    apply save_training_page_frame in H1. destruct H1 as [_ Ht1].
    apply bind_cases in Hr.
    destruct Hr as [([] & w2 & H2 & Hr)|(o & H2 & _ & Hout)].
    2:{ destruct (emits_save_screenshot self (form_phase_event ix)
                    _ _ _ H2) as (t & Et & Ft).
        rewrite Ht1 in Et. eauto. }
    apply save_screenshot_frame in H2. destruct H2 as [_ Ht2].
    apply bind_cases in Hr.
    destruct Hr as [(scraped' & w3 & H3 & Hr)|(o & H3 & _ & Hout)].
    2:{ destruct (emits_run_plans self ix _ _ _ _ _ _ _ H3) as (t & Et & Ft).
        rewrite Ht2, Ht1 in Et. eauto. }
    destruct scraped'.
    + injection Hr as <- <-.
      destruct (emits_run_plans self ix _ _ _ _ _ _ _ H3) as (t & Et & Ft).
      rewrite Ht2, Ht1 in Et.
      apply (Hfail (Exit 0) t Ft Et). discriminate.
    + apply run_plans_not_scraped in H3. destruct H3 as [_ ->].
      apply IH in Hr. destruct Hr as (t & Et & Hcases).
      exists t. split; [|assumption]. congruence.
Qed.

Lemma crawl_trace_fails (out : outcome unit) (pre post : list event) ix :
  (forall u, out <> Return u) ->
  Forall link_phase_event pre -> Forall (form_phase_event ix) post ->
  crawl_trace out (pre ++ post).
Proof. intros Hout Hpre Hpost. right. split; [assumption|]. eauto 6. Qed.

Lemma crawl_trace_cons (out : outcome unit) (e : event) (t : list event) :
  link_phase_event e -> crawl_trace out t -> crawl_trace out (e :: t).
Proof.
  intros He [[-> Hl]|(Hout & pre & post & ix & -> & Hpre & Hpost)].
  - left. split; [reflexivity|now constructor].
  - apply (crawl_trace_fails out (e :: pre) post ix); auto.
Qed.

Lemma crawl_trace_app (out : outcome unit) (t1 t2 : list event) :
  Forall link_phase_event t1 -> crawl_trace out t2 ->
  crawl_trace out (t1 ++ t2).
Proof.
  induction 1 as [|e t1 He Ht1 IH]; intros Hc; [assumption|].
  simpl. apply crawl_trace_cons; auto.
Qed.

Lemma crawl_trace_fails_as (o out : outcome unit) (t : list event) :
  (forall u, o <> Return u) -> (forall u, out <> Return u) ->
  crawl_trace o t -> crawl_trace out t.
Proof.
  intros Ho Hout [[-> _]|(_ & Hrest)]; [now contradiction (Ho tt)|].
  right. now split.
Qed.

Lemma follow_links_trace (recurse : Z -> M B unit) (depth : Z) :
  (forall d w out w',
      recurse d w = (out, w') ->
      exists added, trace w' = trace w ++ added /\ crawl_trace out added) ->
  forall link_zip (w : world B) out w',
    follow_links self recurse depth link_zip w = (out, w') ->
    exists added, trace w' = trace w ++ added /\ crawl_trace out added.
Proof.
  intros Hrec. induction link_zip as [|[ix text] rest IH];
    intros w out w' Hr; cbn [follow_links] in Hr.
  - injection Hr as <- <-. exists []. rewrite app_nil_r.
    split; [reflexivity|]. left. split; [reflexivity|constructor].
  - destruct (depth =? maxdepth self)%Z.
    { injection Hr as <- <-. exists []. rewrite app_nil_r.
      split; [reflexivity|]. left. split; [reflexivity|constructor]. }
    unfold bind at 1 in Hr. unfold control_select_link in Hr.
    destruct (select_link ix (browser w)) as [clicked b'].
    match type of Hr with bind _ _ ?w1 = _ => set (w0 := w1) in * end.
    assert (Hstep : exists t w1,
               (if clicked then recurse (depth + 1)%Z else ret tt) w0
               = (Return tt, w1)
               /\ trace w1 = trace w0 ++ t /\ Forall link_phase_event t
               /\ follow_links self recurse depth rest w1 = (out, w')
               \/ (forall u, out <> Return u)
                  /\ trace w' = trace w0 ++ t /\ crawl_trace out t).
    { apply bind_cases in Hr.
      destruct Hr as [([] & w1 & H1 & Hr)|(o & H1 & Ho & Hout)].
      - destruct clicked.
        + destruct (Hrec _ _ _ _ H1) as (t & Et & [[_ Hl]|(Hn & _)]);
            [|now contradiction (Hn tt)].
          exists t, w1. left. auto.
        + injection H1 as <-. exists [], w0. left.
          rewrite app_nil_r. auto.
      - destruct clicked; [|now injection H1 as <-; contradiction (Ho tt)].
        destruct (Hrec _ _ _ _ H1) as (t & Et & Hc).
        exists t, w'. right. split; [assumption|]. split; [assumption|].
        exact (crawl_trace_fails_as o out t Ho Hout Hc). }
    destruct Hstep as (t & w1 & [(_ & Et & Hl & Hrest)|(Hout & Et & Hc)]).
    + apply IH in Hrest. destruct Hrest as (t2 & Et2 & Hc2).
      exists (EvSelectLink ix clicked :: t ++ t2). split.
      * rewrite Et2, Et. subst w0. cbn [trace].
        now rewrite <- !app_assoc.
      * apply crawl_trace_cons; [exact I|]. now apply crawl_trace_app.
    + exists (EvSelectLink ix clicked :: t). split.
      * rewrite Et. subst w0. cbn [trace]. now rewrite <- app_assoc.
      * apply crawl_trace_cons; [exact I|assumption].
Qed.

Lemma run_trace fuel : forall depth (w : world B) out w',
  run self fuel depth w = (out, w') ->
  exists added, trace w' = trace w ++ added /\ crawl_trace out added.
Proof.
  induction fuel as [|fuel IH]; intros depth w out w' Hr; cbn [run] in Hr.
  - injection Hr as <- <-. exists []. rewrite app_nil_r.
    split; [reflexivity|].
    apply (crawl_trace_fails OutOfFuel [] [] 0); [discriminate|constructor..].
  - destruct (depth >? maxdepth self)%Z.
    { injection Hr as <- <-. exists [EvBack]. split; [reflexivity|].
      left. split; [reflexivity|]. repeat constructor. }
    assert (Hnone : forall o : outcome unit,
               (forall u, o <> Return u) -> crawl_trace o []).
    { intros o Ho. apply (crawl_trace_fails o [] [] 0); [assumption|constructor..]. }
    apply bind_cases in Hr.
    destruct Hr as [([] & w1 & H1 & Hr)|(o & H1 & _ & Hout)].
    2:{ apply save_screenshot_frame in H1. destruct H1 as [_ Ht].
        exists []. rewrite app_nil_r. auto. }
    apply save_screenshot_frame in H1. destruct H1 as [_ Ht1].
    unfold get in Hr. unfold bind at 1 in Hr.
    apply bind_cases in Hr.
    destruct Hr as [(s & w2 & H2 & Hr)|(o & H2 & Ho & Hout)].
    2:{ apply scan_forms_trace in H2.
        destruct H2 as (t & Et & [[-> _]|(_ & form & Ft)]);
          [now contradiction (Ho false)|].
        exists t. split; [congruence|].
        apply (crawl_trace_fails out [] t form); [assumption|constructor|assumption]. }
    apply scan_forms_trace in H2.
    destruct H2 as (t & Et & [[_ ->]|(Hn & _)]); [|now contradiction (Hn s)].
    rewrite app_nil_r in Et.
    unfold bind at 1 in Hr. apply bind_cases in Hr.
    destruct Hr as [([] & w3 & H3 & Hr)|(o & H3 & Ho & Hout)].
    + apply (follow_links_trace _ _ (IH)) in H3.
      destruct H3 as (t3 & Et3 & [[_ Hl]|(Hn & _)]);
        [|now contradiction (Hn tt)].
      injection Hr as <- <-. exists (t3 ++ [EvBack]). cbn [trace]. split.
      * rewrite Et3, Et, Ht1. now rewrite app_assoc.
      * left. split; [reflexivity|]. apply Forall_app. split; [assumption|].
        repeat constructor.
    + apply (follow_links_trace _ _ (IH)) in H3.
      destruct H3 as (t3 & Et3 & Hc). exists t3. split; [congruence|].
      exact (crawl_trace_fails_as o out t3 Ho Hout Hc).
Qed.

Lemma run_at_maxdepth_no_link (fuel : nat) (w : world B) out w' :
  run self (S fuel) (maxdepth self) w = (out, w') ->
  exists added,
    trace w' = trace w ++ added
    /\ Forall (fun e => is_link_click e = false) added.
Proof.
  cbn [run]. intros Hr.
  replace (maxdepth self >? maxdepth self)%Z with false in Hr
    by (symmetry; rewrite Z.gtb_ltb; apply Z.ltb_irrefl).
  apply bind_cases in Hr.
  destruct Hr as [([] & w1 & H1 & Hr)|(o & H1 & _ & Hout)].
  2:{ apply save_screenshot_frame in H1. destruct H1 as [_ Ht].
      exists []. rewrite app_nil_r. auto. }
  apply save_screenshot_frame in H1. destruct H1 as [_ Ht1].
  unfold get in Hr. unfold bind at 1 in Hr.
  apply bind_cases in Hr.
  destruct Hr as [(s & w2 & H2 & Hr)|(o & H2 & Ho & Hout)].
  2:{ apply scan_forms_trace in H2.
      destruct H2 as (t & Et & [[-> _]|(_ & form & Ft)]);
        [now contradiction (Ho false)|].
      exists t. split; [congruence|].
      eapply Forall_impl; [|exact Ft]. apply form_phase_not_link. }
  apply scan_forms_trace in H2.
  destruct H2 as (t & Et & [[_ ->]|(Hn & _)]); [|now contradiction (Hn s)].
  rewrite app_nil_r in Et.
  unfold bind at 1 in Hr. unfold bind at 1 in Hr.
  rewrite follow_links_at_maxdepth in Hr.
  injection Hr as <- <-. exists [EvBack]. cbn [trace].
  split; [congruence|]. repeat constructor.
Qed.

Lemma first_target_form_ge forms : forall k ix,
  first_target_form self forms k = Some ix -> k <= ix.
Proof.
  induction forms as [|f fs IH]; intros k ix Hk; cbn [first_target_form] in Hk;
    [discriminate|].
  destruct (is_target_form self f); [injection Hk as <-; lia|].
  apply IH in Hk. lia.
Qed.

Lemma scan_forms_target fuel forms : forall k (w : world B) ix p ps s w2,
  first_target_form self forms k = Some ix ->
  (forall j, k <= j <= ix -> has_inputs (browser w) j = true) ->
  make_input_generator self = mkGenerated (p :: ps) None ->
  (save_training_page self (Some (lit "search_pages")) ;;
   save_screenshot self ;;
   run_plans self fuel ix (p :: ps) None false)%py w = (Return s, w2) ->
  scan_forms self fuel forms k false w = (Exit 0, w2).
Proof.
  induction forms as [|f fs IH]; intros k w ix p ps s w2 Hfirst Hin Hgen Hr;
    cbn [scan_forms first_target_form] in *; [discriminate|].
  assert (Hle : k <= ix).
  { destruct (is_target_form self f); [injection Hfirst as <-; lia|].
    apply first_target_form_ge in Hfirst. lia. }
  unfold bind at 1. unfold control_inputs. rewrite Hin by lia.
  destruct (is_target_form self f); cbn [negb].
  - injection Hfirst as <-. rewrite Hgen. cbn [yielded raised].
    apply bind_cases in Hr.
    destruct Hr as [([] & w3 & H3 & Hr)|(o & _ & _ & Hout)];
      [|now contradiction (Hout s)].
    rewrite (bind_return _ _ _ _ _ H3).
    apply bind_cases in Hr.
    destruct Hr as [([] & w4 & H4 & Hr)|(o & _ & _ & Hout)];
      [|now contradiction (Hout s)].
    rewrite (bind_return _ _ _ _ _ H4).
    rewrite (bind_return _ _ _ _ _ Hr).
    destruct s; [reflexivity|].
    apply run_plans_not_scraped in Hr. destruct Hr as [Hnil _]. discriminate.
  - eapply IH; try eassumption. intros j Hj. apply Hin. lia.
Qed.

Lemma run_scrapes_and_exits (fuel : nat) (depth : Z) (w : world B)
  (ix : nat) (p : plan) (ps : list plan) (s : bool) (w2 : world B) :
  (depth <= maxdepth self)%Z ->
  first_target_form self (form_vectors (browser w)) 0 = Some ix ->
  (forall j, j <= ix -> has_inputs (browser w) j = true) ->
  make_input_generator self = mkGenerated (p :: ps) None ->
  scrape_form self fuel ix (p :: ps) None w = (Return s, w2) ->
  run self (S fuel) depth w = (Exit 0, w2).
Proof.
  intros Hdepth Hfirst Hin Hgen Hr. cbn [run].
  replace (depth >? maxdepth self)%Z with false
    by (symmetry; rewrite Z.gtb_ltb; apply Z.ltb_ge; lia).
  unfold scrape_form in Hr. apply bind_cases in Hr.
  destruct Hr as [([] & w1 & H1 & Hr)|(o & _ & _ & Hout)];
    [|now contradiction (Hout s)].
  rewrite (bind_return _ _ _ _ _ H1).
  apply save_screenshot_frame in H1. destruct H1 as [Hb _].
  unfold get. unfold bind at 1. unfold bind at 1. rewrite Hb.
  rewrite (scan_forms_target fuel _ 0 w1 ix p ps s w2); try assumption.
  - reflexivity.
  - intros j Hj. rewrite Hb. apply Hin. lia.
Qed.

Lemma bind_exit {A C} (m : M B A) (k : A -> M B C) w c w' :
  m w = (Exit c, w') -> bind m k w = (Exit c, w').
Proof. unfold bind. now intros ->. Qed.

(** A [sys.exit] inside the call made for a link ends the link loop, and
    with it the enclosing call, in the same state. *)
Lemma follow_links_exit (recurse : Z -> M B unit) (depth : Z) pre :
  forall ix text post (w w1 w2 : world B) c w',
    (depth <> maxdepth self)%Z ->
    follow_links self recurse depth pre w = (Return tt, w1) ->
    control_select_link ix w1 = (Return true, w2) ->
    recurse (depth + 1)%Z w2 = (Exit c, w') ->
    follow_links self recurse depth (pre ++ (ix, text) :: post) w
    = (Exit c, w').
Proof.
  induction pre as [|[jx t] pre IH];
    intros ix text post w w1 w2 c w' Hd Hpre Hclick Hexit;
    cbn [follow_links app] in *;
    apply Z.eqb_neq in Hd; rewrite Hd in *.
  - injection Hpre as <-. rewrite (bind_return _ _ _ _ _ Hclick).
    apply bind_exit. exact Hexit.
  - apply Z.eqb_neq in Hd.
    apply bind_cases in Hpre.
    destruct Hpre as [(clicked & w3 & H3 & Hpre)|(o & _ & _ & Hout)];
      [|now contradiction (Hout tt)].
    rewrite (bind_return _ _ _ _ _ H3).
    apply bind_cases in Hpre.
    destruct Hpre as [([] & w4 & H4 & Hpre)|(o & _ & _ & Hout)];
      [|now contradiction (Hout tt)].
    rewrite (bind_return _ _ _ _ _ H4). eapply IH; eassumption.
Qed.

Lemma run_exit_propagates (fuel : nat) (depth : Z)
  (w w0 w1 w2 w3 : world B) (s : bool) pre ix text post c w' :
  (depth < maxdepth self)%Z ->
  save_screenshot self w = (Return tt, w0) ->
  scan_forms self fuel (form_vectors (browser w0)) 0 false w0
  = (Return s, w1) ->
  sort_reverse (is_priority_link self)
    (enumerate_from 0 (link_vectors (browser w1)))
  = pre ++ (ix, text) :: post ->
  follow_links self (run self fuel) depth pre w1 = (Return tt, w2) ->
  control_select_link ix w2 = (Return true, w3) ->
  run self fuel (depth + 1) w3 = (Exit c, w') ->
  run self (S fuel) depth w = (Exit c, w').
Proof.
  intros Hdepth Hshot Hscan Hlinks Hpre Hclick Hexit. cbn [run].
  replace (depth >? maxdepth self)%Z with false
    by (symmetry; rewrite Z.gtb_ltb; apply Z.ltb_ge; lia).
  rewrite (bind_return _ _ _ _ _ Hshot). unfold get. unfold bind at 1.
  rewrite (bind_return _ _ _ _ _ Hscan). unfold bind at 1.
  apply bind_exit. rewrite Hlinks.
  eapply follow_links_exit; try eassumption. lia.
Qed.

Lemma run_unset (fuel : nat) (depth : Z) (w : world B) :
  output_data_dir self = None ->
  (depth <= maxdepth self)%Z ->
  run self (S fuel) depth w = (Raise TypeError, tick w).
Proof.
  intros Hdir Hdepth. cbn [run].
  replace (depth >? maxdepth self)%Z with false
    by (symmetry; rewrite Z.gtb_ltb; apply Z.ltb_ge; lia).
  apply bind_raise. now apply save_screenshot_unset.
Qed.

End CrawlEngine.

(** ** Link ranking and case *)

Lemma insert_desc_partition {A} (key : A -> bool) (x : A) (T F : list A) :
  Forall (fun y => key y = true) T ->
  Forall (fun y => key y = false) F ->
  insert_desc key x (T ++ F)
  = if key x then x :: T ++ F else T ++ x :: F.
Proof.
  intros HT HF. induction HT as [|y T Hy HT IH]; simpl.
  - destruct F as [|z F]; simpl; [now destruct (key x)|].
    inversion_clear HF as [|? ? Hz _]. rewrite Hz.
    now destruct (key x).
  - rewrite Hy, IH. now destruct (key x).
Qed.

(** The stable descending sort by a boolean key puts the elements whose
    key is true first and keeps the order inside both groups. *)
Lemma sort_reverse_partition {A} (key : A -> bool) (l : list A) :
  sort_reverse key l
  = filter key l ++ filter (fun y => negb (key y)) l.
Proof.
  induction l as [|x l IH]; simpl; [reflexivity|].
  rewrite IH, insert_desc_partition.
  - now destruct (key x).
  - apply Forall_forall. intros y Hy. now apply filter_In in Hy.
  - apply Forall_forall. intros y Hy. apply filter_In in Hy.
    now apply negb_true_iff.
Qed.

(** *** Occurrences *)

Lemma startswith_prefix (p s : str) :
  PyStr.startswith p s = true <-> exists post, s = p ++ post.
Proof.
  revert s. induction p as [|a p IH]; intros s; cbn [PyStr.startswith].
  - split; [intros _; now exists s|reflexivity].
  - destruct s as [|b s].
    + split; [discriminate|]. intros [post Hpost]. discriminate.
    + rewrite andb_true_iff, N.eqb_eq, IH. split.
      * intros [-> [post ->]]. now exists post.
      * intros [post Hpost]. injection Hpost as -> ->. eauto.
Qed.

Lemma contains_occurs (needle hay : str) :
  PyStr.contains needle hay = true <-> occurs_in needle hay.
Proof.
  unfold occurs_in. induction hay as [|b hay IH]; cbn [PyStr.contains].
  - rewrite orb_false_r, startswith_prefix. split.
    + intros [post ->]. now exists [], post.
    + intros (pre & post & Heq). symmetry in Heq.
      apply app_eq_nil in Heq. destruct Heq as [-> Heq].
      apply app_eq_nil in Heq. destruct Heq as [-> ->]. now exists [].
  - rewrite orb_true_iff, startswith_prefix, IH. split.
    + intros [[post ->]|(pre & post & ->)].
      * now exists [], post.
      * now exists (b :: pre), post.
    + intros ([|a pre] & post & Heq).
      * left. now exists post.
      * right. injection Heq as -> ->. now exists pre, post.
Qed.

Lemma occurs_chars (needle hay : str) (c : char) :
  occurs_in needle hay -> In c needle -> In c hay.
Proof.
  intros (pre & post & ->) Hin. apply in_or_app. right.
  apply in_or_app. now left.
Qed.

(** *** Lowercasing *)

Lemma find_lower_image (c l : N) (runs : list (N * N * N * N)) :
  Unicode.find_lower c runs = Some l -> In l (lowercase_images runs).
Proof.
  induction runs as [|[[[first count] step] image] runs IH];
    cbn [Unicode.find_lower lowercase_images flat_map]; [discriminate|].
  destruct (Unicode.in_run c first count step) eqn:Hrun.
  - intros Hl. injection Hl as <-. apply in_or_app. left.
    unfold Unicode.in_run in Hrun.
    apply andb_true_iff in Hrun. destruct Hrun as [Hrun Hcount].
    apply andb_true_iff in Hrun. destruct Hrun as [Hfirst Hstep].
    apply N.leb_le in Hfirst. apply N.eqb_eq in Hstep.
    apply N.ltb_lt in Hcount. apply N.Div0.div_exact in Hstep.
    apply in_map_iff. exists (N.to_nat ((c - first) / step)). split.
    + rewrite N2Nat.id. rewrite (N.mul_comm _ step), <- Hstep. reflexivity.
    + apply in_seq. clear Hstep. remember ((c - first) / step)%N as k. lia.
  - intros Hl. apply in_or_app. right. now apply IH.
Qed.

(** Lowercasing leaves the lowercase form of a character as it is. *)
Lemma lowercase_images_stable :
  forallb (fun l => PyStr.eqb (PyStr.lower [l]) [l])
    (lowercase_images Unicode.lowercase_runs) = true.
Proof. vm_compute. reflexivity. Qed.

Lemma lowercase_form_stable (c : char) :
  lowercase_form c -> PyStr.lower [c] = [c].
Proof.
  intros [->|[->|[d Hd]]]; [reflexivity|reflexivity|].
  unfold Unicode.to_lower_full in Hd.
  destruct (N.eqb d 0x130) eqn:Hd130.
  - destruct Hd as [<-|[<-|[]]]; reflexivity.
  - destruct Hd as [<-|[]]. unfold Unicode.to_lower.
    destruct (Unicode.find_lower d Unicode.lowercase_runs) as [l|] eqn:Hl.
    + apply find_lower_image in Hl. apply str_eqb_eq.
      pose proof lowercase_images_stable as Hall.
      rewrite forallb_forall in Hall. now apply Hall.
    + unfold PyStr.lower. cbn [PyStr.lower_from].
      destruct (N.eqb d PyStr.capital_sigma) eqn:Hsigma.
      * apply N.eqb_eq in Hsigma. subst d. discriminate Hl.
      * unfold Unicode.to_lower_full, Unicode.to_lower.
        now rewrite Hd130, Hl.
Qed.

Lemma lower_from_forms (before s : str) (c : char) :
  In c (PyStr.lower_from before s) -> lowercase_form c.
Proof.
  revert before. induction s as [|a s IH]; intros before;
    cbn [PyStr.lower_from]; [contradiction|].
  intros Hin. apply in_app_or in Hin. destruct Hin as [Hin|Hin]; [|eauto].
  destruct (N.eqb a PyStr.capital_sigma).
  - destruct Hin as [<-|[]].
    destruct (PyStr.final_sigma before s); [right; now left|now left].
  - right. right. now exists a.
Qed.

(** A character that lowercasing changes occurs in no lowercased text. *)
Lemma lower_drops_changed (s : str) (c : char) :
  PyStr.lower [c] <> [c] -> ~ In c (PyStr.lower s).
Proof.
  intros Hc Hin. apply Hc. apply lowercase_form_stable.
  exact (lower_from_forms [] s c Hin).
Qed.

Lemma changed_priority_matches_nothing (self : config) (c : char)
  (r : nat * str) :
  In c (link_priority self) ->
  PyStr.lower [c] <> [c] ->
  is_priority_link self r = false.
Proof.
  intros Hin Hc. unfold is_priority_link.
  destruct (PyStr.contains _ _) eqn:Hcont; [|reflexivity].
  apply contains_occurs in Hcont.
  destruct (lower_drops_changed (snd r) c Hc).
  exact (occurs_chars _ _ c Hcont Hin).
Qed.

(** On ASCII text, lowercasing is the ASCII case mapping. *)
Lemma ascii_to_lower_full :
  forallb
    (fun c => negb (N.eqb c PyStr.capital_sigma)
              && PyStr.eqb (Unicode.to_lower_full c) [ascii_lower c])
    (map N.of_nat (seq 0 128)) = true.
Proof. vm_compute. reflexivity. Qed.

Lemma lower_from_ascii (before s : str) :
  Forall (fun c => (c < 128)%N) s ->
  PyStr.lower_from before s = map ascii_lower s.
Proof.
  intros Hs. revert before.
  induction Hs as [|c s Hc Hs IH]; intros before; cbn [PyStr.lower_from map];
    [reflexivity|].
  pose proof ascii_to_lower_full as Hall. rewrite forallb_forall in Hall.
  specialize (Hall c). rewrite andb_true_iff, negb_true_iff, str_eqb_eq in Hall.
  destruct Hall as [Hsigma Hlow].
  { apply in_map_iff. exists (N.to_nat c). split; [apply N2Nat.id|].
    apply in_seq. lia. }
  now rewrite Hsigma, Hlow, IH.
Qed.

Lemma filter_all_false {A} (key : A -> bool) (l : list A) :
  (forall y, key y = false) ->
  filter key l = [] /\ filter (fun y => negb (key y)) l = l.
Proof.
  intros Hk. induction l as [|x l [IH1 IH2]]; simpl; [auto|].
  rewrite Hk. simpl. split; [assumption|now f_equal].
Qed.

(** The ranking example of the specification: with the priority
    ["search"], the links About, Search results, Home are tried in the order
    Search results, About, Home. *)
Example link_ranking_example :
  map snd
    (sort_reverse (is_priority_link default_config)
       (enumerate_from 0 [lit "About"; lit "Search results"; lit "Home"]))
  = [lit "Search results"; lit "About"; lit "Home"].
Proof. vm_compute. reflexivity. Qed.

(** ** The claims about the pagination follower and the crawl engine *)

(** C1, evaluated on the code: the follower does not read the bound it is
    called with, so the [maxdepth=3] of the post-submit call limits nothing.
    With [formdepth = 0] a submit that lands on a chain of five result
    pages with a next button is followed by five hops; with [formdepth = 1]
    by two: the hops are limited by [formdepth] alone. *)
Theorem post_submit_hops_ignore_cap :
  (forall (B : Type) (C : Controller B) (D : Hashlib) (self : config)
          (fuel : nat) (maxdepth : Z),
      keep_clicking_next_btns self fuel maxdepth
      = keep_clicking_next_btns self fuel 0)
  /\ (let self := example_config (Some (lit "out")) 0
                    (lit "fixed_strings") (lit "a") in
      let r := run self 10 0 (Site.start Site.long_results) in
      fst r = Exit 0
      /\ count is_submit (trace (snd r)) = 1
      /\ count is_button_click (trace (snd r)) = 5)
  /\ (let self := example_config (Some (lit "out")) 1
                    (lit "fixed_strings") (lit "a") in
      let r := run self 10 0 (Site.start Site.long_results) in
      fst r = Exit 0
      /\ count is_submit (trace (snd r)) = 1
      /\ count is_button_click (trace (snd r)) = 2).
Proof.
  split; [reflexivity|]. split; vm_compute; auto.
Qed.

(** C3, evaluated on the code: without an output directory the snapshot
    writer returns without touching anything for each of the five
    categories, but the screenshot writer raises [TypeError] (it joins the
    missing directory with ["screenshots"]) after reading the clock; so
    does [run], whose first step on a page within [maxdepth] is a
    screenshot. *)
Theorem save_screenshot_without_output_dir
  {B : Type} `{Controller B} `{Hashlib} (self : config) (w : world B) :
  Forall (fun name =>
            save_training_page (with_output_data_dir self None) (Some name) w
            = (Return tt, w)) classes
  /\ save_screenshot (with_output_data_dir self None) w
     = (Raise TypeError, tick w)
  /\ forall fuel, run default_config (S fuel) 0 w = (Raise TypeError, tick w).
Proof.
  split; [|split].
  - repeat constructor.
  - now apply save_screenshot_unset.
  - intros fuel. now apply run_unset.
Qed.

(** C5, evaluated on the code: under the default configuration (no output
    directory) the follower raises [TypeError] on the landing page, at the
    screenshot that follows the first snapshot, whatever the page sequence
    and the bound passed: the browser and the trace are those it started
    with, so no hop and no backward navigation took place. *)
Theorem follower_without_output_dir
  {B : Type} `{Controller B} `{Hashlib} (fuel : nat) (maxdepth : Z)
  (w : world B) :
  keep_clicking_next_btns default_config (S fuel) maxdepth w
  = (Raise TypeError, tick w)
  /\ trace (snd (keep_clicking_next_btns default_config (S fuel) maxdepth w))
     = trace w.
Proof.
  assert (Hr : keep_clicking_next_btns default_config (S fuel) maxdepth w
               = (Raise TypeError, tick w)).
  { apply keep_clicking_unset; [reflexivity|now left]. }
  rewrite Hr. now split.
Qed.

(** X1 on the concrete chain of five result pages: five clicks of button
    1, then five backward navigations. *)
Lemma keep_clicking_hops_then_backs_witness :
  let self := example_config (Some (lit "out")) 0
                (lit "fixed_strings") (lit "a") in
  let w := Site.start_at Site.long_results 1 in
  let bN := {| Site.pages := Site.long_results;
               Site.visited := [6; 5; 4; 3; 2; 1; 0] |} in
  (5 < 6
   /\ next_chain self 5 (browser w) = Some ([1; 1; 1; 1; 1], bN)
   /\ first_next self (button_vectors bN) 0 = None
   /\ (formdepth self = 0 \/ Z.of_nat 5 <= formdepth self)%Z)
  /\ exists w',
       keep_clicking_next_btns self 6 3 w = (Return tt, w')
       /\ trace w' = trace w ++ repeat (EvSelectButton 1 true) 5
                                 ++ repeat EvBack 5.
Proof.
  cbv zeta.
  assert (Hc : next_chain (example_config (Some (lit "out")) 0
                             (lit "fixed_strings") (lit "a")) 5
                 (browser (Site.start_at Site.long_results 1))
               = Some ([1; 1; 1; 1; 1],
                       {| Site.pages := Site.long_results;
                          Site.visited := [6; 5; 4; 3; 2; 1; 0] |}))
    by reflexivity.
  split; [split; [lia|split; [exact Hc|split; [reflexivity|now left]]]|].
  destruct (keep_clicking_hops_then_backs
              (example_config (Some (lit "out")) 0
                 (lit "fixed_strings") (lit "a"))
              (lit "out") eq_refl 5 6 3 (Site.start_at Site.long_results 1)
              _ _ (Nat.lt_succ_diag_r 5) Hc eq_refl (or_introl eq_refl))
    as (w' & Hr & Ht & _).
  exists w'. split; [exact Hr|exact Ht].
Defined.

(** C6, as amended: at [depth = maxdepth] no link is followed, however
    the call ends; and when an output directory is configured, the form
    texts can be read and none of them contains [form_match], the call
    returns after exactly one backward navigation and nothing else. *)
Theorem run_at_maxdepth
  {B : Type} `{Controller B} `{Hashlib} (self : config) (fuel : nat)
  (w : world B) :
  (forall out w',
      run self (S fuel) (maxdepth self) w = (out, w') ->
      exists added,
        trace w' = trace w ++ added
        /\ Forall (fun e => is_link_click e = false) added)
  /\ (forall d,
        output_data_dir self = Some d ->
        first_target_form self (form_vectors (browser w)) 0 = None ->
        (forall ix, ix < length (form_vectors (browser w)) ->
                    has_inputs (browser w) ix = true) ->
        exists w',
          run self (S fuel) (maxdepth self) w = (Return tt, w')
          /\ trace w' = trace w ++ [EvBack]
          /\ browser w' = back (browser w)).
Proof.
  split.
  - intros out w'. apply run_at_maxdepth_no_link.
  - intros d. apply run_without_target_form.
Qed.

Lemma run_at_maxdepth_witness :
  let self := example_config (Some (lit "out")) 0
                (lit "fixed_strings") (lit "a") in
  let w := Site.start Site.link_page in
  (output_data_dir self = Some (lit "out")
   /\ first_target_form self (form_vectors (browser w)) 0 = None
   /\ (forall ix, ix < length (form_vectors (browser w)) ->
                  has_inputs (browser w) ix = true))
  /\ exists w',
       run self 3 (maxdepth self) w = (Return tt, w')
       /\ trace w' = trace w ++ [EvBack]
       /\ browser w' = back (browser w).
Proof.
  cbv zeta.
  assert (Hin : forall ix,
             ix < length (form_vectors (browser (Site.start Site.link_page))) ->
             has_inputs (browser (Site.start Site.link_page)) ix = true).
  { intros ix Hix. simpl in *. apply Nat.ltb_lt. exact Hix. }
  split; [split; [reflexivity|split; [reflexivity|exact Hin]]|].
  exact (proj2 (run_at_maxdepth
                  (example_config (Some (lit "out")) 0
                     (lit "fixed_strings") (lit "a"))
                  2 (Site.start Site.link_page))
               (lit "out") eq_refl eq_refl Hin).
Defined.

(** C6 as stated fails on a page with a target form: at
    [depth = maxdepth = 0], with the two plans of [fixed_strings "a,b"],
    the call goes back twice (once per plan) and ends the process with
    [sys.exit(0)] instead of returning. *)
Lemma run_at_maxdepth_with_target_form :
  let self := example_config (Some (lit "out")) 0
                (lit "fixed_strings") (lit "a,b") in
  let r := run self 5 (maxdepth self) (Site.start Site.search_only) in
  fst r = Exit 0
  /\ trace (snd r)
     = [EvInput 0 0 (lit "a"); EvSubmit 0; EvBack;
        EvInput 0 0 (lit "b"); EvSubmit 0; EvBack]
  /\ count is_back (trace (snd r)) = 2.
Proof. vm_compute. auto. Qed.

(** C7: on a page within [maxdepth] whose first form containing
    [form_match] is form [ix], once the plans of the generator (at least
    one) have all been run, the call ends with [sys.exit(0)] in the very
    state the last plan left: no other form is scraped and no link is
    followed.  An exit of the call made for a link is the exit of the
    enclosing call, in the same state, so it reaches the outermost call.
    And for every call of the engine, however deep and however it ends: a
    call that returns normally issued link clicks and backward navigations
    only (it scraped nothing), and the controller calls of a call that does
    not return are such calls followed by the scraping of one form, with no
    link click after the scraping began. *)
Theorem scrape_ends_crawl
  {B : Type} `{Controller B} `{Hashlib} (self : config) :
  (forall (fuel : nat) (depth : Z) (w : world B) (ix : nat)
          (p : plan) (ps : list plan) (s : bool) (w2 : world B),
      (depth <= maxdepth self)%Z ->
      first_target_form self (form_vectors (browser w)) 0 = Some ix ->
      (forall j, j <= ix -> has_inputs (browser w) j = true) ->
      make_input_generator self = mkGenerated (p :: ps) None ->
      scrape_form self fuel ix (p :: ps) None w = (Return s, w2) ->
      run self (S fuel) depth w = (Exit 0, w2))
  /\ (forall (fuel : nat) (depth : Z) (w w0 w1 w2 w3 : world B) (s : bool)
             pre ix text post c w',
        (depth < maxdepth self)%Z ->
        save_screenshot self w = (Return tt, w0) ->
        scan_forms self fuel (form_vectors (browser w0)) 0 false w0
        = (Return s, w1) ->
        sort_reverse (is_priority_link self)
          (enumerate_from 0 (link_vectors (browser w1)))
        = pre ++ (ix, text) :: post ->
        follow_links self (run self fuel) depth pre w1 = (Return tt, w2) ->
        control_select_link ix w2 = (Return true, w3) ->
        run self fuel (depth + 1) w3 = (Exit c, w') ->
        run self (S fuel) depth w = (Exit c, w'))
  /\ (forall (fuel : nat) (depth : Z) (w : world B) out w',
        run self fuel depth w = (out, w') ->
        exists added,
          trace w' = trace w ++ added /\ crawl_trace out added).
Proof.
  split; [|split].
  - intros fuel depth w ix p ps s w2. apply run_scrapes_and_exits.
  - intros fuel depth w w0 w1 w2 w3 s pre ix text post c w'.
    apply run_exit_propagates.
  - intros fuel. apply run_trace.
Qed.

Lemma scrape_ends_crawl_witness :
  let self := example_config (Some (lit "out")) 0
                (lit "fixed_strings") (lit "a") in
  let w := Site.start Site.search_only in
  let done := scrape_form self 3 0 [single_plan self (lit "a")] None w in
  ((0 <= maxdepth self)%Z
   /\ first_target_form self (form_vectors (browser w)) 0 = Some 0
   /\ (forall j, j <= 0 -> has_inputs (browser w) j = true)
   /\ make_input_generator self = mkGenerated [single_plan self (lit "a")] None
   /\ done = (Return true, snd done))
  /\ run self 4 0 w = (Exit 0, snd done)
  /\ trace (snd done) = [EvInput 0 0 (lit "a"); EvSubmit 0; EvBack].
Proof.
  cbv zeta.
  assert (Hin : forall j, j <= 0 ->
                  has_inputs (browser (Site.start Site.search_only)) j = true).
  { intros j Hj. replace j with 0 by lia. reflexivity. }
  assert (Hgen : make_input_generator
                   (example_config (Some (lit "out")) 0
                      (lit "fixed_strings") (lit "a"))
                 = mkGenerated
                     [single_plan
                        (example_config (Some (lit "out")) 0
                           (lit "fixed_strings") (lit "a")) (lit "a")] None)
    by (vm_compute; reflexivity).
  assert (Hdone :
            scrape_form
              (example_config (Some (lit "out")) 0
                 (lit "fixed_strings") (lit "a")) 3 0
              [single_plan
                 (example_config (Some (lit "out")) 0
                    (lit "fixed_strings") (lit "a"))
                 (lit "a")] None (Site.start Site.search_only)
            = (Return true,
               snd (scrape_form
                      (example_config (Some (lit "out")) 0
                         (lit "fixed_strings") (lit "a")) 3 0
                      [single_plan
                         (example_config (Some (lit "out")) 0
                            (lit "fixed_strings") (lit "a")) (lit "a")] None
                      (Site.start Site.search_only))))
    by (vm_compute; reflexivity).
  split;
    [split; [discriminate
            |split; [vm_compute; reflexivity
                    |split; [exact Hin|split; [exact Hgen|exact Hdone]]]]|].
  split; [|vm_compute; reflexivity].
  exact (proj1 (scrape_ends_crawl
                  (example_config (Some (lit "out")) 0
                     (lit "fixed_strings") (lit "a")))
               3 0%Z (Site.start Site.search_only) 0 _ [] true _
               ltac:(discriminate) ltac:(vm_compute; reflexivity)
               Hin Hgen Hdone).
Defined.

(** C9: [fixed_strings] or [multi_manual] with an empty payload, and any
    input type other than the three known ones, make the generator raise
    before it yields a plan; a class name outside the five categories
    (or none) makes the snapshot store raise [ValueError], before anything
    is written and whether or not an output directory is configured. *)
Theorem configuration_errors_raise :
  (forall self : config,
      input_type self = lit "fixed_strings"
      \/ input_type self = lit "multi_manual" ->
      input_strings self = [] ->
      make_input_generator self = mkGenerated [] (Some InvalidCombination))
  /\ (forall self : config,
        input_type self <> lit "character_iteration" ->
        input_type self <> lit "fixed_strings" ->
        input_type self <> lit "multi_manual" ->
        make_input_generator self = mkGenerated [] (Some InvalidCombination))
  /\ (forall (B : Type) (C : Controller B) (D : Hashlib) (self : config)
             (classname : option str) (w : world B),
        (forall name, classname = Some name -> ~ In name classes) ->
        save_training_page self classname w = (Raise ValueError, w)).
Proof.
  split; [|split].
  - intros self Hty Hs. unfold make_input_generator. rewrite Hs.
    destruct Hty as [-> | ->]; reflexivity.
  - intros self H1 H2 H3. unfold make_input_generator.
    apply str_eqb_neq in H1, H2, H3. now rewrite H1, H2, H3.
  - intros B C D self classname w Hc. apply save_training_page_unknown.
    destruct classname as [name|]; [|reflexivity].
    destruct (existsb (PyStr.eqb name) classes) eqn:He; [|reflexivity].
    apply existsb_exists in He. destruct He as (x & Hx & He).
    apply str_eqb_eq in He. subst x. now contradiction (Hc name eq_refl).
Qed.

Lemma configuration_errors_raise_witness :
  make_input_generator (example_config None 0 (lit "fixed_strings") [])
  = mkGenerated [] (Some InvalidCombination)
  /\ make_input_generator (example_config None 0 (lit "random") (lit "a,b"))
     = mkGenerated [] (Some InvalidCombination)
  /\ save_training_page default_config (Some (lit "images"))
       (Site.start Site.search_only)
     = (Raise ValueError, Site.start Site.search_only).
Proof.
  destruct configuration_errors_raise as (H1 & H2 & H3).
  split; [|split].
  - apply H1; [now left|reflexivity].
  - apply H2; discriminate.
  - apply H3. intros name [= <-]. simpl.
    intros Hin. repeat (destruct Hin as [Hin|Hin]; [discriminate|]).
    exact Hin.
Defined.

(** C10, as amended: the sort key of a link is the test whether
    [link_priority], as configured, occurs in the lowercased link text, and
    the ranking puts the links with a true key first, in their order, before
    the others, in their order.  Hence a [link_priority] with a character
    that lowercasing changes, as it does every letter [A]-[Z], gives every
    link a false key and leaves every link list in its order.  The form and
    next-button tests lowercase both sides: they test whether the
    lowercased [form_match], or [next_match], occurs in the lowercased
    text.  On ASCII text lowercasing is the ASCII case mapping. *)
Theorem link_priority_is_case_sensitive (self : config) :
  (forall r : nat * str,
      is_priority_link self r = true
      <-> occurs_in (link_priority self) (PyStr.lower (snd r)))
  /\ (forall link_vectors : list str,
        let link_zip := enumerate_from 0 link_vectors in
        sort_reverse (is_priority_link self) link_zip
        = filter (is_priority_link self) link_zip
          ++ filter (fun r => negb (is_priority_link self r)) link_zip)
  /\ (forall c : char,
        In c (link_priority self) ->
        PyStr.lower [c] <> [c] ->
        forall link_vectors : list str,
          let link_zip := enumerate_from 0 link_vectors in
          Forall (fun r => is_priority_link self r = false) link_zip
          /\ sort_reverse (is_priority_link self) link_zip = link_zip)
  /\ (forall text : str,
        (is_target_form self text = true
         <-> occurs_in (PyStr.lower (form_match self)) (PyStr.lower text))
        /\ (is_next_button self text = true
            <-> occurs_in (PyStr.lower (next_match self)) (PyStr.lower text)))
  /\ (forall s : str,
        Forall (fun c => (c < 128)%N) s -> PyStr.lower s = map ascii_lower s)
  /\ (forall c : char,
        (N_of_ascii "A" <= c <= N_of_ascii "Z")%N -> PyStr.lower [c] <> [c]).
Proof.
  split; [|split; [|split; [|split; [|split]]]].
  - intros r. apply contains_occurs.
  - intros link_vectors link_zip. apply sort_reverse_partition.
  - intros c Hin Hc link_vectors link_zip.
    pose proof (changed_priority_matches_nothing self c) as Hfalse.
    split.
    + apply Forall_forall. intros r _. now apply Hfalse.
    + rewrite sort_reverse_partition.
      destruct (filter_all_false (is_priority_link self) link_zip) as [-> ->];
        [intros r; now apply Hfalse|reflexivity].
  - intros text. split; apply contains_occurs.
  - intros s Hs. now apply lower_from_ascii.
  - intros c Hc. change (N_of_ascii "A") with 65%N in Hc.
    change (N_of_ascii "Z") with 90%N in Hc.
    unfold PyStr.lower. rewrite (lower_from_ascii [] [c]).
    + cbn [map]. unfold ascii_lower.
      destruct (N.leb_spec 65 c); [|lia].
      destruct (N.leb_spec c 90); [|lia].
      cbn [andb]. intros Heq. injection Heq as Heq. lia.
    + constructor; [lia|constructor].
Qed.

(** A priority of [Search] ranks no link, where [search] ranks one; a
    form match of [First Name] still finds the form whose text has it in
    lower case, and no other. *)
Lemma link_priority_is_case_sensitive_witness :
  let self := capitalised_config in
  let links := [lit "About"; lit "Search results"; lit "Home"] in
  (In (N_of_ascii "S") (link_priority self)
   /\ PyStr.lower [N_of_ascii "S"] <> [N_of_ascii "S"])
  /\ (Forall (fun r => is_priority_link self r = false)
        (enumerate_from 0 links)
      /\ sort_reverse (is_priority_link self) (enumerate_from 0 links)
         = enumerate_from 0 links)
  /\ map fst (sort_reverse (is_priority_link default_config)
                (enumerate_from 0 links)) = [1; 0; 2]
  /\ is_target_form self (lit "Search by first name") = true
  /\ is_target_form self (lit "Subscribe") = false
  /\ is_next_button self (lit "NEXT PAGE >") = true
  /\ is_next_button self (lit "Previous Page") = false.
Proof.
  cbv zeta.
  assert (Hin : In (N_of_ascii "S") (link_priority capitalised_config))
    by (vm_compute; now left).
  assert (Hc : PyStr.lower [N_of_ascii "S"] <> [N_of_ascii "S"])
    by (vm_compute; discriminate).
  split; [now split|].
  split.
  - exact (proj1 (proj2 (proj2 (link_priority_is_case_sensitive
                                   capitalised_config)))
             (N_of_ascii "S") Hin Hc
             [lit "About"; lit "Search results"; lit "Home"]).
  - repeat split; vm_compute; reflexivity.
Defined.

(** C10 as stated fails for an uppercase character that lowercasing leaves
    as it is: U+2102, the double-struck capital C, is upper case and is its
    own lowercase form, and the priority made of it ranks the link whose
    text has it before the other link. *)
Lemma link_priority_uppercase_match :
  let self := letterlike_config in
  let links := [lit "Home"; double_struck_c :: lit "-algebras"] in
  In double_struck_c (link_priority self)
  /\ PyStr.is_upper double_struck_c = true
  /\ PyStr.lower [double_struck_c] = [double_struck_c]
  /\ is_priority_link self (1, double_struck_c :: lit "-algebras") = true
  /\ map fst (sort_reverse (is_priority_link self) (enumerate_from 0 links))
     = [1; 0]
  /\ ~ Forall (fun r => is_priority_link self r = false)
         (enumerate_from 0 links).
Proof.
  cbv zeta. split; [now left|].
  assert (Hkey : is_priority_link letterlike_config
                   (1, double_struck_c :: lit "-algebras") = true)
    by (vm_compute; reflexivity).
  split; [vm_compute; reflexivity|].
  split; [vm_compute; reflexivity|].
  split; [exact Hkey|].
  split; [vm_compute; reflexivity|].
  intros Hall. rewrite Forall_forall in Hall.
  specialize (Hall (1, double_struck_c :: lit "-algebras")).
  rewrite Hkey in Hall. discriminate Hall.
  cbn [enumerate_from]. right. now left.
Qed.

(** ** Further properties *)

Lemma keep_clicking_balanced_witness :
  let self := example_config (Some (lit "out")) 1
                (lit "fixed_strings") (lit "a") in
  let w := Site.start_at Site.long_results 1 in
  let r := keep_clicking_next_btns self 6 3 w in
  r = (Return tt, snd r)
  /\ exists clicks,
       trace (snd r) = trace w ++ clicks ++ repeat EvBack (length clicks)
       /\ Forall (fun e => is_button_click e = true) clicks
       /\ ((0 < formdepth self)%Z ->
           (Z.of_nat (length clicks) <= formdepth self + 1)%Z).
Proof.
  cbv zeta.
  assert (Hr : keep_clicking_next_btns
                 (example_config (Some (lit "out")) 1
                    (lit "fixed_strings") (lit "a"))
                 6 3 (Site.start_at Site.long_results 1)
               = (Return tt,
                  snd (keep_clicking_next_btns
                         (example_config (Some (lit "out")) 1
                            (lit "fixed_strings") (lit "a"))
                         6 3 (Site.start_at Site.long_results 1))))
    by (vm_compute; reflexivity).
  split; [exact Hr|].
  exact (keep_clicking_balanced _ 6 3 _ _ Hr).
Defined.

Lemma snapshot_fs_again (classdir filepath html : str) (f : filesystem) :
  snapshot_fs classdir filepath html (snapshot_fs classdir filepath html f)
  = snapshot_fs classdir filepath html f.
Proof.
  assert (Hwrite : forall g,
             write_file filepath html (write_file filepath html g)
             = write_file filepath html g).
  { intros g. unfold write_file. cbn [dirs files filter fst].
    rewrite str_eqb_refl. cbn [negb]. f_equal. f_equal.
    induction (files g) as [|x l IH]; cbn [filter]; [reflexivity|].
    destruct (negb (PyStr.eqb filepath (fst x))) eqn:Hx; cbn [filter];
      [rewrite Hx; now f_equal|assumption]. }
  assert (Hexists : os_path_exists classdir (snapshot_fs classdir filepath html f)
                    = true).
  { unfold snapshot_fs, os_path_exists, write_file. cbn [dirs files].
    apply orb_true_iff.
    destruct (existsb (PyStr.eqb classdir) (dirs f)
              || existsb (fun x => PyStr.eqb classdir (fst x)) (files f))
      eqn:Hex.
    - apply orb_true_iff in Hex. destruct Hex as [Hd|Hf]; [now left|].
      right. cbn [existsb fst].
      destruct (PyStr.eqb classdir filepath) eqn:Heq; [reflexivity|].
      cbn [orb]. apply existsb_exists in Hf. destruct Hf as (x & Hx & Hf).
      apply existsb_exists. exists x. split; [|assumption].
      apply filter_In. split; [assumption|].
      apply str_eqb_eq in Hf. subst classdir.
      apply negb_true_iff. now rewrite str_eqb_sym.
    - left. cbn [os_mkdir dirs existsb]. now rewrite str_eqb_refl. }
  unfold snapshot_fs at 1. rewrite Hexists. unfold snapshot_fs.
  apply Hwrite.
Qed.

Lemma save_training_page_writes
  {B : Type} `{Controller B} `{Hashlib} (self : config) (name : str)
  (w : world B) :
  existsb (PyStr.eqb name) classes = true ->
  truthy (output_data_dir self) = true ->
  save_training_page self (Some name) w
  = (Return tt,
     {| browser := browser w;
        fs := snapshot_fs (snapshot_dir self name)
                (snapshot_path self name (page_html (browser w)))
                (page_html (browser w)) (fs w);
        clock := clock w; ticks := ticks w; trace := trace w |}).
Proof.
  intros Hn Hd. unfold save_training_page. rewrite Hn, Hd. cbn [negb].
  unfold snapshot_path, snapshot_dir, snapshot_fs.
  destruct (output_data_dir self) as [d|]; [|discriminate].
  destruct (os_path_join_some d name) as [classdir Hc]. rewrite Hc.
  destruct (os_path_join_some classdir
              (sha256_hex (page_html (browser w)) ++ lit ".html"))
    as [filepath Hp].
  rewrite Hp. unfold_steps. cbn [fs browser].
  destruct (os_path_exists classdir (fs w)); cbn [fs browser];
    rewrite Hp; reflexivity.
Qed.

(** X4: a snapshot is addressed by its content: saving a page again, when
    it was saved before and still shows the same HTML, leaves the file
    system as it is. *)
Theorem save_training_page_idempotent
  {B : Type} `{Controller B} `{Hashlib} (self : config) (name : str)
  (w w1 w2 : world B) :
  save_training_page self (Some name) w = (Return tt, w1) ->
  save_training_page self (Some name) w1 = (Return tt, w2) ->
  fs w2 = fs w1.
Proof.
  intros H1 H2.
  destruct (existsb (PyStr.eqb name) classes) eqn:Hn.
  2:{ rewrite save_training_page_unknown in H1 by exact Hn. discriminate. }
  destruct (truthy (output_data_dir self)) eqn:Hd.
  - rewrite save_training_page_writes in H1, H2 by assumption.
    injection H1 as <-. injection H2 as <-. cbn [fs browser].
    apply snapshot_fs_again.
  - rewrite save_training_page_unset in H2 by assumption.
    now injection H2 as <-.
Qed.

Lemma save_training_page_idempotent_witness :
  let self := example_config (Some (lit "out")) 0
                (lit "fixed_strings") (lit "a") in
  let w := Site.start Site.search_only in
  let r1 := save_training_page self (Some (lit "search_pages")) w in
  let r2 := save_training_page self (Some (lit "search_pages")) (snd r1) in
  (r1 = (Return tt, snd r1) /\ r2 = (Return tt, snd r2))
  /\ fs (snd r2) = fs (snd r1).
Proof.
  cbv zeta.
  assert (H1 : save_training_page
                 (example_config (Some (lit "out")) 0
                    (lit "fixed_strings") (lit "a"))
                 (Some (lit "search_pages")) (Site.start Site.search_only)
               = (Return tt,
                  snd (save_training_page
                         (example_config (Some (lit "out")) 0
                            (lit "fixed_strings") (lit "a"))
                         (Some (lit "search_pages"))
                         (Site.start Site.search_only))))
    by (vm_compute; reflexivity).
  assert (H2 : save_training_page
                 (example_config (Some (lit "out")) 0
                    (lit "fixed_strings") (lit "a"))
                 (Some (lit "search_pages"))
                 (snd (save_training_page
                         (example_config (Some (lit "out")) 0
                            (lit "fixed_strings") (lit "a"))
                         (Some (lit "search_pages"))
                         (Site.start Site.search_only)))
               = (Return tt,
                  snd (save_training_page
                         (example_config (Some (lit "out")) 0
                            (lit "fixed_strings") (lit "a"))
                         (Some (lit "search_pages"))
                         (snd (save_training_page
                                 (example_config (Some (lit "out")) 0
                                    (lit "fixed_strings") (lit "a"))
                                 (Some (lit "search_pages"))
                                 (Site.start Site.search_only))))))
    by (vm_compute; reflexivity).
  split; [split; [exact H1|exact H2]|].
  exact (save_training_page_idempotent _ _ _ _ _ H1 H2).
Defined.

(** The end-to-end example of the specification, with an output
    directory: on a site of one search page whose form matches and whose
    result page has no next control, one fixed input string leads to: the
    search page saved, the input filled, the form submitted, the result
    page saved, no hop, one backward navigation, and the exit with code 0. *)
Example end_to_end_example :
  let self := example_config (Some (lit "out")) 0
                (lit "fixed_strings") (lit "a") in
  let r := run self 4 0 (Site.start Site.search_only) in
  fst r = Exit 0
  /\ trace (snd r) = [EvInput 0 0 (lit "a"); EvSubmit 0; EvBack]
  /\ map fst (files (fs (snd r)))
     = [(lit "out/screenshots/4.png"); (lit "out/data_pages/page 1.html");
        (lit "out/screenshots/3.png"); (lit "out/screenshots/2.png");
        (lit "out/screenshots/1.png"); (lit "out/search_pages/page 0.html");
        (lit "out/screenshots/0.png")].
Proof. vm_compute. auto. Qed.

(** ** Further properties of the input-plan generator *)

Lemma re_split_from_cons (sep : char) prev (s : str) :
  exists piece pieces, PyStr.re_split_from sep prev s = piece :: pieces.
Proof.
  destruct s as [|c s]; cbn [PyStr.re_split_from]; [eauto|].
  destruct (_ && _); [eauto|].
  destruct (PyStr.re_split_from sep (Some c) s); eauto.
Qed.

Lemma ends_with_backslash_app (a b : str) :
  b <> [] -> (ends_with_backslash (a ++ b) <-> ends_with_backslash b).
Proof.
  intros Hb. destruct (exists_last Hb) as (b' & x & ->).
  unfold ends_with_backslash. split.
  - intros [pre Hpre]. rewrite app_assoc in Hpre.
    apply app_inj_tail in Hpre. destruct Hpre as [_ ->]. now exists b'.
  - intros [pre Hpre]. apply app_inj_tail in Hpre. destruct Hpre as [_ ->].
    exists (a ++ b'). now rewrite app_assoc.
Qed.

Lemma ends_with_backslash_context (prev : option char) :
  ends_with_backslash (context prev)
  <-> match prev with
      | Some p => N.eqb p PyStr.backslash
      | None => false
      end = true.
Proof.
  unfold ends_with_backslash. destruct prev as [p|]; cbn [context].
  - rewrite N.eqb_eq. split.
    + intros [[|a pre] Hpre]; [now injection Hpre|].
      injection Hpre as _ Hpre. now destruct pre.
    + intros ->. now exists [].
  - split; [|discriminate]. intros [[|a pre] Hpre]; discriminate.
Qed.

Lemma joined_cons (sep : char) (c : char) (piece : str) (rest : list str) :
  joined [sep] ((c :: piece) :: rest) = c :: joined [sep] (piece :: rest).
Proof. destruct rest; reflexivity. Qed.

(** What the cut of a text at its unescaped separators is: the pieces,
    joined with the separator, give the text back; every separator inside a
    piece follows a backslash; and no piece before a cut ends with a
    backslash.  [prev] is the character before the text. *)
Lemma re_split_from_cut (sep : char) (s : str) :
  sep <> PyStr.backslash ->
  forall prev, exists piece rest,
    PyStr.re_split_from sep prev s = piece :: rest
    /\ joined [sep] (piece :: rest) = s
    /\ (forall pre post,
           piece = pre ++ sep :: post ->
           ends_with_backslash (context prev ++ pre))
    /\ Forall (all_escaped sep) rest
    /\ (rest <> [] -> ~ ends_with_backslash (context prev ++ piece))
    /\ Forall (fun v => ~ ends_with_backslash v) (removelast rest).
Proof.
  intros Hsep. induction s as [|c s IH]; intros prev;
    cbn [PyStr.re_split_from].
  - exists [], []. repeat split; try constructor.
    + intros [|a pre] post Hpre; discriminate.
    + intros Hrest. now destruct Hrest.
  - destruct (IH (Some c))
      as (piece & rest & -> & Hjoin & Hin & Hrest & Hend & Hends).
    cbn [context] in Hin, Hend.
    destruct (N.eqb c sep && _) eqn:Hcut.
    + apply andb_true_iff in Hcut. destruct Hcut as [Hc Hprev].
      apply N.eqb_eq in Hc. subst c. apply negb_true_iff in Hprev.
      exists [], (piece :: rest). split; [reflexivity|].
      split.
      { change (joined [sep] ([] :: piece :: rest))
          with (sep :: joined [sep] (piece :: rest)).
        now rewrite Hjoin. }
      split; [intros [|a pre] post Hpre; discriminate|].
      split.
      { constructor; [|assumption]. intros pre post Hpre.
        specialize (Hin pre post Hpre).
        destruct pre as [|a pre].
        - destruct Hin as [[|b q] Hq]; [|destruct q; discriminate].
          injection Hq as Hq. contradiction.
        - exact (proj1 (ends_with_backslash_app [sep] (a :: pre)
                          ltac:(discriminate)) Hin). }
      split.
      { intros _. rewrite app_nil_r, ends_with_backslash_context.
        now rewrite Hprev. }
      destruct rest as [|piece2 rest]; [constructor|].
      change (removelast (piece :: piece2 :: rest))
        with (piece :: removelast (piece2 :: rest)).
      constructor; [|assumption].
      intros Hpiece. apply Hend; [discriminate|].
      destruct piece as [|a piece];
        [destruct Hpiece as [[|b q] Hq]; discriminate|].
      apply ends_with_backslash_app; [discriminate|assumption].
    + exists (c :: piece), rest. split; [reflexivity|].
      split; [rewrite joined_cons; now rewrite Hjoin|].
      split.
      { intros [|a pre] post Hpre.
        - injection Hpre as Hc _. subst c. rewrite N.eqb_refl in Hcut.
          cbn [andb] in Hcut. apply negb_false_iff in Hcut.
          rewrite app_nil_r. now apply ends_with_backslash_context.
        - injection Hpre as <- Hpre. specialize (Hin pre post Hpre).
          apply ends_with_backslash_app; [discriminate|exact Hin]. }
      split; [assumption|].
      split; [|assumption].
      intros Hne Hctx. apply (Hend Hne).
      exact (proj1 (ends_with_backslash_app (context prev) (c :: piece)
                      ltac:(discriminate)) Hctx).
Qed.

(** X6: for every non-empty payload the [fixed_strings] branch ends
    normally after at least one plan; every plan is one assignment to
    [form_input_index]; the values, joined with commas, give the payload
    back; each comma inside a value directly follows a backslash of the
    value; and no value but the last ends with a backslash: the payload is
    cut at its unescaped commas and nowhere else. *)
Theorem fixed_strings_pieces (self : config) (payload : str) :
  nonempty payload = true ->
  let g :=
    make_input_generator (with_inputs self (lit "fixed_strings") payload) in
  raised g = None
  /\ yielded g = map (single_plan self) (plan_values (yielded g))
  /\ yielded g <> []
  /\ joined [PyStr.comma] (plan_values (yielded g)) = payload
  /\ Forall (all_escaped PyStr.comma) (plan_values (yielded g))
  /\ Forall (fun v => ~ ends_with_backslash v)
       (removelast (plan_values (yielded g))).
Proof.
  intros Hne. unfold make_input_generator.
  cbn [input_type input_strings with_inputs form_input_index].
  change (PyStr.eqb (lit "fixed_strings") (lit "character_iteration"))
    with false.
  change (PyStr.eqb (lit "fixed_strings") (lit "fixed_strings")) with true.
  rewrite Hne. cbn [andb yielded raised].
  assert (Hvalues : forall l,
             plan_values
               (map (fun v => [ {| a_index := form_input_index self;
                                   a_string := v |} ]) l) = l).
  { induction l as [|v l IH]; [reflexivity|]. unfold plan_values in *.
    cbn. now f_equal. }
  rewrite Hvalues. unfold PyStr.re_split_unescaped.
  assert (Hsep : PyStr.comma <> PyStr.backslash) by discriminate.
  destruct (re_split_from_cut PyStr.comma payload Hsep None)
    as (piece & rest & -> & Hjoin & Hin & Hrest & Hend & Hends).
  cbn [context app] in Hin, Hend.
  split; [reflexivity|]. split; [reflexivity|].
  split; [discriminate|]. split; [exact Hjoin|].
  split; [constructor; assumption|].
  destruct rest as [|piece2 rest]; [constructor|].
  change (removelast (piece :: piece2 :: rest))
    with (piece :: removelast (piece2 :: rest)).
  constructor; [apply Hend; discriminate|assumption].
Qed.

(** The payload [a\,b,,c\] is cut at its second and third comma. *)
Lemma fixed_strings_pieces_witness :
  let payload := lit "a\,b,,c\" in
  let g :=
    make_input_generator
      (with_inputs default_config (lit "fixed_strings") payload) in
  nonempty payload = true
  /\ plan_values (yielded g) = [lit "a\,b"; []; lit "c\"]
  /\ joined [PyStr.comma] (plan_values (yielded g)) = payload
  /\ Forall (all_escaped PyStr.comma) (plan_values (yielded g)).
Proof.
  cbv zeta.
  split; [reflexivity|]. split; [vm_compute; reflexivity|].
  split.
  - exact (proj1 (proj2 (proj2 (proj2
             (fixed_strings_pieces default_config (lit "a\,b,,c\")
                eq_refl))))).
  - exact (proj1 (proj2 (proj2 (proj2 (proj2
             (fixed_strings_pieces default_config (lit "a\,b,,c\")
                eq_refl)))))).
Defined.

Lemma parse_inputs_all_ok (entries : list str) :
  forallb entry_ok entries = true ->
  exists p, parse_inputs entries = inr p /\ length p = length entries.
Proof.
  induction entries as [|e es IH]; cbn [forallb parse_inputs]; [eauto|].
  intros Hok. apply andb_true_iff in Hok. destruct Hok as [He Hes].
  destruct (IH Hes) as (p & Hp & Hlen). unfold entry_ok in He.
  destruct (PyStr.split_once PyStr.colon e) as [|ix [|raw [|x l]]];
    try discriminate.
  destruct (PyStr.int ix); [|discriminate].
  rewrite Hp. eexists. split; [reflexivity|]. simpl. now f_equal.
Qed.

Lemma parse_inputs_some_bad (entries : list str) :
  forallb entry_ok entries = false ->
  parse_inputs entries = inl ValueError.
Proof.
  induction entries as [|e es IH]; cbn [forallb parse_inputs];
    [discriminate|].
  intros Hbad. unfold entry_ok in Hbad.
  destruct (PyStr.split_once PyStr.colon e) as [|ix [|raw [|x l]]];
    try reflexivity.
  destruct (PyStr.int ix); [|reflexivity].
  cbn [andb] in Hbad. now rewrite (IH Hbad).
Qed.

Lemma multi_manual_searches_groups (inputs : list str) :
  let groups := map (PyStr.re_split_unescaped PyStr.comma) inputs in
  let g := multi_manual_searches inputs in
  length (yielded g) = leading_groups groups
  /\ raised g = (if leading_groups groups =? length groups
                 then None else Some ValueError)
  /\ Forall2 (fun p entries => length p = length entries) (yielded g)
       (firstn (leading_groups groups) groups).
Proof.
  induction inputs as [|inp rest IH];
    cbn [multi_manual_searches map leading_groups].
  - cbn. repeat split. constructor.
  - destruct (forallb entry_ok (PyStr.re_split_unescaped PyStr.comma inp))
      eqn:Hok.
    + destruct (parse_inputs_all_ok _ Hok) as (p & -> & Hlen).
      destruct IH as (IH1 & IH2 & IH3). cbn [yielded raised length firstn].
      repeat split; [now f_equal|exact IH2|now constructor].
    + rewrite (parse_inputs_some_bad _ Hok). cbn. repeat split. constructor.
Qed.

(** X7: the [multi_manual] branch yields one plan per group, with one
    assignment per entry, for the groups before the first one with an entry
    that is not an integer, a colon and a text; it ends normally when there
    is no such group and with a [ValueError] after those plans otherwise. *)
Theorem multi_manual_groups (self : config) (payload : str) :
  nonempty payload = true ->
  let g := make_input_generator (with_inputs self
                                   (lit "multi_manual") payload) in
  let groups := payload_entries payload in
  length (yielded g) = leading_groups groups
  /\ raised g = (if leading_groups groups =? length groups
                 then None else Some ValueError)
  /\ Forall2 (fun p entries => length p = length entries) (yielded g)
       (firstn (leading_groups groups) groups).
Proof.
  intros Hne. unfold make_input_generator, payload_entries.
  cbn [input_type input_strings with_inputs].
  change (PyStr.eqb (lit "multi_manual") (lit "character_iteration")) with false.
  change (PyStr.eqb (lit "multi_manual") (lit "fixed_strings")) with false.
  change (PyStr.eqb (lit "multi_manual") (lit "multi_manual")) with true.
  rewrite Hne. cbn [andb]. apply multi_manual_searches_groups.
Qed.

(** The second group of [0:a,1:b;x;2:c] has no colon.  A unit separator
    (U+001F) before the index makes it unreadable, while a no-break space
    (U+00A0) is skipped and an Arabic-Indic digit (U+0661) is read. *)
Lemma multi_manual_groups_witness :
  let run payload :=
    make_input_generator
      (with_inputs default_config (lit "multi_manual") payload) in
  let unit_separator := (0x1F%N :: lit "0:foo") in
  (nonempty (lit "0:a,1:b;x;2:c") = true
   /\ nonempty unit_separator = true)
  /\ (length (yielded (run (lit "0:a,1:b;x;2:c"))) = 1
      /\ raised (run (lit "0:a,1:b;x;2:c")) = Some ValueError)
  /\ (length (yielded (run unit_separator)) = 0
      /\ raised (run unit_separator) = Some ValueError)
  /\ run (0xA0%N :: 0x661%N :: lit "0:foo")
     = mkGenerated [[ {| a_index := 10; a_string := lit "foo" |} ]] None.
Proof.
  cbv zeta. split; [split; reflexivity|].
  split; [|split].
  - destruct (multi_manual_groups default_config (lit "0:a,1:b;x;2:c")
                eq_refl) as (Hlen & Hend & _).
    split; [exact Hlen|exact Hend].
  - destruct (multi_manual_groups default_config (0x1F%N :: lit "0:foo")
                eq_refl) as (Hlen & Hend & _).
    split; [exact Hlen|exact Hend].
  - vm_compute. reflexivity.
Defined.

Lemma make_input_generator_not_silent (self : config) :
  yielded (make_input_generator self) = [] ->
  exists e, raised (make_input_generator self) = Some e.
Proof.
  unfold make_input_generator.
  destruct (PyStr.eqb (input_type self) (lit "character_iteration")).
  { unfold character_iteration_input_generator.
    destruct (input_minlength self <? 0)%Z; cbn [yielded raised]; [eauto|].
    rewrite product_words. intros Hnil.
    apply (f_equal (@length _)) in Hnil.
    rewrite length_map, length_words in Hnil. exfalso.
    assert (Hpos : 0 < length (chars self)).
    { unfold chars. destruct (form_input_range self) as [[|c r]|];
        cbn; lia. }
    simpl in Hnil. apply Nat.pow_eq_0_iff in Hnil. lia. }
  destruct (PyStr.eqb (input_type self) (lit "fixed_strings")
            && nonempty (input_strings self)).
  { cbn [yielded raised]. unfold PyStr.re_split_unescaped.
    destruct (re_split_from_cons PyStr.comma None (input_strings self))
      as (piece & pieces & ->). discriminate. }
  destruct (PyStr.eqb (input_type self) (lit "multi_manual")
            && nonempty (input_strings self)); [|cbn; eauto].
  unfold PyStr.re_split_unescaped.
  destruct (re_split_from_cons PyStr.semicolon None (input_strings self))
    as (inp & rest & ->).
  cbn [multi_manual_searches].
  destruct (parse_inputs _) as [e|p]; cbn [yielded raised];
    [eauto|discriminate].
Qed.

Lemma nth_error_blocks {A : Type} (pool : list A) (W : list (list A))
  (m : nat) (dflt : A) : forall k,
  length W = m -> 0 < m -> k < length pool * m ->
  nth_error (flat_map (fun a => map (cons a) W) pool) k
  = option_map (cons (nth (k / m) pool dflt)) (nth_error W (k mod m)).
Proof.
  intros k HW Hm. revert k. induction pool as [|a pool IH]; intros k Hk;
    cbn [flat_map length] in *; [lia|].
  destruct (Nat.lt_ge_cases k m) as [Hlt|Hge].
  - rewrite nth_error_app1 by (rewrite length_map; lia).
    rewrite Nat.div_small, Nat.mod_small by assumption.
    cbn [nth]. now rewrite nth_error_map.
  - rewrite nth_error_app2 by (rewrite length_map; lia).
    rewrite length_map, HW, IH by lia.
    assert (Hd : k / m = S ((k - m) / m)).
    { replace k with (1 * m + (k - m)) at 1 by lia.
      rewrite Nat.div_add_l by lia. reflexivity. }
    assert (Hr : k mod m = (k - m) mod m).
    { replace k with ((k - m) + 1 * m) at 1 by lia.
      apply Nat.Div0.mod_add. }
    rewrite Hd, Hr. reflexivity.
Qed.

Lemma nth_error_words (alphabet : list char) (n : nat) : forall k,
  k < length alphabet ^ n ->
  nth_error (words alphabet n) k = Some (counting_word alphabet n k).
Proof.
  induction n as [|n IH]; intros k Hk; cbn [words counting_word].
  - simpl in Hk. replace k with 0 by lia. reflexivity.
  - cbn [Nat.pow] in Hk.
    assert (Hm : 0 < length alphabet ^ n).
    { destruct (length alphabet ^ n); [lia|lia]. }
    rewrite (nth_error_blocks alphabet (words alphabet n)
               (length alphabet ^ n) (N_of_ascii "a") k (length_words _ _) Hm Hk).
    rewrite IH by (apply Nat.mod_upper_bound; lia). reflexivity.
Qed.

(** X17: [character_iteration] counts in base [N], [N] being the length
    of the alphabet: for every [k < N^L], the plan yielded at place [k]
    (from 0) assigns to [form_input_index] the word whose characters are
    the base-[N] digits of [k], most significant first, read as positions
    in the alphabet, followed by the wildcard. *)
Theorem character_iteration_counts (self : config) (k : nat) :
  (0 <= input_minlength self)%Z ->
  input_type self = lit "character_iteration" ->
  let A :=  (chars self) in
  let L := Z.to_nat (input_minlength self) in
  k < length A ^ L ->
  nth_error (yielded (make_input_generator self)) k
  = Some (single_plan self
            ((PyStr.join (counting_word A L k)) ++ (suffix self))).
Proof.
  intros Hlen Hty A L Hk.
  rewrite (character_iteration_yields self Hlen Hty). cbn [yielded].
  fold A L. rewrite nth_error_map, nth_error_words by assumption.
  reflexivity.
Qed.

Lemma character_iteration_counts_witness :
  ((0 <= input_minlength two_character_config)%Z
   /\ input_type two_character_config = lit "character_iteration"
   /\ 5 < 3 ^ 2)
  /\ nth_error (yielded (make_input_generator two_character_config)) 5
     = Some (single_plan two_character_config (lit "bc%")).
Proof.
  split; [split; [discriminate|split; [reflexivity|simpl; lia]]|].
  exact (character_iteration_counts two_character_config 5
           ltac:(discriminate) eq_refl ltac:(simpl; lia)).
Defined.

(** ** Further properties of the pagination follower *)

Ltac saved Hdir :=
  repeat match goal with
    | |- context [bind (save_training_page ?self (Some ?name)) ?k ?w] =>
        let w1 := fresh "w" in
        let E := fresh "E" in
        let Hb := fresh "Hb" in
        let Ht := fresh "Ht" in
        destruct (bind_save_training_page self name k w eq_refl)
          as (w1 & E & Hb & Ht);
        rewrite E; clear E; cbn [browser trace] in Hb, Ht
    | |- context [bind (save_screenshot ?self) ?k ?w] =>
        let w1 := fresh "w" in
        let E := fresh "E" in
        let Hb := fresh "Hb" in
        let Ht := fresh "Ht" in
        destruct (bind_save_screenshot self _ Hdir k w) as (w1 & E & Hb & Ht);
        rewrite E; clear E; cbn [browser trace] in Hb, Ht
    end.

Section FollowerBounds.

Context {B : Type} `{Controller B} `{Hashlib}.
Variable self : config.
Variable d : str.
Hypothesis Hdir : output_data_dir self = Some d.

Lemma next_loop_bounded N : forall fuel depth (w : world B) ixs bN,
  N < fuel ->
  formdepth self <> 0%Z ->
  next_chain self N (browser w) = Some (ixs, bN) ->
  (forall k, k < N -> (Z.of_nat (depth + k) <= formdepth self)%Z) ->
  (formdepth self < Z.of_nat (depth + N))%Z ->
  exists w',
    next_loop self fuel depth w = (Return (depth + N), w')
    /\ browser w' = bN
    /\ trace w' = trace w ++ map (fun j => EvSelectButton j true) ixs
    /\ length ixs = N.
Proof.
  induction N as [|N IH]; intros fuel depth w ixs bN Hfuel Hnz Hchain Hle Hgt;
    (destruct fuel as [|fuel]; [lia|]); cbn [next_loop next_chain] in *.
  - injection Hchain as <- <-.
    replace (negb (formdepth self =? 0)%Z
             && (Z.of_nat depth >? formdepth self)%Z) with true.
    + exists w. rewrite Nat.add_0_r, app_nil_r. auto.
    + symmetry. apply andb_true_iff. split.
      * apply negb_true_iff. now apply Z.eqb_neq.
      * rewrite Z.gtb_ltb. apply Z.ltb_lt. lia.
  - rewrite next_loop_continues
      by (right; specialize (Hle 0 ltac:(lia)); lia).
    destruct (first_next self (button_vectors (browser w)) 0) as [j|] eqn:Hj;
      [|discriminate].
    destruct (next_chain self N (select_button j true (browser w)))
      as [[ixs' b']|] eqn:Hc; [|discriminate].
    injection Hchain as <- <-.
    unfold get. unfold bind at 1. saved Hdir. unfold bind at 1.
    match goal with |- context [scan_buttons _ _ 0 depth ?w1] =>
      destruct (scan_buttons_some self d Hdir _ 0 depth j w1 Hj)
        as (w2 & Hscan & Hb2 & Ht2) end.
    rewrite Hscan.
    destruct (IH fuel (S depth) w2 ixs' b') as (w' & Hloop & Hb' & Ht' & Hlen).
    + lia.
    + assumption.
    + rewrite Hb2. congruence.
    + intros k Hk. specialize (Hle (S k) ltac:(lia)). lia.
    + lia.
    + exists w'. rewrite Hloop. replace (depth + S N) with (S depth + N) by lia.
      split; [reflexivity|]. split; [assumption|].
      rewrite Ht', Ht2, <- app_assoc. simpl. split; [|now f_equal].
      congruence.
Qed.

(** X9: a non-zero [formdepth] stops the loop once
    the hop counter exceeds it.  On a chain of pages that all show a next
    control, the follower therefore clicks [formdepth + 1] times when
    [formdepth] is positive, not at all when it is negative, and goes back
    as often. *)
Lemma keep_clicking_stops_at_bound (fuel : nat) (maxdepth : Z)
  (w : world B) (ixs : list nat) (bN : B) :
  let N := Z.to_nat (formdepth self + 1) in
  formdepth self <> 0%Z ->
  N < fuel ->
  next_chain self N (browser w) = Some (ixs, bN) ->
  exists w',
    keep_clicking_next_btns self fuel maxdepth w = (Return tt, w')
    /\ trace w' = trace w ++ map (fun j => EvSelectButton j true) ixs
                          ++ repeat EvBack N
    /\ length ixs = N.
Proof.
  intros N Hnz Hfuel Hchain. unfold keep_clicking_next_btns.
  destruct (next_loop_bounded N fuel 0 w ixs bN Hfuel Hnz Hchain)
    as (w1 & Hloop & Hb & Ht & Hlen); [subst N; simpl; lia..|].
  simpl in Hloop. rewrite (bind_return _ _ _ _ _ Hloop).
  destruct (go_back_spec N w1) as (w' & Hgo & _ & Ht' & _).
  exists w'. split; [assumption|].
  rewrite Ht', Ht, <- app_assoc. auto.
Qed.

Variable reachable : B -> Prop.
Hypothesis Hnext : forall b,
  reachable b ->
  exists j, first_next self (button_vectors b) 0 = Some j
            /\ reachable (select_button j true b).

Lemma next_loop_never_ends fuel : forall depth (w : world B),
  formdepth self = 0%Z ->
  reachable (browser w) ->
  exists w', next_loop self fuel depth w = (OutOfFuel, w').
Proof.
  induction fuel as [|fuel IH]; intros depth w Hz Hr; cbn [next_loop].
  - eexists. reflexivity.
  - rewrite next_loop_continues by now left.
    destruct (Hnext _ Hr) as (j & Hj & Hr').
    unfold get. unfold bind at 1. saved Hdir. unfold bind at 1.
    match goal with |- context [scan_buttons _ _ 0 depth ?w1] =>
      destruct (scan_buttons_some self d Hdir (button_vectors (browser w))
                  0 depth j w1 Hj) as (w2 & Hscan & Hb2 & Ht2) end.
    rewrite Hscan. apply IH; [assumption|]. rewrite Hb2. congruence.
Qed.

(** X10: with [formdepth = 0] nothing but a page without a next control ends
    the loop: where every page that can be reached shows one, the follower
    does not return, however many rounds it is given. *)
Lemma keep_clicking_never_ends (fuel : nat) (maxdepth : Z) (w : world B) :
  formdepth self = 0%Z ->
  reachable (browser w) ->
  fst (keep_clicking_next_btns self fuel maxdepth w) = OutOfFuel.
Proof.
  intros Hz Hr. unfold keep_clicking_next_btns.
  destruct (next_loop_never_ends fuel 0 w Hz Hr) as (w' & Hloop).
  unfold bind. now rewrite Hloop.
Qed.

End FollowerBounds.

(** ** Further properties of the crawl engine *)

Lemma count_app (f : event -> bool) (s t : list event) :
  count f (s ++ t) = count f s + count f t.
Proof. unfold count. now rewrite filter_app, length_app. Qed.

Section CrawlFacts.

Context {B : Type} `{Controller B} `{Hashlib}.
Variable self : config.

Lemma scan_forms_never_returns fuel forms : forall k (w : world B) ix out w',
  first_target_form self forms k = Some ix ->
  scan_forms self fuel forms k false w = (out, w') ->
  forall s, out <> Return s.
Proof.
  induction forms as [|f fs IH]; intros k w ix out w' Hfirst Hr;
    cbn [scan_forms first_target_form] in *; [discriminate|].
  apply bind_cases in Hr.
  destruct Hr as [([] & w1 & H1 & Hr)|(o & _ & _ & Hout)]; [|exact Hout].
  destruct (is_target_form self f); cbn [negb] in Hr;
    [|eapply IH; eassumption].
  apply bind_cases in Hr.
  destruct Hr as [([] & w2 & _ & Hr)|(o & _ & _ & Hout)]; [|exact Hout].
  apply bind_cases in Hr.
  destruct Hr as [([] & w3 & _ & Hr)|(o & _ & _ & Hout)]; [|exact Hout].
  apply bind_cases in Hr.
  destruct Hr as [(scraped' & w4 & H4 & Hr)|(o & _ & _ & Hout)]; [|exact Hout].
  destruct scraped'; [injection Hr as <- _; discriminate|].
  exfalso. pose proof H4 as Hnil.
  apply run_plans_not_scraped in Hnil. destruct Hnil as [Hnil _].
  destruct (make_input_generator_not_silent self Hnil) as (e & He).
  rewrite Hnil, He in H4. discriminate.
Qed.

(** X8: a page with a target form ends the crawl: whatever happens there, the
    call does not return to its caller, and the controller calls it issues
    all belong to the scraping of one form; no link of the page is
    clicked. *)
Lemma target_form_ends_crawl (fuel : nat) (depth : Z) (w : world B)
  (ix : nat) out w' :
  (depth <= maxdepth self)%Z ->
  first_target_form self (form_vectors (browser w)) 0 = Some ix ->
  run self (S fuel) depth w = (out, w') ->
  (forall u, out <> Return u)
  /\ exists added form,
       trace w' = trace w ++ added
       /\ Forall (form_phase_event form) added.
Proof.
  intros Hdepth Hfirst Hr. cbn [run] in Hr.
  replace (depth >? maxdepth self)%Z with false in Hr
    by (symmetry; rewrite Z.gtb_ltb; apply Z.ltb_ge; lia).
  apply bind_cases in Hr.
  destruct Hr as [([] & w1 & H1 & Hr)|(o & H1 & _ & Hout)].
  2:{ split; [exact Hout|]. apply save_screenshot_frame in H1.
      destruct H1 as [_ Ht]. exists [], 0. rewrite app_nil_r. auto. }
  apply save_screenshot_frame in H1. destruct H1 as [Hb1 Ht1].
  unfold get in Hr. unfold bind at 1 in Hr. rewrite Hb1 in Hr.
  apply bind_cases in Hr.
  destruct Hr as [(s & w2 & H2 & Hr)|(o & H2 & Ho & Hout)].
  { exfalso. exact (scan_forms_never_returns _ _ _ _ _ _ _ Hfirst H2 s eq_refl). }
  split; [exact Hout|].
  apply scan_forms_trace in H2.
  destruct H2 as (t & Et & [[-> _]|(_ & form & Ft)]);
    [now contradiction (Ho false)|].
  exists t, form. split; [congruence|assumption].
Qed.

Lemma follow_links_balance (recurse : Z -> M B unit) (depth : Z) :
  (forall dp (w w' : world B),
      recurse dp w = (Return tt, w') ->
      exists added,
        trace w' = trace w ++ added
        /\ count is_back added = S (count is_link_clicked added)) ->
  forall link_zip (w w' : world B),
    follow_links self recurse depth link_zip w = (Return tt, w') ->
    exists added,
      trace w' = trace w ++ added
      /\ count is_back added = count is_link_clicked added.
Proof.
  intros Hrec. induction link_zip as [|[ix text] rest IH]; intros w w' Hr;
    cbn [follow_links] in Hr.
  - injection Hr as <-. exists []. now rewrite app_nil_r.
  - destruct (depth =? maxdepth self)%Z.
    { injection Hr as <-. exists []. now rewrite app_nil_r. }
    unfold bind at 1 in Hr. unfold control_select_link in Hr.
    destruct (select_link ix (browser w)) as [clicked b'].
    match type of Hr with bind _ _ ?w1 = _ => set (w0 := w1) in * end.
    apply bind_cases in Hr.
    destruct Hr as [([] & w1 & H1 & Hr)|(o & _ & _ & Hout)];
      [|now contradiction (Hout tt)].
    apply IH in Hr. destruct Hr as (t2 & Et2 & Hc2).
    destruct clicked.
    + apply Hrec in H1. destruct H1 as (t1 & Et1 & Hc1).
      exists (EvSelectLink ix true :: t1 ++ t2). split.
      * rewrite Et2, Et1. subst w0. cbn [trace]. now rewrite <- !app_assoc.
      * change (EvSelectLink ix true :: t1 ++ t2)
          with ([EvSelectLink ix true] ++ t1 ++ t2).
        rewrite !count_app. cbn. lia.
    + injection H1 as <-. exists (EvSelectLink ix false :: t2). split.
      * rewrite Et2. subst w0. cbn [trace]. now rewrite <- app_assoc.
      * change (EvSelectLink ix false :: t2)
          with ([EvSelectLink ix false] ++ t2).
        rewrite !count_app. cbn. lia.
Qed.

(** X11: the undo discipline of the traversal: a call of the engine that
    returns has gone back once for itself and once for every link it or a
    nested call clicked successfully, so the browser is taken back as many
    steps as it was advanced, plus the one step of the caller's click. *)
Lemma run_goes_back_once_per_click fuel : forall depth (w w' : world B),
  run self fuel depth w = (Return tt, w') ->
  exists added,
    trace w' = trace w ++ added
    /\ count is_back added = S (count is_link_clicked added).
Proof.
  induction fuel as [|fuel IH]; intros depth w w' Hr; cbn [run] in Hr;
    [discriminate|].
  destruct (depth >? maxdepth self)%Z.
  { injection Hr as <-. exists [EvBack]. split; reflexivity. }
  apply bind_cases in Hr.
  destruct Hr as [([] & w1 & H1 & Hr)|(o & _ & _ & Hout)];
    [|now contradiction (Hout tt)].
  apply save_screenshot_frame in H1. destruct H1 as [_ Ht1].
  unfold get in Hr. unfold bind at 1 in Hr.
  apply bind_cases in Hr.
  destruct Hr as [(s & w2 & H2 & Hr)|(o & _ & _ & Hout)];
    [|now contradiction (Hout tt)].
  apply scan_forms_trace in H2.
  destruct H2 as (t & Et & [[_ ->]|(Hn & _)]); [|now contradiction (Hn s)].
  rewrite app_nil_r in Et.
  unfold bind at 1 in Hr. apply bind_cases in Hr.
  destruct Hr as [([] & w3 & H3 & Hr)|(o & _ & _ & Hout)];
    [|now contradiction (Hout tt)].
  apply (follow_links_balance _ _ IH) in H3.
  destruct H3 as (t3 & Et3 & Hc3).
  injection Hr as <-. exists (t3 ++ [EvBack]). cbn [trace]. split.
  - rewrite Et3, Et, Ht1. now rewrite app_assoc.
  - rewrite !count_app. cbn. lia.
Qed.

End CrawlFacts.

Section Termination.

Context {B : Type} `{Controller B} `{Hashlib}.
Variable self : config.
Variable d : str.
Hypothesis Hdir : output_data_dir self = Some d.

Variable reachable : B -> Prop.
Hypothesis Hforms : forall b,
  reachable b -> first_target_form self (form_vectors b) 0 = None.
Hypothesis Hinputs : forall b ix,
  reachable b -> ix < length (form_vectors b) -> has_inputs b ix = true.
Hypothesis Hlink : forall b ix, reachable b -> reachable (snd (select_link ix b)).
Hypothesis Hback : forall b, reachable b -> reachable (back b).

Lemma follow_links_returns (recurse : Z -> M B unit) (depth : Z) :
  ((depth < maxdepth self)%Z ->
   forall w : world B,
     reachable (browser w) ->
     exists w', recurse (depth + 1)%Z w = (Return tt, w')
                /\ reachable (browser w')) ->
  forall link_zip (w : world B),
    reachable (browser w) ->
    (depth <= maxdepth self)%Z ->
    exists w', follow_links self recurse depth link_zip w = (Return tt, w')
               /\ reachable (browser w').
Proof.
  intros Hrec. induction link_zip as [|[ix text] rest IH]; intros w Hr Hd;
    cbn [follow_links]; [exists w; now split|].
  destruct (Z.eqb_spec depth (maxdepth self)) as [_|Hne];
    [exists w; now split|].
  unfold bind at 1. unfold control_select_link.
  pose proof (Hlink _ ix Hr) as Hr1.
  destruct (select_link ix (browser w)) as [clicked b']. cbn [snd] in Hr1.
  match goal with |- context [bind _ _ ?w1] => set (w0 := w1) end.
  assert (Hr0 : reachable (browser w0)) by exact Hr1.
  destruct clicked.
  - destruct (Hrec ltac:(lia) w0 Hr0) as (w1 & H1 & Hr2).
    rewrite (bind_return _ _ _ _ _ H1). now apply IH.
  - unfold bind at 1. cbn [ret]. now apply IH.
Qed.

(** X12: the depth bound makes the traversal finite: on a site none of whose
    pages has a target form, with an output directory configured, a call at
    depth [depth] returns as soon as the model allows [maxdepth + 2 - depth]
    nested calls, and leaves the browser on a page of the site. *)
Lemma run_returns fuel : forall depth (w : world B),
  reachable (browser w) ->
  0 < fuel ->
  (maxdepth self + 2 - depth <= Z.of_nat fuel)%Z ->
  exists w', run self fuel depth w = (Return tt, w')
             /\ reachable (browser w').
Proof.
  induction fuel as [|fuel IH]; intros depth w Hr Hpos Hfuel; [lia|].
  cbn [run]. destruct (Z.gtb_spec depth (maxdepth self)) as [Hgt|Hle].
  { unfold control_back, act. eexists. split; [reflexivity|].
    cbn [browser]. now apply Hback. }
  destruct (save_screenshot_set self d w Hdir) as (w1 & H1 & Hb1 & Ht1).
  rewrite (bind_return _ _ _ _ _ H1). unfold get. unfold bind at 1.
  unfold bind at 1. rewrite Hb1.
  rewrite scan_forms_no_target;
    [|now apply Hforms|intros j Hj; rewrite Hb1; apply Hinputs; [assumption|lia]].
  unfold bind at 1. unfold bind at 1.
  destruct (follow_links_returns (run self fuel) depth) with
    (link_zip := sort_reverse (is_priority_link self)
                   (enumerate_from 0 (link_vectors (browser w1))))
    (w := w1) as (w2 & H2 & Hr2).
  - intros Hlt w0 Hr0. apply IH; [assumption|lia|lia].
  - now rewrite Hb1.
  - lia.
  - rewrite H2.
    unfold control_back, act. eexists. split; [reflexivity|].
    cbn [browser]. now apply Hback.
Qed.

End Termination.

Section LinkPhase.

Context {B : Type} `{Controller B} `{Hashlib}.
Variable self : config.

Lemma follow_links_all_fail (recurse : Z -> M B unit) (depth : Z)
  (b : B) :
  (depth <> maxdepth self)%Z ->
  (forall ix, select_link ix b = (false, b)) ->
  forall link_zip (w : world B),
    browser w = b ->
    exists w',
      follow_links self recurse depth link_zip w = (Return tt, w')
      /\ browser w' = b
      /\ trace w' = trace w
                    ++ map (fun r => EvSelectLink (fst r) false) link_zip.
Proof.
  intros Hd Hfail. induction link_zip as [|[ix text] rest IH]; intros w Hb;
    cbn [follow_links].
  - exists w. now rewrite app_nil_r.
  - destruct (Z.eqb_spec depth (maxdepth self)) as [?|_]; [contradiction|].
    unfold bind at 1. unfold control_select_link. rewrite Hb, Hfail.
    unfold bind at 1. cbn [ret].
    match goal with |- context [follow_links _ _ _ _ ?w1] =>
      destruct (IH w1 eq_refl) as (w' & Hr & Hb' & Ht') end.
    exists w'. split; [exact Hr|]. split; [exact Hb'|].
    rewrite Ht'. cbn [trace map fst]. now rewrite <- app_assoc.
Qed.

(** X3: failed clicks are skipped: on a page without a target form whose
    links cannot be clicked, a call above the depth bound tries every link
    once, those whose lowercased text contains [link_priority] first and
    each group in page order, never recurses, goes back once and returns. *)
Lemma run_skips_failed_links (d : str) (fuel : nat) (depth : Z)
  (w : world B) :
  output_data_dir self = Some d ->
  (depth < maxdepth self)%Z ->
  first_target_form self (form_vectors (browser w)) 0 = None ->
  (forall ix, ix < length (form_vectors (browser w)) ->
              has_inputs (browser w) ix = true) ->
  (forall ix, select_link ix (browser w) = (false, browser w)) ->
  let links := enumerate_from 0 (link_vectors (browser w)) in
  exists w',
    run self (S fuel) depth w = (Return tt, w')
    /\ trace w'
       = trace w
         ++ map (fun r => EvSelectLink (fst r) false)
              (filter (is_priority_link self) links
               ++ filter (fun r => negb (is_priority_link self r)) links)
         ++ [EvBack].
Proof.
  intros Hdir Hdepth Hforms Hin Hfail links. cbn [run].
  replace (depth >? maxdepth self)%Z with false
    by (symmetry; rewrite Z.gtb_ltb; apply Z.ltb_ge; lia).
  destruct (save_screenshot_set self d w Hdir) as (w1 & H1 & Hb1 & Ht1).
  rewrite (bind_return _ _ _ _ _ H1). unfold get. unfold bind at 1.
  unfold bind at 1. rewrite Hb1.
  rewrite scan_forms_no_target;
    [|assumption|intros j Hj; rewrite Hb1; apply Hin; lia].
  unfold bind at 1. unfold bind at 1. rewrite Hb1.
  destruct (follow_links_all_fail (run self fuel) depth (browser w)
              ltac:(lia) Hfail
              (sort_reverse (is_priority_link self) links) w1 Hb1)
    as (w2 & H2 & Hb2 & Ht2).
  fold links. rewrite H2. unfold control_back, act.
  eexists. split; [reflexivity|]. cbn [trace].
  rewrite Ht2, Ht1, <- app_assoc. now rewrite sort_reverse_partition.
Qed.

End LinkPhase.

Section ScrapePhase.

Context {B : Type} `{Controller B} `{Hashlib}.
Variable self : config.
Variable d : str.
Hypothesis Hdir : output_data_dir self = Some d.

Variable reachable : B -> Prop.
Hypothesis Hquiet : forall b,
  reachable b -> first_next self (button_vectors b) 0 = None.
Hypothesis Hinput : forall b form index value,
  reachable b -> reachable (input form index value b).
Hypothesis Hsubmit : forall b form, reachable b -> reachable (submit form b).
Hypothesis Hback : forall b, reachable b -> reachable (back b).

Lemma keep_clicking_no_next (fuel : nat) (maxdepth : Z) (w : world B) :
  first_next self (button_vectors (browser w)) 0 = None ->
  exists w',
    keep_clicking_next_btns self (S fuel) maxdepth w = (Return tt, w')
    /\ same_page w w'.
Proof.
  intros Hn. unfold keep_clicking_next_btns.
  assert (Hloop : exists w1,
             next_loop self (S fuel) 0 w = (Return 0, w1)
             /\ browser w1 = browser w
             /\ trace w1 = trace w ++ []).
  { destruct (Z.ltb_spec (formdepth self) 0) as [Hneg|Hpos].
    - destruct (next_loop_bounded self d Hdir 0 (S fuel) 0 w [] (browser w))
        as (w1 & Hr & Hb & Ht & _).
      + lia.
      + lia.
      + reflexivity.
      + intros k Hk. lia.
      + simpl. lia.
      + exists w1. auto.
    - destruct (next_loop_chain self d Hdir 0 (S fuel) 0 w [] (browser w))
        as (w1 & Hr & Hb & Ht & _).
      + lia.
      + reflexivity.
      + exact Hn.
      + destruct (Z.eq_dec (formdepth self) 0); [now left|right; simpl; lia].
      + exists w1. auto. }
  destruct Hloop as (w1 & Hr & Hb & Ht). rewrite app_nil_r in Ht.
  rewrite (bind_return _ _ _ _ _ Hr). cbn [go_back]. exists w1.
  split; [reflexivity|now split].
Qed.

Lemma fill_inputs_spec (ix : nat) (input_phase : plan) : forall w : world B,
  reachable (browser w) ->
  exists w',
    fill_inputs ix input_phase w = (Return tt, w')
    /\ reachable (browser w')
    /\ trace w' = trace w
                  ++ map (fun a => EvInput ix (a_index a) (a_string a))
                       input_phase.
Proof.
  induction input_phase as [|a rest IH]; intros w Hr; cbn [fill_inputs].
  - exists w. now rewrite app_nil_r.
  - unfold bind at 1. unfold control_input, act.
    match goal with |- context [fill_inputs ix rest ?w1] =>
      destruct (IH w1) as (w' & Hf & Hr' & Ht') end.
    + cbn [browser]. now apply Hinput.
    + exists w'. split; [exact Hf|]. split; [exact Hr'|].
      rewrite Ht'. cbn [trace map]. now rewrite <- app_assoc.
Qed.

Lemma run_plans_spec (fuel ix : nat) (plans : list plan) :
  forall (scraped : bool) (w : world B),
    reachable (browser w) ->
    exists w',
      run_plans self (S fuel) ix plans None scraped w
      = (Return (scraped || negb (Nat.eqb (length plans) 0)), w')
      /\ reachable (browser w')
      /\ trace w' = trace w ++ flat_map (plan_events ix) plans.
Proof.
  induction plans as [|p ps IH]; intros scraped w Hr; cbn [run_plans].
  - exists w. rewrite orb_false_r, app_nil_r. auto.
  - destruct (fill_inputs_spec ix p w Hr) as (w1 & H1 & Hr1 & Ht1).
    rewrite (bind_return _ _ _ _ _ H1).
    destruct (save_screenshot_set self d w1 Hdir) as (w2 & H2 & Hb2 & Ht2).
    rewrite (bind_return _ _ _ _ _ H2).
    unfold bind at 1. unfold control_submit at 1. unfold act at 1.
    match goal with |- context [bind (save_screenshot self) _ ?w0] =>
      destruct (save_screenshot_set self d w0 Hdir) as (w3 & H3 & Hb3 & Ht3)
    end.
    rewrite (bind_return _ _ _ _ _ H3). cbn [browser trace] in Hb3, Ht3.
    assert (Hr3 : reachable (browser w3)).
    { rewrite Hb3, Hb2. now apply Hsubmit. }
    destruct (keep_clicking_no_next fuel 3 w3 (Hquiet _ Hr3))
      as (w4 & H4 & Hb4 & Ht4).
    rewrite (bind_return _ _ _ _ _ H4).
    unfold bind at 1. unfold control_back at 1. unfold act at 1.
    match goal with |- context [run_plans self (S fuel) ix ps None true ?w0] =>
      destruct (IH true w0) as (w' & Hp & Hr' & Ht') end.
    + cbn [browser]. apply Hback. now rewrite Hb4.
    + exists w'. rewrite Hp. rewrite orb_true_r. cbn [orb].
      split; [reflexivity|]. split; [exact Hr'|].
      rewrite Ht'. cbn [trace flat_map]. unfold plan_events at 2.
      rewrite Ht4, Ht3, Ht2, Ht1. now rewrite <- !app_assoc.
Qed.

(** X5: on a site without next controls, scraping the first target form runs
    every plan of a generator that ends normally, in order: the plan's
    inputs are filled in order, the form is submitted, the browser goes
    back once; after the last plan the crawl exits with code 0. *)
Lemma run_scrapes_plan_by_plan (fuel : nat) (depth : Z) (w : world B)
  (ix : nat) :
  reachable (browser w) ->
  (depth <= maxdepth self)%Z ->
  first_target_form self (form_vectors (browser w)) 0 = Some ix ->
  (forall j, j <= ix -> has_inputs (browser w) j = true) ->
  raised (make_input_generator self) = None ->
  exists w',
    run self (S (S fuel)) depth w = (Exit 0, w')
    /\ trace w'
       = trace w
         ++ flat_map (plan_events ix) (yielded (make_input_generator self)).
Proof.
  intros Hr Hdepth Hfirst Hin Hend.
  destruct (yielded (make_input_generator self)) as [|p ps] eqn:Hplans.
  { destruct (make_input_generator_not_silent self Hplans) as (e & He).
    congruence. }
  destruct (save_screenshot_set self d w Hdir) as (w1 & H1 & Hb1 & Ht1).
  destruct (save_training_page_known self (lit "search_pages") w1 eq_refl)
    as (w2 & H2 & Hb2 & Ht2).
  destruct (save_screenshot_set self d w2 Hdir) as (w3 & H3 & Hb3 & Ht3).
  destruct (run_plans_spec fuel ix (p :: ps) false w3)
    as (w4 & H4 & _ & Ht4); [now rewrite Hb3, Hb2, Hb1|].
  exists w4. split.
  - apply (run_scrapes_and_exits self (S fuel) depth w ix p ps true w4);
      try assumption.
    + destruct (make_input_generator self) as [ys e]. cbn in *. congruence.
    + unfold scrape_form. rewrite (bind_return _ _ _ _ _ H1).
      rewrite (bind_return _ _ _ _ _ H2).
      rewrite (bind_return _ _ _ _ _ H3). exact H4.
  - rewrite Ht4. congruence.
Qed.

End ScrapePhase.

Section LateConfigurationError.

Context {B : Type} `{Controller B} `{Hashlib}.
Variable self : config.
Variable d : str.
Hypothesis Hdir : output_data_dir self = Some d.



End LateConfigurationError.

(** ** Further properties of the snapshot store *)

Lemma lookup_file_filter (path p : str) (l : list (str * str)) :
  p <> path ->
  lookup_file p (filter (fun f => negb (PyStr.eqb path (fst f))) l)
  = lookup_file p l.
Proof.
  intros Hp. induction l as [|[q data] l IH]; cbn [filter lookup_file fst];
    [reflexivity|].
  destruct (str_eqb_spec path q) as [<-|Hq]; cbn [negb lookup_file].
  - apply str_eqb_neq in Hp. now rewrite Hp.
  - now rewrite IH.
Qed.

Lemma read_snapshot_fs (classdir filepath html : str) (f : filesystem) :
  read_file filepath (snapshot_fs classdir filepath html f) = Some html
  /\ (forall p, p <> filepath ->
                read_file p (snapshot_fs classdir filepath html f)
                = read_file p f)
  /\ os_path_exists classdir (snapshot_fs classdir filepath html f) = true.
Proof.
  unfold snapshot_fs, read_file, write_file. cbn [files lookup_file].
  split; [now rewrite str_eqb_refl|]. split.
  - intros p Hp. apply str_eqb_neq in Hp as Hp'. rewrite Hp'.
    rewrite lookup_file_filter by assumption.
    now destruct (os_path_exists classdir f).
  - unfold os_path_exists. cbn [dirs files existsb fst].
    destruct (existsb (PyStr.eqb classdir) (dirs f)
              || existsb (fun x => PyStr.eqb classdir (fst x)) (files f))
      eqn:Hex.
    + apply orb_true_iff in Hex. apply orb_true_iff.
      destruct Hex as [Hd|Hf]; [now left|right].
      destruct (PyStr.eqb classdir filepath) eqn:Heq; [reflexivity|].
      cbn [orb]. apply existsb_exists in Hf. destruct Hf as (x & Hx & Hf).
      apply existsb_exists. exists x. split; [|assumption].
      apply filter_In. split; [assumption|].
      apply str_eqb_eq in Hf. subst classdir.
      apply negb_true_iff. now rewrite str_eqb_sym.
    + cbn [os_mkdir dirs existsb]. now rewrite str_eqb_refl.
Qed.

Lemma save_screenshot_writes
  {B : Type} `{Controller B} `{Hashlib} (self : config) (d : str)
  (w : world B) :
  output_data_dir self = Some d ->
  save_screenshot self w
  = (Return tt,
     {| browser := browser w;
        fs := snapshot_fs (screenshot_dir self)
                (screenshot_path self (clock w (ticks w)))
                (get_screenshot_as_png (browser w)) (fs w);
        clock := clock w; ticks := S (ticks w); trace := trace w |}).
Proof.
  intros Hd. unfold save_screenshot, screenshot_path, screenshot_dir,
    snapshot_fs.
  rewrite Hd. destruct (os_path_join_some d (lit "screenshots")) as [dir Hc].
  rewrite Hc.
  destruct (os_path_join_some dir
              (str_of_int (clock w (ticks w)) ++ lit ".png"))
    as [filepath Hp].
  rewrite Hp. unfold_steps. cbn [fs browser clock ticks].
  destruct (os_path_exists dir (fs w)); cbn [fs browser];
    rewrite Hp; reflexivity.
Qed.

(** X14: a saved snapshot can be read back: after [save_training_page] with a
    known category and an output directory, the category's directory
    exists, the file named after the page's digest holds the page's HTML,
    and every other file is as it was. *)
Theorem saved_page_reads_back
  {B : Type} `{Controller B} `{Hashlib} (self : config) (name : str)
  (w : world B) :
  In name classes ->
  truthy (output_data_dir self) = true ->
  let html := page_html (browser w) in
  let path := snapshot_path self name html in
  exists w',
    save_training_page self (Some name) w = (Return tt, w')
    /\ read_file path (fs w') = Some html
    /\ (forall p, p <> path -> read_file p (fs w') = read_file p (fs w))
    /\ os_path_exists (snapshot_dir self name) (fs w') = true.
Proof.
  intros Hn Hd html path.
  assert (Hk : existsb (PyStr.eqb name) classes = true).
  { apply existsb_exists. exists name. split; [assumption|].
    apply str_eqb_refl. }
  rewrite (save_training_page_writes self name w Hk Hd).
  eexists. split; [reflexivity|]. cbn [fs]. apply read_snapshot_fs.
Qed.

(** X15: screenshots are named after the second they are taken in: a second
    screenshot of the same page within the same second replaces the first
    and leaves the file system as it was; the file holds the picture. *)
Theorem screenshots_in_one_second
  {B : Type} `{Controller B} `{Hashlib} (self : config) (d : str)
  (w : world B) :
  output_data_dir self = Some d ->
  clock w (S (ticks w)) = clock w (ticks w) ->
  exists w1 w2,
    save_screenshot self w = (Return tt, w1)
    /\ save_screenshot self w1 = (Return tt, w2)
    /\ fs w2 = fs w1
    /\ read_file (screenshot_path self (clock w (ticks w))) (fs w2)
       = Some (get_screenshot_as_png (browser w)).
Proof.
  intros Hd Hclock.
  rewrite (save_screenshot_writes self d w Hd).
  eexists. eexists. split; [reflexivity|].
  rewrite (save_screenshot_writes self d _ Hd).
  cbn [browser fs clock ticks]. rewrite Hclock.
  split; [reflexivity|]. cbn [fs]. rewrite snapshot_fs_again.
  split; [reflexivity|]. apply read_snapshot_fs.
Qed.

(** X16: an output directory that is the empty string counts as missing for
    snapshots and as the current directory for screenshots: the snapshot
    writer writes nothing, the screenshot writer makes the directory
    [screenshots] and writes the picture into it. *)
Theorem empty_output_dir
  {B : Type} `{Controller B} `{Hashlib} (self : config) (name : str)
  (w : world B) :
  output_data_dir self = Some [] ->
  In name classes ->
  save_training_page self (Some name) w = (Return tt, w)
  /\ exists w',
       save_screenshot self w = (Return tt, w')
       /\ screenshot_dir self = lit "screenshots"
       /\ os_path_exists (lit "screenshots") (fs w') = true
       /\ read_file (screenshot_path self (clock w (ticks w))) (fs w')
          = Some (get_screenshot_as_png (browser w)).
Proof.
  intros Hd Hn.
  assert (Hk : existsb (PyStr.eqb name) classes = true).
  { apply existsb_exists. exists name. split; [assumption|].
    apply str_eqb_refl. }
  split; [apply save_training_page_unset; [now rewrite Hd|assumption]|].
  rewrite (save_screenshot_writes self [] w Hd).
  eexists. split; [reflexivity|]. cbn [fs].
  assert (Hs : screenshot_dir self = lit "screenshots").
  { unfold screenshot_dir. now rewrite Hd. }
  split; [exact Hs|]. rewrite <- Hs at 1.
  split; apply read_snapshot_fs.
Qed.

(** ** The further properties on concrete sites *)

Lemma on_site_link (site : list Site.page) (b : Site.state) (ix : nat) :
  Site.on_site site b -> Site.on_site site (snd (select_link ix b)).
Proof.
  unfold Site.on_site. cbn [select_link Site.controller]. unfold Site.click_link.
  destruct (nth_error _ ix) as [[text [target|]]|]; cbn; auto.
Qed.

Lemma on_site_back (site : list Site.page) (b : Site.state) :
  Site.on_site site b -> Site.on_site site (back b).
Proof.
  unfold Site.on_site. cbn [back Site.controller]. unfold Site.go_back.
  destruct (Site.visited b) as [|n [|m l]]; cbn; auto.
Qed.

Lemma target_form_ends_crawl_witness :
  let self := example_config (Some (lit "out")) 0
                (lit "fixed_strings") (lit "a") in
  let w := Site.start Site.search_only in
  let r := run self 4 0 w in
  ((0 <= maxdepth self)%Z
   /\ first_target_form self (form_vectors (browser w)) 0 = Some 0)
  /\ (forall u, fst r <> Return u)
  /\ exists added form,
       trace (snd r) = trace w ++ added
       /\ Forall (form_phase_event form) added.
Proof.
  cbv zeta.
  assert (H1 : (0 <= maxdepth
                      (example_config (Some (lit "out")) 0
                         (lit "fixed_strings") (lit "a")))%Z) by discriminate.
  assert (H2 : first_target_form
                 (example_config (Some (lit "out")) 0
                    (lit "fixed_strings") (lit "a"))
                 (form_vectors (browser (Site.start Site.search_only))) 0
               = Some 0) by (vm_compute; reflexivity).
  split; [split; [exact H1|exact H2]|].
  exact (target_form_ends_crawl _ 3 0%Z _ 0 _ _ H1 H2
           (surjective_pairing _)).
Defined.

Lemma keep_clicking_stops_at_bound_witness :
  let self := example_config (Some (lit "out")) 2
                (lit "fixed_strings") (lit "a") in
  let w := Site.start_at Site.long_results 1 in
  let bN := {| Site.pages := Site.long_results;
               Site.visited := [4; 3; 2; 1; 0] |} in
  (formdepth self <> 0%Z
   /\ Z.to_nat (formdepth self + 1) < 6
   /\ next_chain self (Z.to_nat (formdepth self + 1)) (browser w)
      = Some ([1; 1; 1], bN))
  /\ exists w',
       keep_clicking_next_btns self 6 3 w = (Return tt, w')
       /\ trace w' = trace w ++ repeat (EvSelectButton 1 true) 3
                                 ++ repeat EvBack 3.
Proof.
  cbv zeta.
  assert (Hnz : formdepth (example_config (Some (lit "out")) 2
                             (lit "fixed_strings") (lit "a")) <> 0%Z) by discriminate.
  assert (Hfuel : Z.to_nat (formdepth (example_config (Some (lit "out")) 2
                                         (lit "fixed_strings") (lit "a")) + 1) < 6)
    by (vm_compute; lia).
  assert (Hc : next_chain (example_config (Some (lit "out")) 2
                             (lit "fixed_strings") (lit "a"))
                 (Z.to_nat (formdepth (example_config (Some (lit "out")) 2
                                         (lit "fixed_strings") (lit "a")) + 1))
                 (browser (Site.start_at Site.long_results 1))
               = Some ([1; 1; 1],
                       {| Site.pages := Site.long_results;
                          Site.visited := [4; 3; 2; 1; 0] |}))
    by (vm_compute; reflexivity).
  split; [split; [exact Hnz|split; [exact Hfuel|exact Hc]]|].
  destruct (keep_clicking_stops_at_bound
              (example_config (Some (lit "out")) 2
                 (lit "fixed_strings") (lit "a"))
              (lit "out") eq_refl 6 3 (Site.start_at Site.long_results 1)
              _ _ Hnz Hfuel Hc) as (w' & Hr & Ht & _).
  exists w'. split; [exact Hr|exact Ht].
Defined.

Lemma keep_clicking_never_ends_witness :
  let self := crawl_config 1 in
  let w := Site.start Site.carousel in
  formdepth self = 0%Z
  /\ fst (keep_clicking_next_btns self 100 3 w) = OutOfFuel.
Proof.
  cbv zeta. split; [reflexivity|].
  apply (keep_clicking_never_ends (crawl_config 1) (lit "out") eq_refl
           (fun b => Site.pages b = Site.carousel
                     /\ hd 0 (Site.visited b) = 0)).
  - intros [pages visited] [Hp Hv]. cbn [Site.pages Site.visited] in Hp, Hv.
    subst pages. exists 0.
    cbn [button_vectors select_button Site.controller].
    unfold Site.current, Site.click_button, Site.current.
    cbn [Site.pages Site.visited]. rewrite Hv. split; [reflexivity|].
    cbn. split; reflexivity.
  - reflexivity.
  - split; reflexivity.
Defined.

Lemma run_goes_back_once_per_click_witness :
  let r := run (crawl_config 1) 5 0 (Site.start Site.link_page) in
  r = (Return tt, snd r)
  /\ trace (snd r)
     = [EvSelectLink 1 true; EvBack; EvSelectLink 0 true; EvBack;
        EvSelectLink 2 false; EvBack]
  /\ exists added,
       trace (snd r) = trace (Site.start Site.link_page) ++ added
       /\ count is_back added = S (count is_link_clicked added).
Proof.
  cbv zeta.
  assert (Hr : run (crawl_config 1) 5 0 (Site.start Site.link_page)
               = (Return tt,
                  snd (run (crawl_config 1) 5 0 (Site.start Site.link_page))))
    by (vm_compute; reflexivity).
  split; [exact Hr|]. split; [vm_compute; reflexivity|].
  exact (run_goes_back_once_per_click (crawl_config 1) 5 0%Z _ _ Hr).
Defined.

Lemma link_page_forms (b : Site.state) :
  Site.on_site Site.link_page b ->
  first_target_form (crawl_config 1) (form_vectors b) 0 = None.
Proof.
  destruct b as [pages visited]. unfold Site.on_site. cbn [Site.pages].
  intros ->. cbn [form_vectors Site.controller]. unfold Site.current.
  cbn [Site.pages Site.visited].
  destruct (hd 0 visited) as [|[|[|n]]]; reflexivity.
Qed.

Lemma site_inputs (b : Site.state) (ix : nat) :
  ix < length (form_vectors b) -> has_inputs b ix = true.
Proof. intros Hix. now apply Nat.ltb_lt. Qed.

Lemma run_returns_witness :
  let self := crawl_config 1 in
  let w := Site.start Site.link_page in
  (0 < 3 /\ (maxdepth self + 2 - 0 <= Z.of_nat 3)%Z)
  /\ exists w', run self 3 0 w = (Return tt, w').
Proof.
  cbv zeta. split; [split; [lia|discriminate]|].
  destruct (run_returns (crawl_config 1) (lit "out") eq_refl
              (Site.on_site Site.link_page) link_page_forms
              (fun b ix _ => site_inputs b ix)
              (fun b ix => on_site_link Site.link_page b ix)
              (on_site_back Site.link_page)
              3 0%Z (Site.start Site.link_page) eq_refl
              ltac:(lia) ltac:(discriminate)) as (w' & Hr & _).
  exists w'. exact Hr.
Defined.

Lemma run_skips_failed_links_witness :
  let self := crawl_config 1 in
  let w := Site.start Site.dead_links in
  ((0 < maxdepth self)%Z
   /\ first_target_form self (form_vectors (browser w)) 0 = None
   /\ forall ix, select_link ix (browser w) = (false, browser w))
  /\ exists w',
       run self 2 0 w = (Return tt, w')
       /\ trace w' = [EvSelectLink 1 false; EvSelectLink 0 false;
                      EvSelectLink 2 false; EvBack].
Proof.
  cbv zeta.
  assert (Hfail : forall ix,
             select_link ix (browser (Site.start Site.dead_links))
             = (false, browser (Site.start Site.dead_links))).
  { intros [|[|[|[|ix]]]]; reflexivity. }
  assert (Hforms : first_target_form (crawl_config 1)
                     (form_vectors (browser (Site.start Site.dead_links))) 0
                   = None) by reflexivity.
  split; [split; [reflexivity|split; [exact Hforms|exact Hfail]]|].
  destruct (run_skips_failed_links (crawl_config 1) (lit "out") 1 0%Z
              (Site.start Site.dead_links) eq_refl eq_refl Hforms
              (fun ix => site_inputs _ ix) Hfail)
    as (w' & Hr & Ht).
  exists w'. split; [exact Hr|exact Ht].
Defined.

Lemma run_scrapes_plan_by_plan_witness :
  let self := example_config (Some (lit "out")) 0
                (lit "fixed_strings") (lit "a,b") in
  let w := Site.start Site.search_only in
  ((0 <= maxdepth self)%Z
   /\ first_target_form self (form_vectors (browser w)) 0 = Some 0
   /\ raised (make_input_generator self) = None)
  /\ exists w',
       run self 3 0 w = (Exit 0, w')
       /\ trace w' = [EvInput 0 0 (lit "a"); EvSubmit 0; EvBack;
                      EvInput 0 0 (lit "b"); EvSubmit 0; EvBack].
Proof.
  cbv zeta. split; [split; [discriminate|split; reflexivity]|].
  destruct (run_scrapes_plan_by_plan
              (example_config (Some (lit "out")) 0
                 (lit "fixed_strings") (lit "a,b"))
              (lit "out") eq_refl (Site.on_site Site.search_only))
    with (fuel := 1) (depth := 0%Z) (w := Site.start Site.search_only)
         (ix := 0) as (w' & Hr & Ht).
  - intros [pages visited]. unfold Site.on_site. cbn [Site.pages].
    intros ->. cbn [button_vectors Site.controller]. unfold Site.current.
    cbn [Site.pages Site.visited].
    destruct (hd 0 visited) as [|[|[|n]]]; reflexivity.
  - intros b form index value Hb. exact Hb.
  - intros b form Hb. exact Hb.
  - apply on_site_back.
  - reflexivity.
  - discriminate.
  - reflexivity.
  - intros j Hj. replace j with 0 by lia. reflexivity.
  - reflexivity.
  - exists w'. split; [exact Hr|exact Ht].
Defined.


Lemma saved_page_reads_back_witness :
  let self := crawl_config 1 in
  let w := Site.start Site.search_only in
  (In (lit "data_pages") classes
   /\ truthy (output_data_dir self) = true)
  /\ exists w',
       save_training_page self (Some (lit "data_pages")) w = (Return tt, w')
       /\ read_file (snapshot_path self (lit "data_pages") (page_html (browser w)))
            (fs w') = Some (page_html (browser w)).
Proof.
  cbv zeta.
  assert (Hn : In (lit "data_pages") classes) by (now left).
  split; [split; [exact Hn|reflexivity]|].
  destruct (saved_page_reads_back (crawl_config 1) (lit "data_pages")
              (Site.start Site.search_only) Hn eq_refl)
    as (w' & Hr & Hread & _).
  exists w'. split; [exact Hr|exact Hread].
Defined.

Lemma screenshots_in_one_second_witness :
  let self := crawl_config 1 in
  let w := Site.frozen Site.search_only in
  (output_data_dir self = Some (lit "out")
   /\ clock w (S (ticks w)) = clock w (ticks w))
  /\ exists w1 w2,
       save_screenshot self w = (Return tt, w1)
       /\ save_screenshot self w1 = (Return tt, w2)
       /\ fs w2 = fs w1.
Proof.
  cbv zeta. split; [split; reflexivity|].
  destruct (screenshots_in_one_second (crawl_config 1) (lit "out")
              (Site.frozen Site.search_only) eq_refl eq_refl)
    as (w1 & w2 & H1 & H2 & Hfs & _).
  exists w1, w2. split; [exact H1|]. split; [exact H2|exact Hfs].
Defined.

Lemma empty_output_dir_witness :
  let self := example_config (Some []) 0 (lit "fixed_strings") (lit "a") in
  let w := Site.start Site.search_only in
  (output_data_dir self = Some []
   /\ In (lit "search_pages") classes)
  /\ save_training_page self (Some (lit "search_pages")) w = (Return tt, w)
  /\ exists w',
       save_screenshot self w = (Return tt, w')
       /\ os_path_exists (lit "screenshots") (fs w') = true.
Proof.
  cbv zeta.
  assert (Hn : In (lit "search_pages") classes)
    by (right; right; right; right; now left).
  split; [split; [reflexivity|exact Hn]|].
  destruct (empty_output_dir
              (example_config (Some []) 0 (lit "fixed_strings") (lit "a"))
              (lit "search_pages") (Site.start Site.search_only) eq_refl Hn)
    as (Hsave & w' & Hshot & _ & Hdir & _).
  split; [exact Hsave|]. exists w'. split; [exact Hshot|exact Hdir].
Defined.
